(** * go-backend-template: authentication and authorization core

    A shallow embedding of the authentication/authorization subsystem of the
    Go backend template: the bcrypt password hasher, the HS256 token service,
    the gin access-policy middleware, the domain error taxonomy, the user
    service and the PostgreSQL user repository it is wired to, the user
    handlers and the route table.

    Conventions.
    - Go [int] is modelled as [Z]; conversions that wrap ([rune(x)]) are
      written out.
    - Go [string] is a byte sequence: Rocq [string] (a list of 8-bit [ascii]).
    - A Go [(T, error)] result is a pair whose second component is an
      [option error] ([None] is [nil]); a nilable pointer is an [option].
    - The user service is written against the interfaces [IUserRepository]
      and [IPasswordHasher]; it is embedded as a program over their calls
      ([Prog]) and run against an implementation, which records every call.
    - [time.Now()] is an explicit parameter [now], in nanoseconds. *)

From Stdlib Require Import ZArith String Ascii List Bool Lia.
From stdpp Require Import base option gmap strings.

Open Scope string_scope.
Open Scope Z_scope.

Set Warnings "-register-all".

(* ===================================================================== *)
(** * Go primitives used by the sources *)
(* ===================================================================== *)

Module Go.

(** [rune(x)] for [x : int]: truncation to a signed 32-bit value. *)
Definition rune_of_int (x : Z) : Z :=
  (x + 2 ^ 31) mod 2 ^ 32 - 2 ^ 31.

Definition byte (z : Z) : ascii := ascii_of_N (Z.to_N (z mod 256)).

Definition bytes (l : list Z) : string :=
  fold_right (fun z s => String (byte z) s) EmptyString l.

(** unicode/utf8 constants. *)
Definition MaxRune : Z := 1114111.       (* U+10FFFF *)
Definition RuneError : Z := 65533.       (* U+FFFD *)
Definition surrogateMin : Z := 55296.    (* 0xD800 *)
Definition surrogateMax : Z := 57343.    (* 0xDFFF *)

(** [utf8.AppendRune(nil, r)]: the switch of [encoderune] on [uint32(r)]. *)
Definition utf8_encode (r : Z) : list Z :=
  let i := r mod 2 ^ 32 in
  if i <=? 127 then [r]
  else if i <=? 2047 then
    [Z.lor 192 (Z.shiftr r 6); Z.lor 128 (Z.land r 63)]
  else
    let r := if (MaxRune <? i) || ((surrogateMin <=? i) && (i <=? surrogateMax))
             then RuneError else r in
    let i := if (MaxRune <? i) || ((surrogateMin <=? i) && (i <=? surrogateMax))
             then RuneError else i in
    if i <=? 65535 then
      [Z.lor 224 (Z.shiftr r 12);
       Z.lor 128 (Z.land (Z.shiftr r 6) 63);
       Z.lor 128 (Z.land r 63)]
    else
      [Z.lor 240 (Z.shiftr r 18);
       Z.lor 128 (Z.land (Z.shiftr r 12) 63);
       Z.lor 128 (Z.land (Z.shiftr r 6) 63);
       Z.lor 128 (Z.land r 63)].

(** [string(r)] for [r : rune]: the UTF-8 encoding of the code point,
    ["�"] for values that are not valid code points. *)
Definition string_of_rune (r : Z) : string := bytes (utf8_encode r).

(** [strings.HasPrefix(s, prefix)]. *)
Definition HasPrefix (s prefix : string) : bool := String.prefix prefix s.

(** [strings.TrimPrefix(s, prefix)]. *)
Definition TrimPrefix (s prefix : string) : string :=
  if HasPrefix s prefix
  then String.substring (String.length prefix)
                        (String.length s - String.length prefix) s
  else s.

(** [strings.Contains(s, substr)]. *)
Fixpoint Contains (s substr : string) : bool :=
  String.prefix substr s ||
  match s with
  | EmptyString => false
  | String _ s' => Contains s' substr
  end.

(** [strings.Split(s, ".")]-style splitting on one separator byte. *)
Fixpoint Split (s : string) (sep : ascii) : list string :=
  match s with
  | EmptyString => [EmptyString]
  | String c s' =>
      if Ascii.eqb c sep then EmptyString :: Split s' sep
      else match Split s' sep with
           | [] => [String c EmptyString]
           | x :: xs => String c x :: xs
           end
  end.

(** Decimal digits of a non-negative number, most significant first;
    [fuel] bounds the number of digits. *)
Fixpoint digits (fuel : nat) (n : Z) (acc : string) : string :=
  match fuel with
  | O => acc
  | S fuel' =>
      let acc' := String (byte (48 + n mod 10)) acc in
      if n <? 10 then acc' else digits fuel' (n / 10) acc'
  end.

(** [strconv.Itoa(n)] (also what [%d] prints). *)
Definition Itoa (n : Z) : string :=
  if n <? 0 then String "-" (digits 20 (- n) EmptyString)
  else digits 20 n EmptyString.

Definition is_digit (c : ascii) : bool :=
  let n := Z.of_N (N_of_ascii c) in (48 <=? n) && (n <=? 57).

Fixpoint parse_digits (s : string) (acc : Z) : option Z :=
  match s with
  | EmptyString => Some acc
  | String c s' =>
      if is_digit c
      then parse_digits s' (10 * acc + (Z.of_N (N_of_ascii c) - 48))
      else None
  end.

Definition MinInt : Z := - 2 ^ 63.
Definition MaxInt : Z := 2 ^ 63 - 1.

(** [strconv.Atoi(s)]: an optional sign, then one or more decimal digits,
    the value within the range of [int]; [None] is a non-nil error. *)
Definition Atoi (s : string) : option Z :=
  let body_sign :=
    match s with
    | String "+" s' => (s', 1)
    | String "-" s' => (s', -1)
    | _ => (s, 1)
    end in
  match fst body_sign with
  | EmptyString => None
  | body =>
      match parse_digits body 0 with
      | Some n =>
          let v := snd body_sign * n in
          if (MinInt <=? v) && (v <=? MaxInt) then Some v else None
      | None => None
      end
  end.

(** A result of [int] arithmetic: wrap-around to 64 bits, signed. *)
Definition int (z : Z) : Z := (z + 2 ^ 63) mod 2 ^ 64 - 2 ^ 63.

End Go.

(* ===================================================================== *)
(** * Errors: sentinel values, wrapping, and the domain error taxonomy *)
(* ===================================================================== *)

(** Go's [error] interface, with the dynamic types that occur in the
    sources.  A value made by [errors.New] is a pointer and is [==] only to
    itself: [New site text] carries the variable that declares it, so two
    sentinels with the same text are different values.  [Wrap msg inner] is
    an error with an [Unwrap() error] method ([fmt.Errorf] with [%w]); [msg]
    is its formatted text.  [Join errs] is an error with an
    [Unwrap() []error] method (the joined errors of golang-jwt).  The
    remaining constructors are the struct types of
    [internal/pkg/domain/errors.go]. *)
Inductive error : Type :=
| New (site text : string)
| Wrap (msg : string) (inner : error)
| Join (errs : list error)
| InternalServerError (Msg : string) (Err : option error)
| UnauthorizedError (Reason : string)
| ForbiddenError (Reason : string)
| ValidationError (Field Message : string)
| UserNotFoundError (Id : Z) (Email : string)
| UserAlreadyExistsError (Email : string)
| InvalidCredentialsError
| InvalidRoleError (Role : string).

Module errors.

(** [err == target] on interface values. *)
Fixpoint eqb (a b : error) : bool :=
  match a, b with
  | New s1 t1, New s2 t2 => String.eqb s1 s2 && String.eqb t1 t2
  | Wrap m1 e1, Wrap m2 e2 => String.eqb m1 m2 && eqb e1 e2
  | Join l1, Join l2 =>
      (fix all2 (l1 l2 : list error) : bool :=
         match l1, l2 with
         | [], [] => true
         | x :: l1', y :: l2' => eqb x y && all2 l1' l2'
         | _, _ => false
         end) l1 l2
  | InternalServerError m1 e1, InternalServerError m2 e2 =>
      String.eqb m1 m2 &&
      match e1, e2 with
      | None, None => true
      | Some x, Some y => eqb x y
      | _, _ => false
      end
  | UnauthorizedError r1, UnauthorizedError r2 => String.eqb r1 r2
  | ForbiddenError r1, ForbiddenError r2 => String.eqb r1 r2
  | ValidationError f1 m1, ValidationError f2 m2 =>
      String.eqb f1 f2 && String.eqb m1 m2
  | UserNotFoundError i1 e1, UserNotFoundError i2 e2 =>
      (i1 =? i2) && String.eqb e1 e2
  | UserAlreadyExistsError e1, UserAlreadyExistsError e2 => String.eqb e1 e2
  | InvalidCredentialsError, InvalidCredentialsError => true
  | InvalidRoleError r1, InvalidRoleError r2 => String.eqb r1 r2
  | _, _ => false
  end.

(** [errors.Is(err, target)] for a non-nil [err]: equality, then the
    [Unwrap] chain.  The domain error structs have no [Unwrap] method. *)
Fixpoint Is (err target : error) : bool :=
  eqb err target ||
  match err with
  | Wrap _ inner => Is inner target
  | Join errs =>
      (fix any (l : list error) : bool :=
         match l with
         | [] => false
         | e :: l' => Is e target || any l'
         end) errs
  | _ => false
  end.

End errors.

(** [internal/pkg/repository/errors.go] *)
Module repository.
Definition ErrUserNotFound : error :=
  New "repository.ErrUserNotFound" "user not found".
Definition ErrDuplicateEmail : error :=
  New "repository.ErrDuplicateEmail" "email already exists".
End repository.

(** [database/sql] *)
Module sql.
Definition ErrNoRows : error := New "sql.ErrNoRows" "sql: no rows in result set".
End sql.

(** [net/http] status codes. *)
Module http.
Definition StatusOK : Z := 200.
Definition StatusCreated : Z := 201.
Definition StatusBadRequest : Z := 400.
Definition StatusUnauthorized : Z := 401.
Definition StatusForbidden : Z := 403.
Definition StatusNotFound : Z := 404.
Definition StatusConflict : Z := 409.
Definition StatusInternalServerError : Z := 500.
End http.

(** [internal/pkg/entity/user.go] *)
Module entity.

Record User : Type := mkUser {
  Id : Z;
  Email : string;
  Username : string;
  Password : string;
  Name : string;
  Role : string;
  IsActive : bool;
  CreatedAt : Z;
  UpdatedAt : Z
}.

Definition RoleAdmin : string := "admin".
Definition RoleUser : string := "user".
Definition RoleViewer : string := "viewer".

Definition IsValidRole (role : string) : bool :=
  if String.eqb role RoleAdmin then true
  else if String.eqb role RoleUser then true
  else if String.eqb role RoleViewer then true
  else false.

End entity.

(** [internal/pkg/domain/errors.go] *)
Module domain.

(** The type assertion [err.(domain.DomainError)]. *)
Definition IsDomainError (e : error) : bool :=
  match e with
  | New _ _ | Wrap _ _ | Join _ => false
  | _ => true
  end.

(** The [Error()] method of every error value. *)
Fixpoint Error (e : error) : string :=
  match e with
  | New _ text => text
  | Wrap msg _ => msg
  | Join errs =>
      (fix lines (l : list error) : string :=
         match l with
         | [] => ""
         | [e] => Error e
         | e :: l' => Error e +:+ ": " +:+ lines l'
         end) errs
  | InternalServerError Msg (Some err) => Msg +:+ ": " +:+ Error err
  | InternalServerError Msg None => Msg
  | UnauthorizedError Reason => "unauthorized: " +:+ Reason
  | ForbiddenError Reason => "forbidden: " +:+ Reason
  | ValidationError Field Message =>
      if negb (String.eqb Field "")
      then "validation error on field '" +:+ Field +:+ "': " +:+ Message
      else "validation error: " +:+ Message
  | UserNotFoundError Id Email =>
      if negb (Id =? 0) then "user not found with id: " +:+ Go.Itoa Id
      else if negb (String.eqb Email "")
           then "user not found with email: " +:+ Email
           else "user not found"
  | UserAlreadyExistsError Email => "user already exists with email: " +:+ Email
  | InvalidCredentialsError => "invalid email or password"
  | InvalidRoleError Role => "invalid role: " +:+ Role
  end.

(** The [HTTPStatus()] method of the domain errors; [None] for error
    values that do not implement [DomainError]. *)
Definition HTTPStatus (e : error) : option Z :=
  match e with
  | New _ _ | Wrap _ _ | Join _ => None
  | InternalServerError _ _ => Some http.StatusInternalServerError
  | UnauthorizedError _ => Some http.StatusUnauthorized
  | ForbiddenError _ => Some http.StatusForbidden
  | ValidationError _ _ => Some http.StatusBadRequest
  | UserNotFoundError _ _ => Some http.StatusNotFound
  | UserAlreadyExistsError _ => Some http.StatusConflict
  | InvalidCredentialsError => Some http.StatusUnauthorized
  | InvalidRoleError _ => Some http.StatusBadRequest
  end.

End domain.

(* ===================================================================== *)
(** * Credential hasher: [internal/pkg/auth/password.go] *)
(* ===================================================================== *)

(** Cost bounds of [golang.org/x/crypto/bcrypt]. *)
Module bcrypt.
Definition MinCost : Z := 4.
Definition MaxCost : Z := 31.
Definition DefaultCost : Z := 10.
Definition ErrMismatchedHashAndPassword : error :=
  New "bcrypt.ErrMismatchedHashAndPassword"
      "crypto/bcrypt: hashedPassword is not the hash of the given password".
End bcrypt.

Module password.

Record PasswordHasher : Type := mkPasswordHasher { cost : Z }.

(** [NewPasswordHasher]: there is no error result. *)
Definition NewPasswordHasher (cost : Z) : PasswordHasher :=
  let cost :=
    if (cost <? bcrypt.MinCost) || (cost >? bcrypt.MaxCost)
    then bcrypt.DefaultCost else cost in
  mkPasswordHasher cost.

End password.

(* ===================================================================== *)
(** * Token service: [internal/pkg/auth/jwt.go] over golang-jwt/jwt v5 *)
(* ===================================================================== *)

(** [encoding/base64], [RawURLEncoding]: the unpadded URL alphabet, as used
    by [jwt.Token.EncodeSegment] and [jwt.Parser.DecodeSegment].  A 6-bit
    value is an [ascii] whose two high bits are clear. *)
Module base64.

Definition encodeURL : string :=
  "ABCDEFGHIJKLMNOPQRSTUVWXYZabcdefghijklmnopqrstuvwxyz0123456789-_".

Definition enc6 (v : ascii) : ascii :=
  match String.get (nat_of_ascii v) encodeURL with
  | Some c => c
  | None => "A"%char
  end.

Fixpoint index_of (c : ascii) (alphabet : string) (i : nat) : option nat :=
  match alphabet with
  | EmptyString => None
  | String a rest => if Ascii.eqb a c then Some i else index_of c rest (S i)
  end.

Definition dec6 (c : ascii) : option ascii :=
  match index_of c encodeURL 0 with
  | Some i => Some (ascii_of_nat i)
  | None => None
  end.

(** [EncodeToString]: three bytes give four characters; a final group of
    one or two bytes gives two or three characters, without padding. *)
Fixpoint EncodeToString (src : string) : string :=
  match src with
  | String (Ascii a0 a1 a2 a3 a4 a5 a6 a7)
      (String (Ascii b0 b1 b2 b3 b4 b5 b6 b7)
         (String (Ascii c0 c1 c2 c3 c4 c5 c6 c7) rest)) =>
      String (enc6 (Ascii a2 a3 a4 a5 a6 a7 false false))
        (String (enc6 (Ascii b4 b5 b6 b7 a0 a1 false false))
           (String (enc6 (Ascii c6 c7 b0 b1 b2 b3 false false))
              (String (enc6 (Ascii c0 c1 c2 c3 c4 c5 false false))
                 (EncodeToString rest))))
  | String (Ascii a0 a1 a2 a3 a4 a5 a6 a7)
      (String (Ascii b0 b1 b2 b3 b4 b5 b6 b7) EmptyString) =>
      String (enc6 (Ascii a2 a3 a4 a5 a6 a7 false false))
        (String (enc6 (Ascii b4 b5 b6 b7 a0 a1 false false))
           (String (enc6 (Ascii false false b0 b1 b2 b3 false false))
              EmptyString))
  | String (Ascii a0 a1 a2 a3 a4 a5 a6 a7) EmptyString =>
      String (enc6 (Ascii a2 a3 a4 a5 a6 a7 false false))
        (String (enc6 (Ascii false false false false a0 a1 false false))
           EmptyString)
  | EmptyString => EmptyString
  end.

(** The decoder skips carriage returns and line feeds and fails on any
    other character outside the alphabet. *)
Fixpoint sextets (s : string) : option (list ascii) :=
  match s with
  | EmptyString => Some []
  | String c s' =>
      match dec6 c with
      | Some v => match sextets s' with
                  | Some l => Some (v :: l)
                  | None => None
                  end
      | None =>
          if Ascii.eqb c "010"%char || Ascii.eqb c "013"%char
          then sextets s' else None
      end
  end.

(** Four 6-bit values give three bytes; a final group of two or three
    values gives one or two bytes (trailing bits are not checked: the
    encoding is not strict); a final single value is corrupt input. *)
Fixpoint quanta (l : list ascii) : option string :=
  match l with
  | Ascii p0 p1 p2 p3 p4 p5 _ _ :: Ascii q0 q1 q2 q3 q4 q5 _ _ ::
      Ascii r0 r1 r2 r3 r4 r5 _ _ :: Ascii s0 s1 s2 s3 s4 s5 _ _ :: rest =>
      match quanta rest with
      | Some out =>
          Some (String (Ascii q4 q5 p0 p1 p2 p3 p4 p5)
                  (String (Ascii r2 r3 r4 r5 q0 q1 q2 q3)
                     (String (Ascii s0 s1 s2 s3 s4 s5 r0 r1) out)))
      | None => None
      end
  | [Ascii p0 p1 p2 p3 p4 p5 _ _; Ascii q0 q1 q2 q3 q4 q5 _ _;
     Ascii r0 r1 r2 r3 r4 r5 _ _] =>
      Some (String (Ascii q4 q5 p0 p1 p2 p3 p4 p5)
              (String (Ascii r2 r3 r4 r5 q0 q1 q2 q3) EmptyString))
  | [Ascii p0 p1 p2 p3 p4 p5 _ _; Ascii q0 q1 q2 q3 q4 q5 _ _] =>
      Some (String (Ascii q4 q5 p0 p1 p2 p3 p4 p5) EmptyString)
  | [_] => None
  | [] => Some EmptyString
  end.

Definition DecodeString (s : string) : option string :=
  match sextets s with
  | Some l => quanta l
  | None => None
  end.

End base64.

(** [time] durations, in nanoseconds. *)
Module time.
Definition Second : Z := 1000000000.
Definition Hour : Z := 3600 * Second.
(** [t.Truncate(d)] for [d > 0], on nanoseconds since the epoch. *)
Definition Truncate (t d : Z) : Z := t - t mod d.
End time.

(** The parts of [github.com/golang-jwt/jwt/v5] that [jwt.go] calls.  The
    library is not part of the repository: its parsing pipeline is written
    out after [Parser.ParseWithClaims] and [Validator.Validate] with the
    default options; the keyed hash and the JSON codec are parameters. *)
Module jwt.

Definition ErrTokenMalformed : error :=
  New "jwt.ErrTokenMalformed" "token is malformed".
Definition ErrTokenUnverifiable : error :=
  New "jwt.ErrTokenUnverifiable" "token is unverifiable".
Definition ErrTokenSignatureInvalid : error :=
  New "jwt.ErrTokenSignatureInvalid" "token signature is invalid".
Definition ErrTokenInvalidClaims : error :=
  New "jwt.ErrTokenInvalidClaims" "token has invalid claims".
Definition ErrTokenExpired : error :=
  New "jwt.ErrTokenExpired" "token is expired".
Definition ErrTokenNotValidYet : error :=
  New "jwt.ErrTokenNotValidYet" "token is not valid yet".

(** The registered signing methods.  The type assertion of [token.Method]
    to a pointer to [SigningMethodHMAC] succeeds exactly on the three
    [HMAC] ones. *)
Inductive Hash : Type := SHA256 | SHA384 | SHA512.

Inductive SigningMethod : Type :=
| SigningMethodHMAC (h : Hash)
| SigningMethodOther (alg : string).

Definition SigningMethodHS256 : SigningMethod := SigningMethodHMAC SHA256.

Definition Alg (m : SigningMethod) : string :=
  match m with
  | SigningMethodHMAC SHA256 => "HS256"
  | SigningMethodHMAC SHA384 => "HS384"
  | SigningMethodHMAC SHA512 => "HS512"
  | SigningMethodOther alg => alg
  end.

Definition otherAlgs : list string :=
  ["RS256"; "RS384"; "RS512"; "PS256"; "PS384"; "PS512";
   "ES256"; "ES384"; "ES512"; "EdDSA"; "none"].

Definition GetSigningMethod (alg : string) : option SigningMethod :=
  if String.eqb alg "HS256" then Some (SigningMethodHMAC SHA256)
  else if String.eqb alg "HS384" then Some (SigningMethodHMAC SHA384)
  else if String.eqb alg "HS512" then Some (SigningMethodHMAC SHA512)
  else if existsb (String.eqb alg) otherAlgs then Some (SigningMethodOther alg)
  else None.

(** [jwt.TimePrecision], at its default. *)
Definition TimePrecision : Z := time.Second.

(** [NewNumericDate(t)]: the time truncated to [TimePrecision]. *)
Definition NewNumericDate (t : Z) : Z := time.Truncate t TimePrecision.

Record RegisteredClaims : Type := mkRegisteredClaims {
  Issuer : string;
  Subject : string;
  Audience : list string;
  ExpiresAt : option Z;
  NotBefore : option Z;
  IssuedAt : option Z;
  ID : string
}.

(** The JSON object of the token header: its ["typ"] and ["alg"] entries,
    where they are strings. *)
Record Header : Type := mkHeader {
  typ : option string;
  alg : option string
}.

(** What the library takes from [crypto/hmac] and [encoding/json]. *)
Class Primitives (Claims : Type) : Type := {
  hmac_Sum : Hash -> string -> string -> string;
  json_Marshal_Header : Header -> string;
  json_Unmarshal_Header : string -> option Header;
  json_Marshal_Claims : Claims -> string;
  json_Unmarshal_Claims : string -> option Claims
}.

Record Token (Claims : Type) : Type := mkToken {
  Raw : string;
  Method : option SigningMethod;
  TokenHeader : Header;
  TokenClaims : Claims;
  Signature : string;
  Valid : bool
}.
Arguments mkToken {Claims}.
Arguments Raw {Claims}.
Arguments Method {Claims}.
Arguments TokenHeader {Claims}.
Arguments TokenClaims {Claims}.
Arguments Signature {Claims}.
Arguments Valid {Claims}.

Section Library.
Context {Claims : Type} `{!Primitives Claims}.
(** [claims.GetExpirationTime()] and so on come from the embedded
    [RegisteredClaims]. *)
Variable registered : Claims -> RegisteredClaims.

(** [NewWithClaims(method, claims)]. *)
Definition NewWithClaims (method : SigningMethod) (claims : Claims)
  : Token Claims :=
  mkToken "" (Some method)
          (mkHeader (Some "JWT") (Some (Alg method)))
          claims "" false.

(** [token.SigningString()]. *)
Definition SigningString (t : Token Claims) : string :=
  base64.EncodeToString (json_Marshal_Header (TokenHeader t)) +:+ "." +:+
  base64.EncodeToString (json_Marshal_Claims (TokenClaims t)).

(** [method.Sign(signingString, key)] for a [[]byte] key; the other
    methods reject such a key. *)
Definition Sign (m : SigningMethod) (signingString key : string)
  : string * option error :=
  match m with
  | SigningMethodHMAC h => (hmac_Sum h key signingString, None)
  | SigningMethodOther _ => ("", Some (New "jwt.ErrInvalidKeyType" "key is of invalid type"))
  end.

(** [method.Verify(signingString, sig, key)] for a [[]byte] key. *)
Definition Verify (m : SigningMethod) (signingString sig key : string)
  : option error :=
  match m with
  | SigningMethodHMAC h =>
      if String.eqb sig (hmac_Sum h key signingString) then None
      else Some ErrTokenSignatureInvalid
  | SigningMethodOther _ =>
      Some (New "jwt.ErrInvalidKeyType" "key is of invalid type")
  end.

(** [token.SignedString(key)]. *)
Definition SignedString (t : Token Claims) (key : string)
  : string * option error :=
  let sstr := SigningString t in
  match Method t with
  | Some m =>
      match Sign m sstr key with
      | (sig, None) => (sstr +:+ "." +:+ base64.EncodeToString sig, None)
      | (_, Some err) => ("", Some err)
      end
  | None => ("", Some (New "jwt.ErrInvalidKeyType" "key is of invalid type"))
  end.

(** [Parser.ParseUnverified]: three segments, a JSON header, JSON
    claims, and a registered signing method named by the header.  The
    result is the token with its segments, or the error ([inr]); the
    partly filled token that accompanies an error is not used by any
    caller and is left out. *)
Definition ParseUnverified (tokenString : string)
  : Token Claims * list string + error :=
  match Go.Split tokenString "." with
  | [p0; p1; p2] =>
      match base64.DecodeString p0 with
      | None => inr (Join [ErrTokenMalformed])
      | Some headerBytes =>
      match json_Unmarshal_Header headerBytes with
      | None => inr (Join [ErrTokenMalformed])
      | Some header =>
      match base64.DecodeString p1 with
      | None => inr (Join [ErrTokenMalformed])
      | Some claimBytes =>
      match json_Unmarshal_Claims claimBytes with
      | None => inr (Join [ErrTokenMalformed])
      | Some claims =>
      match alg header with
      | None => inr (Join [ErrTokenUnverifiable])
      | Some headerAlg =>
      match GetSigningMethod headerAlg with
      | None => inr (Join [ErrTokenUnverifiable])
      | Some method =>
          inl (mkToken tokenString (Some method) header claims "" false,
               [p0; p1; p2])
      end end end end end end
  | _ => inr (Join [ErrTokenMalformed])
  end.

(** [Validator.Validate(claims)] with the default options: [exp] and
    [nbf] are checked when present, with no leeway; the failures are
    joined. *)
Definition Validate (now : Z) (claims : Claims) : option error :=
  let rc := registered claims in
  let errs : list error :=
    app
      match ExpiresAt rc with
      | Some exp => if now <? exp then [] else [ErrTokenExpired]
      | None => []
      end
      match NotBefore rc with
      | Some nbf => if negb (now <? nbf) then [] else [ErrTokenNotValidYet]
      | None => []
      end in
  match errs with
  | [] => None
  | _ => Some (Join errs)
  end.

(** [ParseWithClaims(tokenString, claims, keyFunc)]: parse, decode the
    signature, ask [keyFunc] for the key, verify the signature, and only
    then validate the claims.  The result is the token with [Valid] set
    and a nil error ([inl]), or the error ([inr]). *)
Definition ParseWithClaims (now : Z) (tokenString : string)
    (keyFunc : Token Claims -> string * option error)
  : Token Claims + error :=
  match ParseUnverified tokenString with
  | inr err => inr err
  | inl (token, parts) =>
      let p0 := nth 0 parts "" in
      let p1 := nth 1 parts "" in
      let p2 := nth 2 parts "" in
      match base64.DecodeString p2 with
      | None => inr (Join [ErrTokenMalformed])
      | Some sig =>
          let token := mkToken (Raw token) (Method token) (TokenHeader token)
                               (TokenClaims token) sig false in
          let text := p0 +:+ "." +:+ p1 in
          match keyFunc token with
          | (_, Some err) => inr (Join [ErrTokenUnverifiable; err])
          | (key, None) =>
              match Method token with
              | None => inr (Join [ErrTokenUnverifiable])
              | Some m =>
              match Verify m text sig key with
              | Some err => inr (Join [ErrTokenSignatureInvalid; err])
              | None =>
                  match Validate now (TokenClaims token) with
                  | Some err => inr (Join [ErrTokenInvalidClaims; err])
                  | None =>
                      inl (mkToken (Raw token) (Method token)
                                   (TokenHeader token) (TokenClaims token)
                                   sig true)
                  end
              end end
          end
      end
  end.

End Library.

End jwt.

(** [internal/app/server/middleware/auth]: the claims handed to the
    middleware, and the validator interface it consumes. *)
Module authMiddleware.

Record Claims : Type := mkClaims {
  UserId : Z;
  Role : string
}.

(** [IJWTValidator]: its one method [ValidateToken], from the token
    string to a claims pointer and an error, as the function an
    implementation computes. *)
Definition IJWTValidator : Type := string -> option Claims * option error.

End authMiddleware.

(** [internal/pkg/auth/jwt.go] *)
Module auth.

Definition ErrInvalidToken : error := New "auth.ErrInvalidToken" "invalid token".
Definition ErrExpiredToken : error := New "auth.ErrExpiredToken" "token has expired".

Record JWTConfig : Type := mkJWTConfig {
  SecretKey : string;
  TokenDuration : Z;
  ConfigIssuer : string
}.

Record JWTService : Type := mkJWTService {
  secretKey : string;
  tokenDuration : Z;
  issuer : string
}.

Record CustomClaims : Type := mkCustomClaims {
  UserId : Z;
  Role : string;
  Registered : jwt.RegisteredClaims
}.

Definition NewJWTService (config : JWTConfig) : option JWTService * option error :=
  if String.eqb (SecretKey config) ""
  then (None, Some (New "auth.NewJWTService" "secret key is required"))
  else
    let tokenDuration := TokenDuration config in
    let tokenDuration :=
      if tokenDuration =? 0 then 24 * time.Hour else tokenDuration in
    let issuer := ConfigIssuer config in
    let issuer :=
      if String.eqb issuer "" then "go-backend-template" else issuer in
    (Some (mkJWTService (SecretKey config) tokenDuration issuer), None).

(** The claims literal of [GenerateToken]; [now] is [time.Now()] and
    [now.Add(d)] is [now + d]. *)
Definition newClaims (s : JWTService) (now : Z) (userId : Z) (role : string)
  : CustomClaims :=
  mkCustomClaims userId role
    (jwt.mkRegisteredClaims
       (issuer s) "" []
       (Some (jwt.NewNumericDate (now + tokenDuration s)))
       None
       (Some (jwt.NewNumericDate now))
       "").

Section Service.
Context `{!jwt.Primitives CustomClaims}.

Definition GenerateToken (s : JWTService) (now : Z) (userId : Z) (role : string)
  : string * option error :=
  let claims := newClaims s now userId role in
  let token := jwt.NewWithClaims jwt.SigningMethodHS256 claims in
  jwt.SignedString token (secretKey s).

(** The key function handed to [jwt.ParseWithClaims]. *)
Definition keyFunc (s : JWTService) (token : jwt.Token CustomClaims)
  : string * option error :=
  match jwt.Method token with
  | Some (jwt.SigningMethodHMAC _) => (secretKey s, None)
  | _ => ("", Some ErrInvalidToken)
  end.

Definition ValidateToken (s : JWTService) (now : Z) (tokenString : string)
  : option authMiddleware.Claims * option error :=
  match jwt.ParseWithClaims Registered now tokenString (keyFunc s) with
  | inr err =>
      if errors.Is err jwt.ErrTokenExpired
      then (None, Some ErrExpiredToken)
      else (None, Some ErrInvalidToken)
  | inl token =>
      if negb (jwt.Valid token)
      then (None, Some ErrInvalidToken)
      else (Some (authMiddleware.mkClaims
                    (UserId (jwt.TokenClaims token))
                    (Role (jwt.TokenClaims token))), None)
  end.

End Service.

End auth.

(* ===================================================================== *)
(** * The request context: what the sources use of [gin.Context] *)
(* ===================================================================== *)

Module gin.

(** The Go values stored in the context keys and in JSON bodies. *)
Inductive any : Type :=
| AnyInt (n : Z)
| AnyString (s : string)
| AnyBool (b : bool)
| AnyStrings (l : list string).

(** [gin.H], and any struct rendered as a JSON object. *)
Abbreviation H := (gmap string any).

(** The request (header, body, path parameters), the per-request keys,
    the response writer (header, status, rendered bodies) and whether the
    chain was aborted.  Header names are the canonical ones the sources
    use ([Authorization], [Vary], [Content-Type]). *)
Record Context : Type := mkContext {
  RequestHeader : gmap string (list string);
  RequestBody : string;
  Params : list (string * string);
  Keys : gmap string any;
  WriterHeader : gmap string (list string);
  WriterStatus : Z;
  WriterBody : list H;
  Aborted : bool
}.

(** A fresh context for a request: status 200, nothing written. *)
Definition NewContext (header : gmap string (list string)) (body : string)
    (params : list (string * string)) : Context :=
  mkContext header body params ∅ ∅ 200 [] false.

(** [c.GetHeader(key)], that is [c.Request.Header.Get(key)]: the first
    value stored under the key, [""] when there is none. *)
Definition GetHeader (c : Context) (key : string) : string :=
  match RequestHeader c !! key with
  | Some (v :: _) => v
  | _ => ""
  end.

(** [c.Header(key, value)]: set the response header, or delete it when
    the value is empty. *)
Definition Header (c : Context) (key value : string) : Context :=
  mkContext (RequestHeader c) (RequestBody c) (Params c) (Keys c)
    (if String.eqb value "" then delete key (WriterHeader c)
     else <[key := [value]]> (WriterHeader c))
    (WriterStatus c) (WriterBody c) (Aborted c).

(** [c.Param(key)]: the value of the first path parameter with that
    name, [""] when there is none. *)
Fixpoint ByName (ps : list (string * string)) (name : string) : string :=
  match ps with
  | [] => ""
  | (k, v) :: ps' => if String.eqb k name then v else ByName ps' name
  end.

Definition Param (c : Context) (key : string) : string := ByName (Params c) key.

(** [c.Set(key, value)]. *)
Definition Set_ (c : Context) (key : string) (value : any) : Context :=
  mkContext (RequestHeader c) (RequestBody c) (Params c)
    (<[key := value]> (Keys c))
    (WriterHeader c) (WriterStatus c) (WriterBody c) (Aborted c).

(** [c.GetInt(key)]: zero unless the key holds an [int]. *)
Definition GetInt (c : Context) (key : string) : Z :=
  match Keys c !! key with
  | Some (AnyInt n) => n
  | _ => 0
  end.

(** [c.GetString(key)]: empty unless the key holds a [string]. *)
Definition GetString (c : Context) (key : string) : string :=
  match Keys c !! key with
  | Some (AnyString s) => s
  | _ => ""
  end.

(** [c.Status(code)]: the status is fixed once a body has been written. *)
Definition Status (c : Context) (code : Z) : Context :=
  mkContext (RequestHeader c) (RequestBody c) (Params c) (Keys c)
    (WriterHeader c)
    (match WriterBody c with [] => code | _ => WriterStatus c end)
    (WriterBody c) (Aborted c).

(** [c.JSON(code, obj)]: status, content type unless already set, body. *)
Definition JSON (c : Context) (code : Z) (obj : H) : Context :=
  let c := Status c code in
  mkContext (RequestHeader c) (RequestBody c) (Params c) (Keys c)
    (match WriterHeader c !! "Content-Type" with
     | Some (_ :: _) => WriterHeader c
     | _ => <["Content-Type" := ["application/json; charset=utf-8"]]> (WriterHeader c)
     end)
    (WriterStatus c) (WriterBody c ++ [obj])%list (Aborted c).

(** [c.Abort()]: no later handler of the chain runs. *)
Definition Abort (c : Context) : Context :=
  mkContext (RequestHeader c) (RequestBody c) (Params c) (Keys c)
    (WriterHeader c) (WriterStatus c) (WriterBody c) true.

(** [c.AbortWithStatusJSON(code, obj)]. *)
Definition AbortWithStatusJSON (c : Context) (code : Z) (obj : H) : Context :=
  JSON (Abort c) code obj.

(** What running a handler gives: the context it leaves, or a panic,
    with the context as it was when the handler panicked. *)
Inductive Outcome : Type :=
| Done (c : Context)
| Panic (c : Context) (msg : string).

(** A middleware [gin.HandlerFunc]; its first argument is [c.Next], the
    rest of the chain. *)
Definition HandlerFunc : Type := (Context -> Outcome) -> Context -> Outcome.

End gin.

(** [internal/app/server/handler/context.go] *)
Module handler_context.

Definition ContextKeyUserId : string := "user_id".
Definition ContextKeyUserRole : string := "user_role".

Definition GetUserId (c : gin.Context) : Z := gin.GetInt c ContextKeyUserId.
Definition GetUserRole (c : gin.Context) : string := gin.GetString c ContextKeyUserRole.
Definition SetUserId (c : gin.Context) (userId : Z) : gin.Context :=
  gin.Set_ c ContextKeyUserId (gin.AnyInt userId).
Definition SetUserRole (c : gin.Context) (role : string) : gin.Context :=
  gin.Set_ c ContextKeyUserRole (gin.AnyString role).

End handler_context.

(* ===================================================================== *)
(** * Access policy middleware: [internal/app/server/middleware/auth/auth.go] *)
(* ===================================================================== *)

Module middleware.
Import handler_context.

Definition authorizationHeader : string := "Authorization".
Definition bearerPrefix : string := "Bearer ".

Record Middleware : Type := mkMiddleware {
  jwtValidator : authMiddleware.IJWTValidator
}.

(** [New]: a nil validator is refused. *)
Definition New (jwtValidator : option authMiddleware.IJWTValidator)
  : option Middleware * option error :=
  match jwtValidator with
  | None => (None, Some (New "auth.New" "jwt validator is required"))
  | Some v => (Some (mkMiddleware v), None)
  end.

Definition RequireAuth (m : Middleware) : gin.HandlerFunc :=
  fun Next c =>
    let c := gin.Header c "Vary" authorizationHeader in
    let authHeader := gin.GetHeader c authorizationHeader in
    if String.eqb authHeader "" then
      gin.Done (gin.AbortWithStatusJSON c http.StatusUnauthorized
        {[ "message" := gin.AnyString "authorization header is required" ]})
    else if negb (Go.HasPrefix authHeader bearerPrefix) then
      gin.Done (gin.AbortWithStatusJSON c http.StatusUnauthorized
        {[ "message" := gin.AnyString "invalid authorization header format" ]})
    else
      let tokenString := Go.TrimPrefix authHeader bearerPrefix in
      if String.eqb tokenString "" then
        gin.Done (gin.AbortWithStatusJSON c http.StatusUnauthorized
          {[ "message" := gin.AnyString "token is required" ]})
      else
        match jwtValidator m tokenString with
        | (_, Some err) =>
            gin.Done (gin.AbortWithStatusJSON c http.StatusUnauthorized
              (<[ "message" := gin.AnyString "invalid token" ]>
                 {[ "data" := gin.AnyString (domain.Error err) ]}))
        | (Some claims, None) =>
            let c := SetUserId c (authMiddleware.UserId claims) in
            let c := SetUserRole c (authMiddleware.Role claims) in
            Next c
        | (None, None) =>
            gin.Panic c "invalid memory address or nil pointer dereference"
        end.

Definition RequireRole (m : Middleware) (allowedRoles : list string)
  : gin.HandlerFunc :=
  fun Next c =>
    let userRole := GetUserRole c in
    if existsb (fun role => String.eqb userRole role) allowedRoles
    then Next c
    else gin.Done (gin.AbortWithStatusJSON c http.StatusForbidden
           {[ "message" := gin.AnyString "insufficient permissions" ]}).

Definition RequireAdmin (m : Middleware) : gin.HandlerFunc :=
  RequireRole m [entity.RoleAdmin].

Definition RequireAdminOrSelf (m : Middleware) (paramName : string)
  : gin.HandlerFunc :=
  fun Next c =>
    let userRole := GetUserRole c in
    let userId := GetUserId c in
    if String.eqb userRole entity.RoleAdmin then Next c
    else
      let paramId := gin.Param c paramName in
      if negb (String.eqb paramId "") &&
         String.eqb paramId (Go.string_of_rune (Go.rune_of_int userId))
      then Next c
      else gin.Done (gin.AbortWithStatusJSON c http.StatusForbidden
             {[ "message" := gin.AnyString "insufficient permissions" ]}).

End middleware.

(* ===================================================================== *)
(** * Account service: [internal/app/server/service/user] *)
(* ===================================================================== *)

(** ** The interfaces the service depends on ([dependencies.go]) *)
Module deps.
Import entity.

(** The calls.

    One constructor per method of [IUserRepository] and
    [IPasswordHasher], indexed by the Go result type.  [Assign] is not a
    method: it is an assignment through the [*entity.User] pointer a
    repository call returned, with the pointee's new value; whether it
    reaches stored data is up to the implementation that handed out the
    pointer. *)
Inductive Call : Type -> Type :=
| InsertUser (user : User) : Call (Z * option error)
| GetUserById (id : Z) : Call (option User * option error)
| GetUserByEmail (email : string) : Call (option User * option error)
| GetUsers (offset limit : Z) (onlyActive : bool) : Call (list User * option error)
| GetUserCount (onlyActive : bool) : Call (Z * option error)
| ExistsUserByEmail (email : string) : Call (bool * option error)
| UpdateUser (user : User) : Call (option error)
| UpdateUserPassword (id : Z) (hashedPassword : string) : Call (option error)
| DeleteUserById (id : Z) : Call (option error)
| Hash (password : string) : Call (string * option error)
| Compare (hashedPassword password : string) : Call (option error)
| Assign (user : User) : Call unit.

(** ** Programs over the interfaces *)
Inductive Prog (R : Type) : Type :=
| Ret (r : R)
| Vis {X : Type} (c : Call X) (k : X -> Prog R)
| Panic (msg : string).
Arguments Ret {R}.
Arguments Vis {R X}.
Arguments Panic {R}.

Fixpoint bind {A B : Type} (p : Prog A) (f : A -> Prog B) : Prog B :=
  match p with
  | Ret r => f r
  | Vis c k => Vis c (fun x => bind (k x) f)
  | Panic msg => Panic msg
  end.

#[export] Instance Prog_ret : MRet Prog := @Ret.
#[export] Instance Prog_bind : MBind Prog := fun A B f p => bind p f.

Definition call {X : Type} (c : Call X) : Prog X := Vis c Ret.

(** ** Running a program against an implementation *)

(** A call together with what it returned. *)
Inductive Event : Type :=
| Ev {X : Type} (c : Call X) (resp : X).

(** An implementation of both interfaces over a state [S]. *)
Definition Impl (S : Type) : Type := forall X : Type, Call X -> S -> X * S.

Record Run (R S : Type) : Type := mkRun {
  result : option R;          (* [None]: the program panicked *)
  final : S;
  trace : list Event
}.
Arguments mkRun {R S}.
Arguments result {R S}.
Arguments final {R S}.
Arguments trace {R S}.

Fixpoint run {R S : Type} (impl : Impl S) (p : Prog R) (s : S) : Run R S :=
  match p with
  | Ret r => mkRun (Some r) s []
  | Vis c k =>
      let (x, s') := impl _ c s in
      let r := run impl (k x) s' in
      mkRun (result r) (final r) (Ev c x :: trace r)
  | Panic _ => mkRun None s []
  end.

(** Classification of events. *)
Definition is_InsertUser (e : Event) : bool :=
  match e with Ev (InsertUser _) _ => true | _ => false end.
Definition is_UpdateUser (e : Event) : bool :=
  match e with Ev (UpdateUser _) _ => true | _ => false end.
Definition is_Hash (e : Event) : bool :=
  match e with Ev (Hash _) _ => true | _ => false end.
Definition is_Assign (e : Event) : bool :=
  match e with Ev (Assign _) _ => true | _ => false end.

(** What an event answered, when it is a call of the given method. *)
Definition InsertUser_response (e : Event) : option (Z * option error) :=
  match e with
  | Ev c resp =>
      match c in Call X return X -> option (Z * option error) with
      | InsertUser _ => fun r => Some r
      | _ => fun _ => None
      end resp
  end.

Definition ExistsUserByEmail_response (e : Event) : option (bool * option error) :=
  match e with
  | Ev c resp =>
      match c in Call X return X -> option (bool * option error) with
      | ExistsUserByEmail _ => fun r => Some r
      | _ => fun _ => None
      end resp
  end.

(** An event as plain data: the method, its arguments and its answer. *)
Inductive View : Type :=
| VInsertUser (user : User) (resp : Z * option error)
| VGetUserById (id : Z) (resp : option User * option error)
| VGetUserByEmail (email : string) (resp : option User * option error)
| VGetUsers (offset limit : Z) (onlyActive : bool) (resp : list User * option error)
| VGetUserCount (onlyActive : bool) (resp : Z * option error)
| VExistsUserByEmail (email : string) (resp : bool * option error)
| VUpdateUser (user : User) (resp : option error)
| VUpdateUserPassword (id : Z) (hashedPassword : string) (resp : option error)
| VDeleteUserById (id : Z) (resp : option error)
| VHash (password : string) (resp : string * option error)
| VCompare (hashedPassword password : string) (resp : option error)
| VAssign (user : User).

Definition view (e : Event) : View :=
  match e with
  | Ev c resp =>
      match c in Call X return X -> View with
      | InsertUser user => VInsertUser user
      | GetUserById id => VGetUserById id
      | GetUserByEmail email => VGetUserByEmail email
      | GetUsers offset limit onlyActive => VGetUsers offset limit onlyActive
      | GetUserCount onlyActive => VGetUserCount onlyActive
      | ExistsUserByEmail email => VExistsUserByEmail email
      | UpdateUser user => VUpdateUser user
      | UpdateUserPassword id hashedPassword => VUpdateUserPassword id hashedPassword
      | DeleteUserById id => VDeleteUserById id
      | Hash password => VHash password
      | Compare hashedPassword password => VCompare hashedPassword password
      | Assign user => fun _ => VAssign user
      end resp
  end.

(** The calls of a run, in order. *)
Definition calls {R S : Type} (r : Run R S) : list View := map view (trace r).

End deps.

Module service.
Import entity.
Import deps.

(** ** Inputs ([input.go]); a nil pointer field is [None] *)

Record CreateUserInput : Type := mkCreateUserInput {
  create_Email : string;
  create_Username : string;
  create_Password : string;
  create_Name : string;
  create_Role : string
}.

Record UpdateUserInput : Type := mkUpdateUserInput {
  update_Id : Z;
  update_Email : option string;
  update_Username : option string;
  update_Name : option string;
  update_Role : option string;
  update_IsActive : option bool
}.

Record ChangePasswordInput : Type := mkChangePasswordInput {
  UserId : Z;
  CurrentPassword : string;
  NewPassword : string
}.

Record LoginInput : Type := mkLoginInput {
  login_Email : string;
  login_Password : string
}.

Definition nil_deref {R : Type} : Prog R :=
  Panic "invalid memory address or nil pointer dereference".

(** ** [service.go] *)

Definition CreateUser (input : CreateUserInput) : Prog (Z * option error) :=
  if negb (IsValidRole (create_Role input)) then
    mret (0, Some (InvalidRoleError (create_Role input)))
  else
    '(exists_, err) ← call (deps.ExistsUserByEmail (create_Email input));
    match err with
    | Some err =>
        mret (0, Some (InternalServerError "failed to check email existence" (Some err)))
    | None =>
    if exists_ : bool then
      mret (0, Some (UserAlreadyExistsError (create_Email input)))
    else
      '(hashedPassword, err) ← call (deps.Hash (create_Password input));
      match err with
      | Some err =>
          mret (0, Some (InternalServerError "failed to hash password" (Some err)))
      | None =>
          let user := mkUser 0 (create_Email input) (create_Username input)
                             hashedPassword (create_Name input)
                             (create_Role input) true 0 0 in
          '(userId, err) ← call (deps.InsertUser user);
          match err with
          | Some err =>
              if errors.Is err repository.ErrDuplicateEmail then
                mret (0, Some (UserAlreadyExistsError (create_Email input)))
              else
                mret (0, Some (InternalServerError "failed to create user" (Some err)))
          | None => mret (userId, None)
          end
      end
    end.

Definition GetUserById (id : Z) : Prog (option User * option error) :=
  '(user, err) ← call (deps.GetUserById id);
  match err with
  | Some err =>
      if errors.Is err repository.ErrUserNotFound then
        mret (None, Some (UserNotFoundError id ""))
      else
        mret (None, Some (InternalServerError "failed to get user" (Some err)))
  | None => mret (user, None)
  end.

Definition GetUserByEmail (email : string) : Prog (option User * option error) :=
  '(user, err) ← call (deps.GetUserByEmail email);
  match err with
  | Some err =>
      if errors.Is err repository.ErrUserNotFound then
        mret (None, Some (UserNotFoundError 0 email))
      else
        mret (None, Some (InternalServerError "failed to get user" (Some err)))
  | None => mret (user, None)
  end.

(** The five guarded field updates of [UpdateUser], each on the user as
    the previous ones left it; the result is the user and [hasChanges],
    or the error returned early. *)
Definition setEmail (u : User) (v : string) : User :=
  mkUser (Id u) v (Username u) (Password u) (Name u) (Role u) (IsActive u)
         (CreatedAt u) (UpdatedAt u).
Definition setUsername (u : User) (v : string) : User :=
  mkUser (Id u) (Email u) v (Password u) (Name u) (Role u) (IsActive u)
         (CreatedAt u) (UpdatedAt u).
Definition setName (u : User) (v : string) : User :=
  mkUser (Id u) (Email u) (Username u) (Password u) v (Role u) (IsActive u)
         (CreatedAt u) (UpdatedAt u).
Definition setRole (u : User) (v : string) : User :=
  mkUser (Id u) (Email u) (Username u) (Password u) (Name u) v (IsActive u)
         (CreatedAt u) (UpdatedAt u).
Definition setIsActive (u : User) (v : bool) : User :=
  mkUser (Id u) (Email u) (Username u) (Password u) (Name u) (Role u) v
         (CreatedAt u) (UpdatedAt u).

(** [supplied != nil && *supplied != stored], with the supplied value. *)
Definition differs (supplied : option string) (stored : string) : option string :=
  match supplied with
  | Some v => if negb (String.eqb v stored) then Some v else None
  | None => None
  end.

Definition UpdateUser (input : UpdateUserInput) : Prog (option error) :=
  '(user, err) ← call (deps.GetUserById (update_Id input));
  match err with
  | Some err =>
      if errors.Is err repository.ErrUserNotFound then
        mret (Some (UserNotFoundError (update_Id input) ""))
      else
        mret (Some (InternalServerError "failed to get user" (Some err)))
  | None =>
  match user with
  | None => nil_deref
  | Some user =>
    let hasChanges := false in
    (* Update email if provided *)
    r ← match differs (update_Email input) (Email user) with
        | Some email =>
            '(exists_, err) ← call (deps.ExistsUserByEmail email);
            match err with
            | Some err =>
                mret (inr (InternalServerError "failed to check email existence" (Some err)))
            | None =>
                if exists_ : bool then mret (inr (UserAlreadyExistsError email))
                else
                  _ ← call (deps.Assign (setEmail user email));
                  mret (inl (setEmail user email, true))
            end
        | None => mret (inl (user, hasChanges))
        end;
    match r with
    | inr err => mret (Some err)
    | inl (user, hasChanges) =>
    (* Update username if provided *)
    '(user, hasChanges) ←
        match differs (update_Username input) (Username user) with
        | Some username =>
            _ ← call (deps.Assign (setUsername user username));
            mret (setUsername user username, true)
        | None => mret (user, hasChanges)
        end;
    (* Update name if provided *)
    '(user, hasChanges) ←
        match differs (update_Name input) (Name user) with
        | Some name =>
            _ ← call (deps.Assign (setName user name));
            mret (setName user name, true)
        | None => mret (user, hasChanges)
        end;
    (* Update role if provided *)
    r ← match differs (update_Role input) (Role user) with
        | Some role =>
            if negb (IsValidRole role) then mret (inr (InvalidRoleError role))
            else
              _ ← call (deps.Assign (setRole user role));
              mret (inl (setRole user role, true))
        | None => mret (inl (user, hasChanges))
        end;
    match r with
    | inr err => mret (Some err)
    | inl (user, hasChanges) =>
    (* Update is_active if provided *)
    '(user, hasChanges) ←
        match update_IsActive input with
        | Some isActive =>
            if negb (Bool.eqb isActive (IsActive user)) then
              _ ← call (deps.Assign (setIsActive user isActive));
              mret (setIsActive user isActive, true)
            else mret (user, hasChanges)
        | None => mret (user, hasChanges)
        end;
    (* Only update if there are changes *)
    if hasChanges : bool then
      err ← call (deps.UpdateUser user);
      match err with
      | Some err =>
          if errors.Is err repository.ErrDuplicateEmail then
            mret (Some (UserAlreadyExistsError (Email user)))
          else
            mret (Some (InternalServerError "failed to update user" (Some err)))
      | None => mret None
      end
    else mret None
    end end
  end end.

Definition ChangePassword (input : ChangePasswordInput) : Prog (option error) :=
  '(user, err) ← call (deps.GetUserById (UserId input));
  match err with
  | Some err =>
      if errors.Is err repository.ErrUserNotFound then
        mret (Some (UserNotFoundError (UserId input) ""))
      else
        mret (Some (InternalServerError "failed to get user" (Some err)))
  | None =>
  match user with
  | None => nil_deref
  | Some user =>
      (* Verify current password *)
      err ← call (deps.Compare (Password user) (CurrentPassword input));
      match err with
      | Some _ => mret (Some InvalidCredentialsError)
      | None =>
          (* Hash new password *)
          '(hashedPassword, err) ← call (deps.Hash (NewPassword input));
          match err with
          | Some err =>
              mret (Some (InternalServerError "failed to hash password" (Some err)))
          | None =>
              (* Update password *)
              err ← call (deps.UpdateUserPassword (UserId input) hashedPassword);
              match err with
              | Some err =>
                  mret (Some (InternalServerError "failed to update password" (Some err)))
              | None => mret None
              end
          end
      end
  end end.

Definition DeleteUser (id : Z) : Prog (option error) :=
  err ← call (deps.DeleteUserById id);
  match err with
  | Some err =>
      if errors.Is err repository.ErrUserNotFound then
        mret (Some (UserNotFoundError id ""))
      else
        mret (Some (InternalServerError "failed to delete user" (Some err)))
  | None => mret None
  end.

Definition Login (input : LoginInput) : Prog (option User * option error) :=
  (* Get user by email *)
  '(user, err) ← call (deps.GetUserByEmail (login_Email input));
  match err with
  | Some err =>
      if errors.Is err repository.ErrUserNotFound then
        mret (None, Some InvalidCredentialsError)
      else
        mret (None, Some (InternalServerError "failed to get user" (Some err)))
  | None =>
  match user with
  | None => nil_deref
  | Some user =>
      (* Check if user is active *)
      if negb (IsActive user) then mret (None, Some InvalidCredentialsError)
      else
        (* Verify password *)
        err ← call (deps.Compare (Password user) (login_Password input));
        match err with
        | Some _ => mret (None, Some InvalidCredentialsError)
        | None => mret (Some user, None)
        end
  end end.

Record GetUsersInput : Type := mkGetUsersInput {
  Page : Z;
  Size : Z;
  OnlyActive : bool
}.

Record GetUsersResult : Type := mkGetUsersResult {
  Users : list User;
  TotalCount : Z
}.

Definition GetUsers (input : GetUsersInput)
  : Prog (option GetUsersResult * option error) :=
  let offset := Go.int (Size input * Go.int (Page input - 1)) in
  '(users, err) ← call (deps.GetUsers offset (Size input) (OnlyActive input));
  match err with
  | Some err =>
      mret (None, Some (InternalServerError "failed to get users" (Some err)))
  | None =>
      '(totalCount, err) ← call (deps.GetUserCount (OnlyActive input));
      match err with
      | Some err =>
          mret (None, Some (InternalServerError "failed to get user count" (Some err)))
      | None => mret (Some (mkGetUsersResult users totalCount), None)
      end
  end.

End service.

(* ===================================================================== *)
(** * Storage: [internal/pkg/repository/postgres] *)
(* ===================================================================== *)

Module postgres.
Import entity.

(** [errors.go] of the package. *)
Definition ErrNoUser : error := New "postgres.ErrNoUser" "user not found".
Definition ErrDuplicateEmail : error :=
  New "postgres.ErrDuplicateEmail" "email already exists".

(** ** The database behind [r.db]

    The [users] table of [schema.go] as the statements of [user.go] see
    it: the rows, the [SERIAL] counter, the value of [CURRENT_TIMESTAMP],
    and, when the server cannot be reached, the driver error every
    statement gets. *)
Record DB : Type := mkDB {
  rows : list User;
  serial : Z;
  clock : Z;
  failure : option error
}.

Definition uniqueViolation : error :=
  New "pgconn.PgError"
      "ERROR: duplicate key value violates unique constraint users_email_key (SQLSTATE 23505)".

Definition byEmail (email : string) (u : User) : bool := String.eqb (Email u) email.
Definition byId (id : Z) (u : User) : bool := Id u =? id.

(** [INSERT INTO users ... RETURNING id], scanned into [id]. *)
Definition execInsert (db : DB) (user : User) : Z * option error * DB :=
  match failure db with
  | Some e => (0, Some e, db)
  | None =>
      let id := serial db + 1 in
      if existsb (byEmail (Email user)) (rows db)
      then (0, Some uniqueViolation, mkDB (rows db) id (clock db) None)
      else
        let row := mkUser id (Email user) (Username user) (Password user)
                          (Name user) (Role user) (IsActive user)
                          (clock db) (clock db) in
        (id, None, mkDB (rows db ++ [row])%list id (clock db) None)
  end.

(** [SELECT ... FROM users WHERE ...], one row scanned. *)
Definition queryRow (db : DB) (p : User -> bool) : option User * option error :=
  match failure db with
  | Some e => (None, Some e)
  | None =>
      match find p (rows db) with
      | Some row => (Some row, None)
      | None => (None, Some sql.ErrNoRows)
      end
  end.

(** [UPDATE users SET ... WHERE id = $n]: the rows affected. *)
Definition execUpdate (db : DB) (id : Z) (f : User -> User)
  : Z * option error * DB :=
  match failure db with
  | Some e => (0, Some e, db)
  | None =>
      match find (byId id) (rows db) with
      | None => (0, None, db)
      | Some row =>
          if existsb (fun u => byEmail (Email (f row)) u && negb (byId id u)) (rows db)
          then (0, Some uniqueViolation, db)
          else (1, None,
                mkDB (map (fun u => if byId id u then f u else u) (rows db))
                     (serial db) (clock db) None)
      end
  end.

(** [DELETE FROM users WHERE id = $1]: the rows affected. *)
Definition execDelete (db : DB) (id : Z) : Z * option error * DB :=
  match failure db with
  | Some e => (0, Some e, db)
  | None =>
      (if existsb (byId id) (rows db) then 1 else 0, None,
       mkDB (filter (fun u => negb (byId id u)) (rows db))
            (serial db) (clock db) None)
  end.

Definition isDuplicate (err : error) : bool :=
  Go.Contains (domain.Error err) "unique constraint" ||
  Go.Contains (domain.Error err) "duplicate key".

(** ** [user.go] *)

Definition InsertUser (db : DB) (user : User) : Z * option error * DB :=
  match execInsert db user with
  | (_, Some err, db') =>
      if isDuplicate err then (0, Some ErrDuplicateEmail, db')
      else (0, Some err, db')
  | (id, None, db') => (id, None, db')
  end.

Definition scanUser (r : option User * option error) : option User * option error :=
  match r with
  | (_, Some err) =>
      if errors.Is err sql.ErrNoRows then (None, Some ErrNoUser)
      else (None, Some err)
  | (user, None) => (user, None)
  end.

Definition GetUserById (db : DB) (id : Z) : option User * option error :=
  scanUser (queryRow db (byId id)).

Definition GetUserByEmail (db : DB) (email : string) : option User * option error :=
  scanUser (queryRow db (byEmail email)).

Definition visible (onlyActive : bool) (u : User) : bool :=
  negb onlyActive || IsActive u.

(** [ORDER BY created_at DESC]: insertion into a list sorted that way. *)
Fixpoint insertDesc (u : User) (l : list User) : list User :=
  match l with
  | [] => [u]
  | v :: l' => if CreatedAt v <? CreatedAt u then u :: l
               else v :: insertDesc u l'
  end.

Definition GetUsers (db : DB) (offset limit : Z) (onlyActive : bool)
  : list User * option error :=
  match failure db with
  | Some e => ([], Some e)
  | None =>
      if offset <? 0
      then ([], Some (New "pgconn.PgError" "ERROR: OFFSET must not be negative (SQLSTATE 2201X)"))
      else
        let sorted := fold_right insertDesc [] (filter (visible onlyActive) (rows db)) in
        let users := drop (Z.to_nat offset) sorted in
        (if 0 <? limit then take (Z.to_nat limit) users else users, None)
  end.

Definition GetUserCount (db : DB) (onlyActive : bool) : Z * option error :=
  match failure db with
  | Some e => (0, Some e)
  | None => (Z.of_nat (length (filter (visible onlyActive) (rows db))), None)
  end.

Definition UpdateUser (db : DB) (user : User) : option error * DB :=
  let set (row : User) :=
    mkUser (Id row) (Email user) (Username user) (Password row) (Name user)
           (Role user) (IsActive user) (CreatedAt row) (clock db) in
  match execUpdate db (Id user) set with
  | (_, Some err, db') =>
      if isDuplicate err then (Some ErrDuplicateEmail, db')
      else (Some err, db')
  | (rowsAffected, None, db') =>
      if rowsAffected =? 0 then (Some ErrNoUser, db') else (None, db')
  end.

Definition UpdateUserPassword (db : DB) (id : Z) (hashedPassword : string)
  : option error * DB :=
  let set (row : User) :=
    mkUser (Id row) (Email row) (Username row) hashedPassword (Name row)
           (Role row) (IsActive row) (CreatedAt row) (clock db) in
  match execUpdate db id set with
  | (_, Some err, db') => (Some err, db')
  | (rowsAffected, None, db') =>
      if rowsAffected =? 0 then (Some ErrNoUser, db') else (None, db')
  end.

Definition DeleteUserById (db : DB) (id : Z) : option error * DB :=
  match execDelete db id with
  | (_, Some err, db') => (Some err, db')
  | (rowsAffected, None, db') =>
      if rowsAffected =? 0 then (Some ErrNoUser, db') else (None, db')
  end.

Definition ExistsUserByEmail (db : DB) (email : string) : bool * option error :=
  match failure db with
  | Some e => (false, Some e)
  | None => (existsb (byEmail email) (rows db), None)
  end.

End postgres.

(* ===================================================================== *)
(** * Wiring: the service over the PostgreSQL repository ([server.go]) *)
(* ===================================================================== *)

Module server.
Import deps.

(** An implementation of [IPasswordHasher] as the two functions it
    computes.  bcrypt itself is outside the embedding. *)
Record Hasher : Type := mkHasher {
  hash : string -> string * option error;
  compare : string -> string -> option error
}.

(** The state the service runs against: the database, and what other
    sessions commit in between.  Before each statement of this request
    the head of [sessions] takes effect: [Some u] is another request
    inserting [u], [None] is nothing happening. *)
Record World : Type := mkWorld {
  db : postgres.DB;
  sessions : list (option entity.User)
}.

Definition interleave (w : World) : World :=
  match sessions w with
  | [] => w
  | None :: rest => mkWorld (db w) rest
  | Some u :: rest => mkWorld (snd (postgres.execInsert (db w) u)) rest
  end.

(** [userService.NewService(deps.Repository, deps.PasswordHasher)]: every
    repository call is the method of [postgres.Repository], every hasher
    call the method of the hasher.  Each query scans into a fresh
    [entity.User], so an assignment through the returned pointer does not
    reach the table. *)
Definition impl (h : Hasher) : Impl World :=
  fun X (c : Call X) =>
    match c in Call X return World -> X * World with
    | InsertUser user => fun w =>
        let w := interleave w in
        let '(id, err, db') := postgres.InsertUser (db w) user in
        ((id, err), mkWorld db' (sessions w))
    | GetUserById id => fun w =>
        let w := interleave w in (postgres.GetUserById (db w) id, w)
    | GetUserByEmail email => fun w =>
        let w := interleave w in (postgres.GetUserByEmail (db w) email, w)
    | GetUsers offset limit onlyActive => fun w =>
        let w := interleave w in
        (postgres.GetUsers (db w) offset limit onlyActive, w)
    | GetUserCount onlyActive => fun w =>
        let w := interleave w in (postgres.GetUserCount (db w) onlyActive, w)
    | ExistsUserByEmail email => fun w =>
        let w := interleave w in (postgres.ExistsUserByEmail (db w) email, w)
    | UpdateUser user => fun w =>
        let w := interleave w in
        let '(err, db') := postgres.UpdateUser (db w) user in
        (err, mkWorld db' (sessions w))
    | UpdateUserPassword id hashedPassword => fun w =>
        let w := interleave w in
        let '(err, db') := postgres.UpdateUserPassword (db w) id hashedPassword in
        (err, mkWorld db' (sessions w))
    | DeleteUserById id => fun w =>
        let w := interleave w in
        let '(err, db') := postgres.DeleteUserById (db w) id in
        (err, mkWorld db' (sessions w))
    | Hash password => fun w => (hash h password, w)
    | Compare hashedPassword password => fun w =>
        (compare h hashedPassword password, w)
    | Assign _ => fun w => (tt, w)
    end.

(** A deterministic stand-in for the bcrypt hasher, in the manner of the
    [MockPasswordHasher] of [service_test.go]. *)
Definition stubHasher : Hasher :=
  mkHasher
    (fun password => ("hashed_" +:+ password, None))
    (fun hashedPassword password =>
       if String.eqb hashedPassword ("hashed_" +:+ password) then None
       else Some bcrypt.ErrMismatchedHashAndPassword).

End server.

(* ===================================================================== *)
(** * HTTP boundary: [handler/base.go], [handler/user/dto.go], [handler.go] *)
(* ===================================================================== *)

Module handler.
Import deps.

(** ** [base.go] *)

(** [responseError(c, code, msg, data...)] *)
Definition responseError (c : gin.Context) (code : Z) (msg : string)
    (data : option gin.any) : gin.Context :=
  let response : gin.H := {[ "message" := gin.AnyString msg ]} in
  let response : gin.H :=
    match data with
    | Some d => <[ "data" := d ]> response
    | None => response
    end in
  gin.AbortWithStatusJSON c code response.

(** What [c.ShouldBindJSON] can fail with: the validator's
    [ValidationErrors] (with the text of each), or any other error. *)
Inductive BindingError : Type :=
| ValidationErrors (messages : list string)
| OtherBindingError (err : error).

Definition HandleBindingError (c : gin.Context) (err : BindingError) : gin.Context :=
  match err with
  | ValidationErrors messages =>
      responseError c http.StatusBadRequest "invalid request format"
                    (Some (gin.AnyStrings messages))
  | OtherBindingError err =>
      responseError c http.StatusBadRequest "invalid request format"
                    (Some (gin.AnyString (domain.Error err)))
  end.

Definition HandleValidationError (c : gin.Context) (message : string) : gin.Context :=
  responseError c http.StatusBadRequest message None.

Definition HandleDomainError (c : gin.Context) (err : error) : gin.Context :=
  match domain.HTTPStatus err with
  | Some status => responseError c status (domain.Error err) None
  | None =>
      responseError c http.StatusInternalServerError (domain.Error err) None
  end.

(** [HandleSuccess(c, status, data)] with one JSON object as data. *)
Definition HandleSuccess (c : gin.Context) (status : Z) (data : gin.H) : gin.Context :=
  gin.JSON c status data.

(** ** [dto.go] *)

Record ChangePasswordRequest : Type := mkChangePasswordRequest {
  CurrentPassword : string;
  NewPassword : string
}.

(** [Validate]: [None] is a nil error. *)
Definition Validate (r : ChangePasswordRequest) : option error :=
  if String.eqb (CurrentPassword r) (NewPassword r)
  then Some (New "dto.Validate" "new password must be different from current password")
  else None.

(** ** [handler.go] *)

Section Handler.
(** [c.ShouldBindJSON(&req)] for a [ChangePasswordRequest]: JSON
    decoding of the body and the [binding] tags are gin's; the result
    is the request struct as the call leaves it, and the error. *)
Variable ShouldBindJSON : string -> ChangePasswordRequest * option BindingError.

(** [ChangePassword] handles [POST /users/:id/change-password]. *)
Definition ChangePassword (c : gin.Context) : Prog gin.Context :=
  match Go.Atoi (gin.Param c "id") with
  | None => mret (HandleValidationError c "invalid user id")
  | Some userId =>
      let '(req, err) := ShouldBindJSON (gin.RequestBody c) in
      match err with
      | Some err => mret (HandleBindingError c err)
      | None =>
          match Validate req with
          | Some err => mret (HandleValidationError c (domain.Error err))
          | None =>
              let input := service.mkChangePasswordInput
                             userId (CurrentPassword req) (NewPassword req) in
              err ← service.ChangePassword input;
              match err with
              | Some err => mret (HandleDomainError c err)
              | None =>
                  mret (HandleSuccess c http.StatusOK
                          {[ "message" := gin.AnyString "password changed successfully" ]})
              end
          end
      end
  end.

End Handler.

(** ** More of [dto.go] *)

Record CreateUserRequest : Type := mkCreateUserRequest {
  req_Email : string;
  req_Username : string;
  req_Password : string;
  req_Name : string;
  req_Role : string
}.

(** [CreateUserRequest.Validate] *)
Definition CreateUserRequest_Validate (r : CreateUserRequest) : option error :=
  if negb (entity.IsValidRole (req_Role r))
  then Some (New "fmt.Errorf"
               ("invalid role: " +:+ req_Role r +:+ ", must be one of: admin, user, viewer"))
  else None.

Record UpdateUserRequest : Type := mkUpdateUserRequest {
  upd_Email : option string;
  upd_Username : option string;
  upd_Name : option string;
  upd_Role : option string;
  upd_IsActive : option bool
}.

(** [UpdateUserRequest.Validate] *)
Definition UpdateUserRequest_Validate (r : UpdateUserRequest) : option error :=
  match upd_Role r with
  | Some role =>
      if negb (entity.IsValidRole role)
      then Some (New "fmt.Errorf"
                   ("invalid role: " +:+ role +:+ ", must be one of: admin, user, viewer"))
      else None
  | None => None
  end.

Record GetUsersQuery : Type := mkGetUsersQuery {
  query_Page : option Z;
  query_Size : option Z;
  query_OnlyActive : option bool
}.

Definition GetPage (q : GetUsersQuery) : Z :=
  match query_Page q with
  | None => 1
  | Some page => if page <? 1 then 1 else page
  end.

Definition GetSize (q : GetUsersQuery) : Z :=
  match query_Size q with
  | None => 20
  | Some size => if size <? 1 then 20 else size
  end.

Definition GetOnlyActive (q : GetUsersQuery) : bool :=
  match query_OnlyActive q with
  | None => false
  | Some b => b
  end.

(** [ToUserResponse]: the JSON object of a [UserResponse]; the password is
    not among its fields, the times are Unix seconds. *)
Definition ToUserResponse (user : entity.User) : gin.H :=
  <[ "id" := gin.AnyInt (entity.Id user) ]>
  (<[ "email" := gin.AnyString (entity.Email user) ]>
  (<[ "username" := gin.AnyString (entity.Username user) ]>
  (<[ "name" := gin.AnyString (entity.Name user) ]>
  (<[ "role" := gin.AnyString (entity.Role user) ]>
  (<[ "is_active" := gin.AnyBool (entity.IsActive user) ]>
  (<[ "created_at" := gin.AnyInt (entity.CreatedAt user / time.Second) ]>
  {[ "updated_at" := gin.AnyInt (entity.UpdatedAt user / time.Second) ]})))))).

(** ** More of [handler.go] *)

Section Handlers.
(** [c.ShouldBindJSON(&req)] for the two request types. *)
Variable BindCreate : string -> CreateUserRequest * option BindingError.
Variable BindUpdate : string -> UpdateUserRequest * option BindingError.

(** [CreateUser] handles [POST /users]. *)
Definition CreateUser (c : gin.Context) : Prog gin.Context :=
  let '(req, err) := BindCreate (gin.RequestBody c) in
  match err with
  | Some err => mret (HandleBindingError c err)
  | None =>
      match CreateUserRequest_Validate req with
      | Some err => mret (HandleValidationError c (domain.Error err))
      | None =>
          let input := service.mkCreateUserInput
                         (req_Email req) (req_Username req) (req_Password req)
                         (req_Name req) (req_Role req) in
          '(userId, err) ← service.CreateUser input;
          match err with
          | Some err => mret (HandleDomainError c err)
          | None =>
              mret (HandleSuccess c http.StatusCreated
                      {[ "id" := gin.AnyInt userId ]})
          end
      end
  end.

(** [GetUser] handles [GET /users/:id]. *)
Definition GetUser (c : gin.Context) : Prog gin.Context :=
  match Go.Atoi (gin.Param c "id") with
  | None => mret (HandleValidationError c "invalid user id")
  | Some userId =>
      '(gotUser, err) ← service.GetUserById userId;
      match err with
      | Some err => mret (HandleDomainError c err)
      | None =>
          match gotUser with
          | Some gotUser =>
              mret (HandleSuccess c http.StatusOK (ToUserResponse gotUser))
          | None => service.nil_deref
          end
      end
  end.

(** [UpdateUser] handles [PATCH /users/:id]. *)
Definition UpdateUser (c : gin.Context) : Prog gin.Context :=
  match Go.Atoi (gin.Param c "id") with
  | None => mret (HandleValidationError c "invalid user id")
  | Some userId =>
      let '(req, err) := BindUpdate (gin.RequestBody c) in
      match err with
      | Some err => mret (HandleBindingError c err)
      | None =>
          match UpdateUserRequest_Validate req with
          | Some err => mret (HandleValidationError c (domain.Error err))
          | None =>
              let input := service.mkUpdateUserInput userId
                             (upd_Email req) (upd_Username req) (upd_Name req)
                             (upd_Role req) (upd_IsActive req) in
              err ← service.UpdateUser input;
              match err with
              | Some err => mret (HandleDomainError c err)
              | None =>
                  mret (HandleSuccess c http.StatusOK
                          {[ "message" := gin.AnyString "user updated successfully" ]})
              end
          end
      end
  end.

(** [DeleteUser] handles [DELETE /users/:id]. *)
Definition DeleteUser (c : gin.Context) : Prog gin.Context :=
  match Go.Atoi (gin.Param c "id") with
  | None => mret (HandleValidationError c "invalid user id")
  | Some userId =>
      err ← service.DeleteUser userId;
      match err with
      | Some err => mret (HandleDomainError c err)
      | None =>
          mret (HandleSuccess c http.StatusOK
                  {[ "message" := gin.AnyString "user deleted successfully" ]})
      end
  end.

(** [GetMe] handles [GET /me]. *)
Definition GetMe (c : gin.Context) : Prog gin.Context :=
  let userId := handler_context.GetUserId c in
  '(gotUser, err) ← service.GetUserById userId;
  match err with
  | Some err => mret (HandleDomainError c err)
  | None =>
      match gotUser with
      | Some gotUser =>
          mret (HandleSuccess c http.StatusOK (ToUserResponse gotUser))
      | None => service.nil_deref
      end
  end.

End Handlers.

End handler.

(* ===================================================================== *)
(** * Route table: [internal/app/server/routes] *)
(* ===================================================================== *)

Module routes.

(** ** What the sources use of gin's router

    A route group holds the handlers its routes start with and its base
    path, here the relative paths it was built from; registering a route
    adds to the engine the method, the path and the group's handlers
    followed by the route's own.  Serving a request runs the handlers of
    its route in order, each one handed the rest as [c.Next]. *)
Record RouterGroup : Type := mkRouterGroup {
  Handlers : list gin.HandlerFunc;
  basePath : list string
}.

Record Route : Type := mkRoute {
  method : string;
  path : list string;
  handlers : list gin.HandlerFunc
}.

Definition Engine : Type := list Route.

Definition Group (group : RouterGroup) (relativePath : string) : RouterGroup :=
  mkRouterGroup (Handlers group) (basePath group ++ [relativePath])%list.

Definition Use (group : RouterGroup) (middleware : list gin.HandlerFunc)
  : RouterGroup :=
  mkRouterGroup (Handlers group ++ middleware)%list (basePath group).

Definition handle (group : RouterGroup) (httpMethod relativePath : string)
    (hs : list gin.HandlerFunc) (engine : Engine) : Engine :=
  (engine ++ [mkRoute httpMethod (basePath group ++ [relativePath])%list
                      (Handlers group ++ hs)%list])%list.

Definition GET (group : RouterGroup) := handle group "GET".
Definition POST (group : RouterGroup) := handle group "POST".
Definition PATCH (group : RouterGroup) := handle group "PATCH".
Definition DELETE (group : RouterGroup) := handle group "DELETE".

Definition serve (route : Route) : gin.Context -> gin.Outcome :=
  fold_right (fun (h : gin.HandlerFunc) (next : gin.Context -> gin.Outcome) => h next)
             gin.Done (handlers route).

(** ** [routes.go] *)

(** The methods of the user handler, as handler functions. *)
Record UserHandler : Type := mkUserHandler {
  Login : gin.HandlerFunc;
  GetMe : gin.HandlerFunc;
  GetUsers : gin.HandlerFunc;
  CreateUser : gin.HandlerFunc;
  GetUser : gin.HandlerFunc;
  UpdateUser : gin.HandlerFunc;
  DeleteUser : gin.HandlerFunc;
  ChangePassword : gin.HandlerFunc
}.

(** The [Handlers] struct; the name [Handlers] is the field of the route
    group above. *)
Record Handlers_ : Type := mkHandlers { User : UserHandler }.

(** The [AuthMiddleware] interface. *)
Record AuthMiddleware : Type := mkAuthMiddleware {
  RequireAuth : gin.HandlerFunc;
  RequireAdmin : gin.HandlerFunc;
  RequireRole : list string -> gin.HandlerFunc
}.

(** ** [user.go] *)

Definition SetupAuthRoutes (r : RouterGroup) (h : UserHandler) (engine : Engine)
  : Engine :=
  let auth := Group r "/auth" in
  POST auth "/login" [Login h] engine.

Definition SetupUserRoutes (r : RouterGroup) (h : UserHandler)
    (auth : AuthMiddleware) (engine : Engine) : Engine :=
  let engine := GET r "/me" [GetMe h] engine in
  let users := Group r "/users" in
  let engine := GET users "" [RequireAdmin auth; GetUsers h] engine in
  let engine := POST users "" [RequireAdmin auth; CreateUser h] engine in
  let engine := GET users "/:id" [GetUser h] engine in
  let engine := PATCH users "/:id" [RequireAdmin auth; UpdateUser h] engine in
  let engine := DELETE users "/:id" [RequireAdmin auth; DeleteUser h] engine in
  POST users "/:id/change-password" [ChangePassword h] engine.

Definition SetupRoutes (r : RouterGroup) (h : Handlers_) (auth : AuthMiddleware)
    (engine : Engine) : Engine :=
  let engine := SetupAuthRoutes r (User h) engine in
  let protected := Group r "" in
  let protected := Use protected [RequireAuth auth] in
  SetupUserRoutes protected (User h) auth engine.

(** The middleware of package [auth] as the interface value handed to
    [SetupRoutes]. *)
Definition ofMiddleware (m : middleware.Middleware) : AuthMiddleware :=
  mkAuthMiddleware (middleware.RequireAuth m) (middleware.RequireAdmin m)
                   (middleware.RequireRole m).

End routes.

(* ===================================================================== *)
(** * Scenarios: concrete requests, validators and databases *)
(* ===================================================================== *)

Module scenario.

(** A validator in the manner of the [MockJWTValidator] of
    [auth_test.go]: two known tokens, every other one invalid. *)
Definition validator : authMiddleware.IJWTValidator :=
  fun tokenString =>
    if String.eqb tokenString "user-token"
    then (Some (authMiddleware.mkClaims 7 "user"), None)
    else if String.eqb tokenString "admin-token"
    then (Some (authMiddleware.mkClaims 1 "admin"), None)
    else (None, Some auth.ErrInvalidToken).

Definition gate : middleware.Middleware := middleware.mkMiddleware validator.

(** A request for [/users/:id] with the given values of the
    [Authorization] header and the path id. *)
Definition request (authorization : list string) (id : string) : gin.Context :=
  gin.NewContext
    (match authorization with
     | [] => ∅
     | _ => {[ "Authorization" := authorization ]}
     end)
    "" [("id", id)].


(** The users table of the scenarios: an active user, an inactive one. *)
Definition alice : entity.User :=
  entity.mkUser 1 "alice@example.com" "alice" "hashed_password123" "Alice"
                entity.RoleUser true 100 100.

Definition bob : entity.User :=
  entity.mkUser 2 "bob@example.com" "bob" "hashed_password456" "Bob"
                entity.RoleViewer false 200 200.

Definition users : postgres.DB := postgres.mkDB [alice; bob] 2 1000 None.

(** The database with no other session active. *)
Definition quiet : server.World := server.mkWorld users [].

(** Another request registers [carol@example.com] after this request's
    first statement and before its second. *)
Definition carol : entity.User :=
  entity.mkUser 0 "carol@example.com" "carol2" "hashed_other" "Carol"
                entity.RoleUser true 0 0.

Definition racing : server.World := server.mkWorld users [None; Some carol].

(** The service as [server.go] wires it, with the stand-in hasher. *)
Definition wired : deps.Impl server.World := server.impl server.stubHasher.

(** A stand-in for [c.ShouldBindJSON] on a body of the form
    [current,new]: both fields required, the new password of 8 to 100
    characters. *)
Definition bind (body : string)
  : handler.ChangePasswordRequest * option handler.BindingError :=
  match Go.Split body "," with
  | [current; new] =>
      let req := handler.mkChangePasswordRequest current new in
      if String.eqb current "" then
        (req, Some (handler.ValidationErrors
                      ["Field validation for 'CurrentPassword' failed on the 'required' tag"]))
      else if (String.length new <? 8)%nat then
        (req, Some (handler.ValidationErrors
                      ["Field validation for 'NewPassword' failed on the 'min' tag"]))
      else if (100 <? String.length new)%nat then
        (req, Some (handler.ValidationErrors
                      ["Field validation for 'NewPassword' failed on the 'max' tag"]))
      else (req, None)
  | _ =>
      (handler.mkChangePasswordRequest "" "",
       Some (handler.OtherBindingError (New "json.SyntaxError" "invalid character")))
  end.

(** A request for [POST /users/:id/change-password] with that body. *)
Definition changePasswordRequest (id body : string) : gin.Context :=
  gin.NewContext ∅ body [("id", id)].

(** Stand-ins for the keyed hash and the JSON codec of the token library,
    enough to run the token service: the "hash" is the text of the method,
    the key and the message; the header is written as [alg=...], the claims
    as five fields separated by semicolons, times in nanoseconds. *)
Definition showTime (t : option Z) : string :=
  match t with
  | Some n => Go.Itoa n
  | None => ""
  end.

Definition readTime (s : string) : option (option Z) :=
  if String.eqb s "" then Some None
  else match Go.Atoi s with
       | Some n => Some (Some n)
       | None => None
       end.

Definition marshalClaims (c : auth.CustomClaims) : string :=
  Go.Itoa (auth.UserId c) +:+ ";" +:+ auth.Role c +:+ ";" +:+
  jwt.Issuer (auth.Registered c) +:+ ";" +:+
  showTime (jwt.ExpiresAt (auth.Registered c)) +:+ ";" +:+
  showTime (jwt.IssuedAt (auth.Registered c)).

Definition unmarshalClaims (s : string) : option auth.CustomClaims :=
  match Go.Split s ";" with
  | [userId; role; iss; exp; iat] =>
      match Go.Atoi userId, readTime exp, readTime iat with
      | Some userId, Some exp, Some iat =>
          Some (auth.mkCustomClaims userId role
                  (jwt.mkRegisteredClaims iss "" [] exp None iat ""))
      | _, _, _ => None
      end
  | _ => None
  end.

Definition primitives : jwt.Primitives auth.CustomClaims :=
  {| jwt.hmac_Sum := fun h key message =>
       jwt.Alg (jwt.SigningMethodHMAC h) +:+ ":" +:+ key +:+ ":" +:+ message;
     jwt.json_Marshal_Header := fun h =>
       "alg=" +:+ match jwt.alg h with Some a => a | None => "" end;
     jwt.json_Unmarshal_Header := fun s =>
       if Go.HasPrefix s "alg="
       then Some (jwt.mkHeader (Some "JWT") (Some (Go.TrimPrefix s "alg=")))
       else None;
     jwt.json_Marshal_Claims := marshalClaims;
     jwt.json_Unmarshal_Claims := unmarshalClaims |}.

(** The services of [jwt_test.go]. *)
Definition service1 : auth.JWTService :=
  auth.mkJWTService "secret-key-1" time.Hour "go-backend-template".

Definition service2 : auth.JWTService :=
  auth.mkJWTService "secret-key-2" time.Hour "go-backend-template".

(** A moment to issue tokens at: half a second past a whole second. *)
Definition noon : Z := 1700000000 * time.Second + 500000000.

(** A repository in the manner of the [MockUserRepository] of
    [service_test.go], set up with no user in it: every lookup, update and
    delete answers the repository's not-found error, wrapped once. *)
Definition notFound : error :=
  Wrap "user repository: user not found" repository.ErrUserNotFound.

Definition missing : deps.Impl unit :=
  fun X (c : deps.Call X) =>
    match c in deps.Call X return unit -> X * unit with
    | deps.InsertUser _ => fun s => ((1, None), s)
    | deps.GetUserById _ => fun s => ((None, Some notFound), s)
    | deps.GetUserByEmail _ => fun s => ((None, Some notFound), s)
    | deps.GetUsers _ _ _ => fun s => (([], None), s)
    | deps.GetUserCount _ => fun s => ((0, None), s)
    | deps.ExistsUserByEmail _ => fun s => ((false, None), s)
    | deps.UpdateUser _ => fun s => (Some notFound, s)
    | deps.UpdateUserPassword _ _ => fun s => (Some notFound, s)
    | deps.DeleteUserById _ => fun s => (Some notFound, s)
    | deps.Hash password => fun s => (server.hash server.stubHasher password, s)
    | deps.Compare hashedPassword password => fun s =>
        (server.compare server.stubHasher hashedPassword password, s)
    | deps.Assign _ => fun s => (tt, s)
    end.

(** The database server cannot be reached. *)
Definition unreachable : error := New "net.OpError" "dial tcp: connection refused".

Definition down : server.World :=
  server.mkWorld (postgres.mkDB [alice; bob] 2 1000 (Some unreachable)) [].

(** The route group [/api] with no handlers of its own, and a user handler
    whose methods only write their name. *)
Definition api : routes.RouterGroup := routes.mkRouterGroup [] ["/api"].

Definition named (name : string) : gin.HandlerFunc :=
  fun Next c => Next (gin.JSON c http.StatusOK {[ "handler" := gin.AnyString name ]}).

Definition userHandler : routes.UserHandler :=
  routes.mkUserHandler (named "Login") (named "GetMe") (named "GetUsers")
    (named "CreateUser") (named "GetUser") (named "UpdateUser")
    (named "DeleteUser") (named "ChangePassword").

Definition table : routes.Engine :=
  routes.SetupRoutes api (routes.mkHandlers userHandler)
    (routes.ofMiddleware gate) [].

(** Stand-ins for [c.ShouldBindJSON] on the other two request types: a
    create body of the form [email,username,password,name,role], an update
    body of the form [name,role] where an empty part is an absent field. *)
Definition bindCreate (body : string)
  : handler.CreateUserRequest * option handler.BindingError :=
  match Go.Split body "," with
  | [email; username; password; name; role] =>
      let req := handler.mkCreateUserRequest email username password name role in
      if String.eqb role "" then
        (req, Some (handler.ValidationErrors
                      ["Field validation for 'Role' failed on the 'required' tag"]))
      else (req, None)
  | _ =>
      (handler.mkCreateUserRequest "" "" "" "" "",
       Some (handler.OtherBindingError (New "json.SyntaxError" "invalid character")))
  end.

Definition present (s : string) : option string :=
  if String.eqb s "" then None else Some s.

Definition bindUpdate (body : string)
  : handler.UpdateUserRequest * option handler.BindingError :=
  match Go.Split body "," with
  | [name; role] =>
      (handler.mkUpdateUserRequest None None (present name) (present role) None, None)
  | _ =>
      (handler.mkUpdateUserRequest None None None None None,
       Some (handler.OtherBindingError (New "json.SyntaxError" "invalid character")))
  end.

End scenario.

(* ===================================================================== *)
(** * Properties *)
(* ===================================================================== *)

(** ** Credential hasher *)

(** C9.  Constructing the hasher never fails (there is no error result); a
    cost within the bounds of bcrypt is kept, and any cost outside them is
    replaced by the default cost. *)
Theorem NewPasswordHasher_cost (cost : Z) :
  (bcrypt.MinCost <= cost <= bcrypt.MaxCost ->
   password.cost (password.NewPasswordHasher cost) = cost) /\
  (cost < bcrypt.MinCost \/ bcrypt.MaxCost < cost ->
   password.cost (password.NewPasswordHasher cost) = bcrypt.DefaultCost).
Proof.
  unfold password.NewPasswordHasher, bcrypt.MinCost, bcrypt.MaxCost,
    bcrypt.DefaultCost; simpl.
  split; intros Hc.
  - destruct (Z.ltb_spec cost 4); [lia|].
    destruct (Z.gtb_spec cost 31); [lia|]. reflexivity.
  - destruct (Z.ltb_spec cost 4); [reflexivity|].
    destruct (Z.gtb_spec cost 31); [reflexivity|]. lia.
Qed.

Lemma NewPasswordHasher_cost_witness :
  password.cost (password.NewPasswordHasher 12) = 12 /\
  password.cost (password.NewPasswordHasher 3) = bcrypt.DefaultCost /\
  password.cost (password.NewPasswordHasher 32) = bcrypt.DefaultCost.
Proof.
  split; [|split].
  - apply (proj1 (NewPasswordHasher_cost 12)). vm_compute. split; discriminate.
  - apply (proj2 (NewPasswordHasher_cost 3)). left. reflexivity.
  - apply (proj2 (NewPasswordHasher_cost 32)). right. reflexivity.
Defined.

(** ** Access policy middleware *)

Section Gates.
Import middleware handler_context.

Variable m : Middleware.

(** What a rejection leaves behind, for a response nothing was written
    to yet. *)
Lemma AbortWithStatusJSON_response (c : gin.Context) (code : Z) (obj : gin.H) :
  gin.WriterBody c = [] ->
  let c' := gin.AbortWithStatusJSON c code obj in
  gin.Aborted c' = true /\ gin.WriterStatus c' = code /\
  gin.WriterBody c' = [obj] /\ gin.Keys c' = gin.Keys c.
Proof.
  intros Hb. unfold gin.AbortWithStatusJSON, gin.JSON, gin.Status, gin.Abort.
  simpl. rewrite Hb. auto.
Qed.

(** The identity the authentication gate installs is the one the later
    gates read. *)
Lemma installed_identity (c : gin.Context) (userId : Z) (role : string) :
  let c' := SetUserRole (SetUserId c userId) role in
  GetUserId c' = userId /\ GetUserRole c' = role /\ gin.Params c' = gin.Params c.
Proof.
  unfold GetUserId, GetUserRole, SetUserRole, SetUserId, gin.GetInt,
    gin.GetString, gin.Set_, ContextKeyUserId, ContextKeyUserRole; simpl.
  rewrite lookup_insert_ne by discriminate.
  rewrite !lookup_insert_eq. auto.
Qed.

(** The self-or-admin gate, by cases: it lets the request through exactly
    when the role is [admin], or the path parameter is non-empty and
    equal to the UTF-8 encoding of the code point numbered by the user
    id. *)
Lemma RequireAdminOrSelf_cases (paramName : string) (Next : gin.Context -> gin.Outcome)
    (c : gin.Context) :
  RequireAdminOrSelf m paramName Next c =
  if String.eqb (GetUserRole c) entity.RoleAdmin
     || (negb (String.eqb (gin.Param c paramName) "")
         && String.eqb (gin.Param c paramName)
              (Go.string_of_rune (Go.rune_of_int (GetUserId c))))
  then Next c
  else gin.Done (gin.AbortWithStatusJSON c http.StatusForbidden
                   {[ "message" := gin.AnyString "insufficient permissions" ]}).
Proof.
  unfold RequireAdminOrSelf.
  destruct (String.eqb (GetUserRole c) entity.RoleAdmin); reflexivity.
Qed.

(** An administrator passes the self-or-admin gate whatever the path. *)
Lemma RequireAdminOrSelf_admin (paramName : string) (Next : gin.Context -> gin.Outcome)
    (c : gin.Context) :
  GetUserRole c = entity.RoleAdmin ->
  RequireAdminOrSelf m paramName Next c = Next c.
Proof.
  intros H. unfold RequireAdminOrSelf. rewrite H. reflexivity.
Qed.

End Gates.

(** C1 (the code departs from the claim).  A standard user with id 7,
    installed by the authentication gate, asks for path id 7: the
    self-or-admin gate answers 403, because it compares the path text with
    the one-character string whose code point is 7, not with the decimal
    text of the id. *)
Theorem RequireAdminOrSelf_rejects_own_id :
  exists c' : gin.Context,
    middleware.RequireAuth scenario.gate
      (middleware.RequireAdminOrSelf scenario.gate "id" gin.Done)
      (scenario.request ["Bearer user-token"] "7") = gin.Done c' /\
    handler_context.GetUserId c' = 7 /\
    handler_context.GetUserRole c' = "user" /\
    gin.Param c' "id" = "7" /\
    Go.Atoi (gin.Param c' "id") = Some (handler_context.GetUserId c') /\
    gin.Aborted c' = true /\
    gin.WriterStatus c' = http.StatusForbidden /\
    gin.WriterBody c' = [ {[ "message" := gin.AnyString "insufficient permissions" ]} ].
Proof.
  eexists. split; [vm_compute; reflexivity|].
  vm_compute. repeat split; reflexivity.
Qed.

(** The other cases of the same scenario: path id 8 is refused, an
    administrator passes, and the user with id 55 passes for path id 7
    (code point 55 is the digit 7). *)
Lemma RequireAdminOrSelf_other_cases :
  (exists c',
     middleware.RequireAuth scenario.gate
       (middleware.RequireAdminOrSelf scenario.gate "id" gin.Done)
       (scenario.request ["Bearer user-token"] "8") = gin.Done c' /\
     gin.Aborted c' = true /\ gin.WriterStatus c' = http.StatusForbidden) /\
  (exists c',
     middleware.RequireAuth scenario.gate
       (middleware.RequireAdminOrSelf scenario.gate "id" gin.Done)
       (scenario.request ["Bearer admin-token"] "8") = gin.Done c' /\
     gin.Aborted c' = false /\ gin.WriterStatus c' = http.StatusOK) /\
  (let c := handler_context.SetUserRole
              (handler_context.SetUserId (scenario.request [] "7") 55) "user" in
   middleware.RequireAdminOrSelf scenario.gate "id" gin.Done c = gin.Done c).
Proof.
  split; [|split].
  - eexists. split; [vm_compute; reflexivity|]. vm_compute. split; reflexivity.
  - eexists. split; [vm_compute; reflexivity|]. vm_compute. split; reflexivity.
  - vm_compute. reflexivity.
Qed.


(** ** The self-or-admin comparison never holds for one's own id *)

Lemma digits_length (fuel : nat) (n : Z) (acc : string) :
  (String.length acc <= String.length (Go.digits fuel n acc))%nat.
Proof.
  revert n acc. induction fuel as [|fuel IH]; intros n acc; simpl; [lia|].
  destruct (n <? 10); simpl; [lia|].
  etransitivity; [|apply IH]. simpl. lia.
Qed.

Lemma digit_byte (n : Z) : Go.is_digit (Go.byte (48 + n mod 10)) = true.
Proof.
  pose proof (Z.mod_pos_bound n 10 ltac:(lia)) as Hb.
  remember (n mod 10) as d eqn:Hd. clear Hd.
  replace d with (Z.of_nat (Z.to_nat d)) by lia.
  assert (Hk : (Z.to_nat d < 10)%nat) by lia.
  generalize dependent (Z.to_nat d). intros k Hk.
  do 10 (destruct k as [|k]; [reflexivity|]). lia.
Qed.

Lemma digits_first (fuel : nat) (n : Z) (c : ascii) (acc : string) :
  Go.is_digit c = true ->
  exists c' rest,
    Go.digits fuel n (String c acc) = String c' rest /\ Go.is_digit c' = true.
Proof.
  revert n c acc. induction fuel as [|fuel IH]; intros n c acc Hc; simpl.
  - eauto.
  - destruct (n <? 10).
    + eexists _, _. split; [reflexivity|]. apply digit_byte.
    + apply IH. apply digit_byte.
Qed.

(** The decimal text of a number starts with a digit or a minus sign, and
    has more than one character unless the number is between 0 and 9. *)
Lemma Itoa_shape (n : Z) :
  exists c rest,
    Go.Itoa n = String c rest /\
    (Go.is_digit c = true \/ c = "-"%char) /\
    (rest = "" -> 0 <= n <= 9).
Proof.
  unfold Go.Itoa. destruct (Z.ltb_spec n 0) as [Hneg|Hpos].
  - eexists _, _. split; [reflexivity|]. split; [right; reflexivity|].
    intros Hrest. exfalso.
    change (Go.digits 20 (- n) "") with
      (let acc := String (Go.byte (48 + (- n) mod 10)) "" in
       if - n <? 10 then acc else Go.digits 19 (- n / 10) acc) in Hrest.
    cbv zeta in Hrest. destruct (- n <? 10); [discriminate|].
    pose proof (digits_length 19 (- n / 10)
                  (String (Go.byte (48 + (- n) mod 10)) "")) as Hl.
    rewrite Hrest in Hl. simpl in Hl. lia.
  - change (Go.digits 20 n "") with
      (let acc := String (Go.byte (48 + n mod 10)) "" in
       if n <? 10 then acc else Go.digits 19 (n / 10) acc).
    cbv zeta. destruct (Z.ltb_spec n 10) as [Hlt|Hge].
    + eexists _, _. split; [reflexivity|]. split; [left; apply digit_byte|]. lia.
    + destruct (digits_first 19 (n / 10) _ "" (digit_byte n)) as (c & rest & Heq & Hc).
      exists c, rest. split; [exact Heq|]. split; [left; exact Hc|].
      intros ->. exfalso.
      change (Go.digits 19 (n / 10) (String (Go.byte (48 + n mod 10)) "")) with
        (let acc := String (Go.byte (48 + (n / 10) mod 10))
                      (String (Go.byte (48 + n mod 10)) "") in
         if n / 10 <? 10 then acc else Go.digits 18 (n / 10 / 10) acc) in Heq.
      cbv zeta in Heq. destruct (n / 10 <? 10); [discriminate|].
      pose proof (digits_length 18 (n / 10 / 10)
                    (String (Go.byte (48 + (n / 10) mod 10))
                       (String (Go.byte (48 + n mod 10)) ""))) as Hl.
      rewrite Heq in Hl. simpl in Hl. lia.
Qed.

Lemma lead_byte (K x : Z) :
  K = 192 \/ K = 224 \/ K = 240 -> 0 <= x < 32 ->
  Go.is_digit (Go.byte (Z.lor K x)) = false /\ Go.byte (Z.lor K x) <> "-"%char.
Proof.
  intros HK Hx.
  replace x with (Z.of_nat (Z.to_nat x)) by lia.
  assert (Hk : (Z.to_nat x < 32)%nat) by lia.
  generalize dependent (Z.to_nat x). intros k Hk.
  destruct HK as [-> | [-> | ->]];
    do 32 (destruct k as [|k]; [split; [reflexivity | discriminate]|]); lia.
Qed.

(** The text of a code point is one byte below 128, or starts with a byte
    that is neither a digit nor a minus sign. *)
Lemma string_of_rune_shape (r : Z) :
  - 2 ^ 31 <= r < 2 ^ 31 ->
  (0 <= r <= 127 /\ Go.string_of_rune r = String (Go.byte r) "") \/
  (exists c rest,
     Go.string_of_rune r = String c rest /\
     Go.is_digit c = false /\ c <> "-"%char).
Proof.
  change (2 ^ 31) with 2147483648. intros Hr.
  unfold Go.string_of_rune, Go.utf8_encode, Go.MaxRune, Go.RuneError,
    Go.surrogateMin, Go.surrogateMax.
  change (2 ^ 32) with 4294967296.
  assert (Hi : r mod 4294967296 = if r <? 0 then r + 4294967296 else r).
  { destruct (Z.ltb_spec r 0).
    - symmetry. apply Z.mod_unique with (-1); lia.
    - apply Z.mod_small. lia. }
  rewrite Hi. clear Hi.
  destruct (Z.ltb_spec r 0) as [Hneg|Hpos].
  - right.
    destruct (Z.leb_spec (r + 4294967296) 127); [lia|].
    destruct (Z.leb_spec (r + 4294967296) 2047); [lia|].
    destruct (Z.ltb_spec 1114111 (r + 4294967296)); [|lia].
    simpl. eexists _, _. split; [reflexivity|].
    split; [reflexivity | discriminate].
  - destruct (Z.leb_spec r 127) as [H1|H1].
    + left. split; [lia|]. reflexivity.
    + right. destruct (Z.leb_spec r 2047) as [H2|H2].
      * eexists _, _. split; [reflexivity|].
        apply lead_byte; [auto|].
        rewrite Z.shiftr_div_pow2 by lia. change (2 ^ 6) with 64.
        split; [apply Z.div_pos; lia | apply Z.div_lt_upper_bound; lia].
      * destruct ((1114111 <? r) || ((55296 <=? r) && (r <=? 57343))) eqn:Hbad.
        -- simpl. eexists _, _. split; [reflexivity|].
           split; [reflexivity | discriminate].
        -- apply orb_false_iff in Hbad. destruct Hbad as [Hmax _].
           apply Z.ltb_ge in Hmax.
           destruct (Z.leb_spec r 65535) as [H3|H3].
           ++ eexists _, _. split; [reflexivity|].
              apply lead_byte; [auto|].
              rewrite Z.shiftr_div_pow2 by lia. change (2 ^ 12) with 4096.
              split; [apply Z.div_pos; lia | apply Z.div_lt_upper_bound; lia].
           ++ eexists _, _. split; [reflexivity|].
              apply lead_byte; [auto|].
              rewrite Z.shiftr_div_pow2 by lia. change (2 ^ 18) with 262144.
              split; [apply Z.div_pos; lia | apply Z.div_lt_upper_bound; lia].
Qed.

Lemma rune_of_int_range (x : Z) : - 2 ^ 31 <= Go.rune_of_int x < 2 ^ 31.
Proof.
  unfold Go.rune_of_int.
  pose proof (Z.mod_pos_bound (x + 2 ^ 31) (2 ^ 32) ltac:(lia)).
  change (2 ^ 31) with 2147483648 in *. change (2 ^ 32) with 4294967296 in *.
  lia.
Qed.

(** The decimal text of an id is never the text that the gate compares the
    path parameter with. *)
Lemma Itoa_is_not_string_of_rune (userId : Z) :
  Go.Itoa userId <> Go.string_of_rune (Go.rune_of_int userId).
Proof.
  intros Heq.
  destruct (Itoa_shape userId) as (c & rest & Hi & Hc & Hone).
  destruct (string_of_rune_shape _ (rune_of_int_range userId))
    as [(Hr & Hs) | (c' & rest' & Hs & Hd & Hm)].
  - rewrite Hi, Hs in Heq. injection Heq as Hc' Hrest.
    specialize (Hone Hrest). clear - Hone Hi Hs Hc' Hrest.
    assert (Hk : exists k, (k < 10)%nat /\ userId = Z.of_nat k).
    { exists (Z.to_nat userId). lia. }
    destruct Hk as (k & Hk & ->). subst rest.
    do 10 (destruct k as [|k]; [vm_compute in Hi; injection Hi as <-;
                                vm_compute in Hc'; discriminate Hc'|]).
    lia.
  - rewrite Hi, Hs in Heq. injection Heq as -> _.
    destruct Hc as [Hc | Hc]; congruence.
Qed.

(** Whatever the user id, a user who is not an administrator and asks for
    the path that spells their own id in decimal is refused. *)
Lemma RequireAdminOrSelf_never_self (m : middleware.Middleware)
    (paramName : string) (Next : gin.Context -> gin.Outcome) (c : gin.Context) :
  handler_context.GetUserRole c <> entity.RoleAdmin ->
  gin.Param c paramName = Go.Itoa (handler_context.GetUserId c) ->
  middleware.RequireAdminOrSelf m paramName Next c =
  gin.Done (gin.AbortWithStatusJSON c http.StatusForbidden
              {[ "message" := gin.AnyString "insufficient permissions" ]}).
Proof.
  intros Hrole Hparam. unfold middleware.RequireAdminOrSelf.
  rewrite (proj2 (String.eqb_neq _ _) Hrole). rewrite Hparam.
  rewrite (proj2 (String.eqb_neq (Go.Itoa _) (Go.string_of_rune _)))
    by apply Itoa_is_not_string_of_rune.
  rewrite andb_false_r. reflexivity.
Qed.


(** ** Authentication gate *)

Lemma substring_whole (s : string) :
  String.substring 0 (String.length s) s = s.
Proof.
  induction s as [|a s IH]; simpl; [reflexivity|]. now rewrite IH.
Qed.

(** A header made of the bearer prefix and a token has the prefix, and
    trimming the prefix gives the token back. *)
Lemma bearer_token (tok : string) :
  Go.HasPrefix (middleware.bearerPrefix +:+ tok) middleware.bearerPrefix = true /\
  Go.TrimPrefix (middleware.bearerPrefix +:+ tok) middleware.bearerPrefix = tok.
Proof.
  unfold Go.TrimPrefix, Go.HasPrefix, middleware.bearerPrefix.
  assert (Hp : String.prefix "Bearer " ("Bearer " +:+ tok) = true).
  { simpl. destruct tok; reflexivity. }
  rewrite Hp. split; [reflexivity|].
  simpl. rewrite Nat.sub_0_r. apply substring_whole.
Qed.





(** ** Account service *)

Section Service.
Import deps.

Context {S : Type}.
Variable impl : Impl S.

Lemma differs_None (supplied : option string) (stored : string) :
  supplied = None \/ supplied = Some stored ->
  service.differs supplied stored = None.
Proof.
  intros [-> | ->]; simpl; [reflexivity|]. now rewrite String.eqb_refl.
Qed.

(** C6.  An update whose every supplied field equals the stored value
    (fields not supplied count as equal) succeeds, and the only thing it
    does is read the user: no [UpdateUser] call, no other call, no
    assignment through the fetched user, and the state is the one the read
    left. *)
Theorem UpdateUser_no_change (s s1 : S) (input : service.UpdateUserInput)
    (user : entity.User) :
  impl _ (GetUserById (service.update_Id input)) s = ((Some user, None), s1) ->
  (service.update_Email input = None \/
   service.update_Email input = Some (entity.Email user)) ->
  (service.update_Username input = None \/
   service.update_Username input = Some (entity.Username user)) ->
  (service.update_Name input = None \/
   service.update_Name input = Some (entity.Name user)) ->
  (service.update_Role input = None \/
   service.update_Role input = Some (entity.Role user)) ->
  (service.update_IsActive input = None \/
   service.update_IsActive input = Some (entity.IsActive user)) ->
  run impl (service.UpdateUser input) s =
  mkRun (Some None) s1
        [Ev (GetUserById (service.update_Id input)) (Some user, None)].
Proof.
  intros Hget He Hu Hn Hr Ha.
  unfold service.UpdateUser. simpl. rewrite Hget. simpl.
  rewrite (differs_None _ _ He). simpl.
  rewrite (differs_None _ _ Hu). simpl.
  rewrite (differs_None _ _ Hn). simpl.
  rewrite (differs_None _ _ Hr). simpl.
  destruct Ha as [-> | ->]; simpl; [reflexivity|].
  rewrite Bool.eqb_reflx. reflexivity.
Qed.

End Service.

Lemma UpdateUser_no_change_witness :
  let input := service.mkUpdateUserInput 1 (Some "alice@example.com") None
                 (Some "Alice") (Some "user") (Some true) in
  deps.run scenario.wired (service.UpdateUser input) scenario.quiet =
  deps.mkRun (Some None) scenario.quiet
    [deps.Ev (deps.GetUserById 1) (Some scenario.alice, None)].
Proof.
  cbv zeta.
  apply (UpdateUser_no_change scenario.wired scenario.quiet scenario.quiet
           (service.mkUpdateUserInput 1 (Some "alice@example.com") None
              (Some "Alice") (Some "user") (Some true)) scenario.alice).
  - vm_compute. reflexivity.
  - right. reflexivity.
  - left. reflexivity.
  - right. reflexivity.
  - right. reflexivity.
  - right. reflexivity.
Defined.

(** An update that does change a field reaches the storage update call:
    the no-op above is not the only behaviour. *)
Lemma UpdateUser_change_is_persisted :
  let input := service.mkUpdateUserInput 1 None None (Some "Alice L.") None None in
  let r := deps.run scenario.wired (service.UpdateUser input) scenario.quiet in
  deps.result r = Some None /\
  existsb deps.is_UpdateUser (deps.trace r) = true /\
  postgres.GetUserById (server.db (deps.final r)) 1 =
    (Some (entity.mkUser 1 "alice@example.com" "alice" "hashed_password123"
                         "Alice L." "user" true 100 1000), None).
Proof.
  vm_compute. repeat split; reflexivity.
Qed.

Section Boundary.
Import deps.

Context {S : Type}.
Variable impl : Impl S.
Variable ShouldBindJSON : string -> handler.ChangePasswordRequest * option handler.BindingError.

(** C8.  A change-password request whose new password equals its current
    password is answered 400 before the service is called: no repository
    or hasher call is made (in particular no [Hash]), and the state is
    untouched.  When the path id and the binding are in order, the answer
    is the one of [Validate]. *)
Theorem ChangePassword_same_password_rejected (c : gin.Context) (s : S) :
  gin.WriterBody c = [] ->
  handler.CurrentPassword (fst (ShouldBindJSON (gin.RequestBody c))) =
  handler.NewPassword (fst (ShouldBindJSON (gin.RequestBody c))) ->
  let r := run impl (handler.ChangePassword ShouldBindJSON c) s in
  trace r = [] /\ final r = s /\
  exists c' : gin.Context,
    result r = Some c' /\
    gin.Aborted c' = true /\
    gin.WriterStatus c' = http.StatusBadRequest /\
    (forall userId : Z,
       Go.Atoi (gin.Param c "id") = Some userId ->
       snd (ShouldBindJSON (gin.RequestBody c)) = None ->
       c' = handler.HandleValidationError c
              "new password must be different from current password").
Proof.
  intros Hfresh Hsame. cbv zeta. unfold handler.ChangePassword.
  assert (Hresp : forall code msg data,
            gin.Aborted (handler.responseError c code msg data) = true /\
            gin.WriterStatus (handler.responseError c code msg data) = code).
  { intros code msg data. unfold handler.responseError.
    destruct (AbortWithStatusJSON_response c code
                (match data with
                 | Some d => <["data" := d]> {["message" := gin.AnyString msg]}
                 | None => {["message" := gin.AnyString msg]}
                 end) Hfresh) as (Ha & Hs & _).
    split; assumption. }
  destruct (Go.Atoi (gin.Param c "id")) as [userId|].
  - destruct (ShouldBindJSON (gin.RequestBody c)) as [req [err|]];
      simpl in Hsame |- *.
    + split; [reflexivity|]. split; [reflexivity|].
      eexists. split; [reflexivity|].
      destruct err; unfold handler.HandleBindingError;
        (split; [apply Hresp|]); (split; [apply Hresp|]);
        intros ? _ Hn; discriminate Hn.
    + unfold handler.Validate. rewrite Hsame, String.eqb_refl. simpl.
      split; [reflexivity|]. split; [reflexivity|].
      eexists. split; [reflexivity|]. unfold handler.HandleValidationError.
      split; [apply Hresp|]. split; [apply Hresp|]. reflexivity.
  - simpl. split; [reflexivity|]. split; [reflexivity|].
    eexists. split; [reflexivity|]. unfold handler.HandleValidationError.
    split; [apply Hresp|]. split; [apply Hresp|].
    intros ? Hn; discriminate Hn.
Qed.

End Boundary.

Lemma ChangePassword_same_password_rejected_witness :
  let c := scenario.changePasswordRequest "1" "password123,password123" in
  let r := deps.run scenario.wired (handler.ChangePassword scenario.bind c)
             scenario.quiet in
  deps.trace r = [] /\ deps.final r = scenario.quiet /\
  exists c' : gin.Context,
    deps.result r = Some c' /\
    gin.Aborted c' = true /\
    gin.WriterStatus c' = http.StatusBadRequest /\
    (forall userId : Z,
       Go.Atoi (gin.Param c "id") = Some userId ->
       snd (scenario.bind (gin.RequestBody c)) = None ->
       c' = handler.HandleValidationError c
              "new password must be different from current password").
Proof.
  cbv zeta.
  apply (ChangePassword_same_password_rejected scenario.wired scenario.bind
           (scenario.changePasswordRequest "1" "password123,password123")
           scenario.quiet).
  - reflexivity.
  - vm_compute. reflexivity.
Defined.

(** With a new password that differs, and the current one right, the same
    request reaches the hasher: the rejection above is due to the equal
    passwords. *)
Lemma ChangePassword_different_password_hashes :
  let c := scenario.changePasswordRequest "1" "password123,password456" in
  let r := deps.run scenario.wired (handler.ChangePassword scenario.bind c)
             scenario.quiet in
  existsb deps.is_Hash (deps.trace r) = true /\
  (exists c', deps.result r = Some c' /\ gin.WriterStatus c' = http.StatusOK) /\
  postgres.GetUserById (server.db (deps.final r)) 1 =
    (Some (entity.mkUser 1 "alice@example.com" "alice" "hashed_password456"
                         "Alice" "user" true 100 1000), None).
Proof.
  split; [vm_compute; reflexivity|]. split.
  - eexists. split; vm_compute; reflexivity.
  - vm_compute. reflexivity.
Qed.


(** ** The service against the signals it is written for *)

Section Signals.
Import deps.

Context {S : Type}.
Variable impl : Impl S.

(** Login: when the repository answers with an error that is
    [repository.ErrUserNotFound], or with an inactive user, or the hasher
    refuses the password, the result is the same value. *)
Lemma Login_failures_collapse (s : S) (input : service.LoginInput) :
  let get := impl _ (GetUserByEmail (service.login_Email input)) s in
  (exists err,
     snd (fst get) = Some err /\ errors.Is err repository.ErrUserNotFound = true) \/
  (exists user,
     fst get = (Some user, None) /\ entity.IsActive user = false) \/
  (exists user err,
     fst get = (Some user, None) /\ entity.IsActive user = true /\
     fst (impl _ (Compare (entity.Password user) (service.login_Password input))
               (snd get)) = Some err) ->
  result (run impl (service.Login input) s) = Some (None, Some InvalidCredentialsError).
Proof.
  cbv zeta. unfold service.Login. simpl.
  destruct (impl _ (GetUserByEmail (service.login_Email input)) s)
    as [[user err] s1]. simpl.
  intros [(e & -> & His) | [(u & Hu & Hact) | (u & e & Hu & Hact & Hcmp)]].
  - simpl. rewrite His. reflexivity.
  - injection Hu as -> ->. simpl. rewrite Hact. reflexivity.
  - injection Hu as -> ->. simpl. rewrite Hact. simpl.
    destruct (impl _ (Compare (entity.Password u) (service.login_Password input)) s1)
      as [r s2]. simpl in Hcmp. subst r. reflexivity.
Qed.

(** Change password: when the repository answers the read with an error
    that is [repository.ErrUserNotFound], the result is the not-found
    error for that id (status 404), after that one call. *)
Lemma ChangePassword_not_found_signal (s s1 : S)
    (input : service.ChangePasswordInput) (user : option entity.User) (err : error) :
  impl _ (GetUserById (service.UserId input)) s = ((user, Some err), s1) ->
  errors.Is err repository.ErrUserNotFound = true ->
  run impl (service.ChangePassword input) s =
  mkRun (Some (Some (UserNotFoundError (service.UserId input) ""))) s1
        [Ev (GetUserById (service.UserId input)) (user, Some err)].
Proof.
  intros Hget His. unfold service.ChangePassword. simpl.
  rewrite Hget. simpl. rewrite His. reflexivity.
Qed.

(** Create: when the existence check answers that the email is taken, the
    result is the already-exists error and the check is the only call:
    nothing is hashed and nothing is inserted. *)
Lemma CreateUser_existing_email (s s1 : S) (input : service.CreateUserInput) :
  entity.IsValidRole (service.create_Role input) = true ->
  impl _ (ExistsUserByEmail (service.create_Email input)) s = ((true, None), s1) ->
  run impl (service.CreateUser input) s =
  mkRun (Some (0, Some (UserAlreadyExistsError (service.create_Email input)))) s1
        [Ev (ExistsUserByEmail (service.create_Email input)) (true, None)].
Proof.
  intros Hrole Hex. unfold service.CreateUser. rewrite Hrole. simpl.
  rewrite Hex. reflexivity.
Qed.

(** Create: whenever the insert is reached and answers with an error that
    is [repository.ErrDuplicateEmail], the result is the already-exists
    error; an insert happens only after a check that answered "absent". *)
Lemma CreateUser_trace (s : S) (input : service.CreateUserInput) :
  let r := run impl (service.CreateUser input) s in
  (forall user id err,
     In (Ev (InsertUser user) (id, Some err)) (trace r) ->
     errors.Is err repository.ErrDuplicateEmail = true ->
     result r = Some (0, Some (UserAlreadyExistsError (service.create_Email input)))) /\
  (In (Ev (ExistsUserByEmail (service.create_Email input)) (true, None)) (trace r) ->
   result r = Some (0, Some (UserAlreadyExistsError (service.create_Email input))) /\
   existsb is_InsertUser (trace r) = false /\
   existsb is_Hash (trace r) = false).
Proof.
  cbv zeta. unfold service.CreateUser.
  destruct (entity.IsValidRole (service.create_Role input)); simpl;
    [|split; [intros ? ? ? []|intros []]].
  destruct (impl _ (ExistsUserByEmail (service.create_Email input)) s)
    as [[ex [e|]] s1]; simpl.
  { split.
    - intros user id err [H|[]] _.
      apply (f_equal InsertUser_response) in H. discriminate H.
    - intros [H|[]].
      apply (f_equal ExistsUserByEmail_response) in H. discriminate H. }
  destruct ex; simpl.
  { split.
    - intros user id err [H|[]] _.
      apply (f_equal InsertUser_response) in H. discriminate H.
    - intros _. auto. }
  destruct (impl _ (Hash (service.create_Password input)) s1)
    as [[hashed [e|]] s2]; simpl.
  { split.
    - intros user id err [H|[H|[]]] _;
        apply (f_equal InsertUser_response) in H; discriminate H.
    - intros [H|[H|[]]];
        apply (f_equal ExistsUserByEmail_response) in H; discriminate H. }
  destruct (impl _ (InsertUser _) s2) as [[id0 [e|]] s3]; simpl.
  - destruct (errors.Is e repository.ErrDuplicateEmail) eqn:He; simpl; split.
    + intros; reflexivity.
    + intros [H|[H|[H|[]]]];
        apply (f_equal ExistsUserByEmail_response) in H; discriminate H.
    + intros user id err [H|[H|[H|[]]]] His;
        apply (f_equal InsertUser_response) in H; try discriminate H.
      simpl in H. injection H as _ ->. congruence.
    + intros [H|[H|[H|[]]]];
        apply (f_equal ExistsUserByEmail_response) in H; discriminate H.
  - split.
    + intros user id err [H|[H|[H|[]]]] His;
        apply (f_equal InsertUser_response) in H; discriminate H.
    + intros [H|[H|[H|[]]]];
        apply (f_equal ExistsUserByEmail_response) in H; discriminate H.
Qed.

End Signals.


(** ** The service as wired to the PostgreSQL repository *)

(** The errors the PostgreSQL repository answers with are not the ones the
    service tests for: same text, different values. *)
Lemma postgres_sentinels_unmatched :
  errors.Is postgres.ErrNoUser repository.ErrUserNotFound = false /\
  errors.Is postgres.ErrDuplicateEmail repository.ErrDuplicateEmail = false /\
  domain.Error postgres.ErrNoUser = domain.Error repository.ErrUserNotFound /\
  domain.Error postgres.ErrDuplicateEmail = domain.Error repository.ErrDuplicateEmail.
Proof.
  repeat split; reflexivity.
Qed.

(** For a user that is not in the table the repository answers
    [postgres.ErrNoUser], whatever the rows. *)
Lemma postgres_GetUserByEmail_absent (db : postgres.DB) (email : string) :
  postgres.failure db = None ->
  existsb (postgres.byEmail email) (postgres.rows db) = false ->
  postgres.GetUserByEmail db email = (None, Some postgres.ErrNoUser).
Proof.
  intros Hf Hex. unfold postgres.GetUserByEmail, postgres.queryRow. rewrite Hf.
  destruct (find (postgres.byEmail email) (postgres.rows db)) as [u|] eqn:Hfind.
  - apply find_some in Hfind. destruct Hfind as [Hin Hp].
    assert (existsb (postgres.byEmail email) (postgres.rows db) = true)
      by (apply existsb_exists; eauto).
    congruence.
  - reflexivity.
Qed.

(** C2 (the code departs from the claim).  Logging in with an email that
    no account is stored under gives the internal error wrapping
    [postgres.ErrNoUser] (status 500), while an inactive account and a
    wrong password give the invalid-credentials error (status 401): the
    first case is told apart from the other two. *)
Theorem Login_unknown_email_is_told_apart :
  let login (email password : string) :=
    deps.result (deps.run scenario.wired
                   (service.Login (service.mkLoginInput email password))
                   scenario.quiet) in
  login "nobody@example.com" "password123" =
    Some (None, Some (InternalServerError "failed to get user"
                        (Some postgres.ErrNoUser))) /\
  login "bob@example.com" "password456" = Some (None, Some InvalidCredentialsError) /\
  login "alice@example.com" "wrong-password" = Some (None, Some InvalidCredentialsError) /\
  domain.HTTPStatus (InternalServerError "failed to get user" (Some postgres.ErrNoUser))
    = Some http.StatusInternalServerError /\
  domain.HTTPStatus InvalidCredentialsError = Some http.StatusUnauthorized /\
  domain.Error (InternalServerError "failed to get user" (Some postgres.ErrNoUser))
    = "failed to get user: user not found".
Proof.
  vm_compute. repeat split; reflexivity.
Qed.

(** The right password of an active account logs in. *)
Lemma Login_success :
  deps.result (deps.run scenario.wired
                 (service.Login (service.mkLoginInput "alice@example.com" "password123"))
                 scenario.quiet)
  = Some (Some scenario.alice, None).
Proof.
  vm_compute. reflexivity.
Qed.

(** C10 (the code departs from the claim).  Changing the password of a
    user id that has no row gives the internal error wrapping
    [postgres.ErrNoUser] (status 500), not the not-found error (status
    404); nothing is compared or hashed. *)
Theorem ChangePassword_unknown_id_is_internal_error :
  let r := deps.run scenario.wired
             (service.ChangePassword
                (service.mkChangePasswordInput 999 "password123" "password456"))
             scenario.quiet in
  deps.result r =
    Some (Some (InternalServerError "failed to get user" (Some postgres.ErrNoUser))) /\
  deps.trace r = [deps.Ev (deps.GetUserById 999) (None, Some postgres.ErrNoUser)] /\
  domain.HTTPStatus (InternalServerError "failed to get user" (Some postgres.ErrNoUser))
    = Some http.StatusInternalServerError /\
  domain.HTTPStatus (UserNotFoundError 999 "") = Some http.StatusNotFound.
Proof.
  vm_compute. repeat split; reflexivity.
Qed.

(** C5 (the code departs from the claim in its second half).  A create
    request whose existence check finds the email free, and whose insert
    then hits the unique constraint because another request registered the
    email in between, gives the internal error wrapping
    [postgres.ErrDuplicateEmail] (status 500), not the already-exists error
    (status 409). *)
Theorem CreateUser_duplicate_at_insert_is_internal_error :
  let input := service.mkCreateUserInput "carol@example.com" "carol"
                 "password123" "Carol" "user" in
  let r := deps.run scenario.wired (service.CreateUser input) scenario.racing in
  map deps.ExistsUserByEmail_response (deps.trace r) =
    [Some (false, None); None; None] /\
  map deps.InsertUser_response (deps.trace r) =
    [None; None; Some (0, Some postgres.ErrDuplicateEmail)] /\
  deps.result r =
    Some (0, Some (InternalServerError "failed to create user"
                     (Some postgres.ErrDuplicateEmail))) /\
  domain.HTTPStatus (InternalServerError "failed to create user"
                       (Some postgres.ErrDuplicateEmail))
    = Some http.StatusInternalServerError /\
  domain.HTTPStatus (UserAlreadyExistsError "carol@example.com")
    = Some http.StatusConflict.
Proof.
  vm_compute. repeat split; reflexivity.
Qed.

(** The first half on the same database: an email the existence check
    finds taken gives the already-exists error, and nothing is inserted. *)
Lemma CreateUser_existing_email_wired :
  let input := service.mkCreateUserInput "alice@example.com" "alice2"
                 "password123" "Alice" "user" in
  let r := deps.run scenario.wired (service.CreateUser input) scenario.quiet in
  deps.result r = Some (0, Some (UserAlreadyExistsError "alice@example.com")) /\
  existsb deps.is_InsertUser (deps.trace r) = false /\
  deps.final r = scenario.quiet.
Proof.
  vm_compute. repeat split; reflexivity.
Qed.

(** Without interference a fresh email is inserted and gets the next id. *)
Lemma CreateUser_success :
  let input := service.mkCreateUserInput "carol@example.com" "carol"
                 "password123" "Carol" "user" in
  let r := deps.run scenario.wired (service.CreateUser input) scenario.quiet in
  deps.result r = Some (3, None) /\
  postgres.GetUserByEmail (server.db (deps.final r)) "carol@example.com" =
    (Some (entity.mkUser 3 "carol@example.com" "carol" "hashed_password123"
                         "Carol" "user" true 1000 1000), None).
Proof.
  vm_compute. repeat split; reflexivity.
Qed.


(** ** Token service *)

(** [NewNumericDate] rounds down to a whole second. *)
Lemma NewNumericDate_bounds (t : Z) :
  jwt.NewNumericDate t <= t < jwt.NewNumericDate t + time.Second /\
  jwt.NewNumericDate t mod time.Second = 0.
Proof.
  unfold jwt.NewNumericDate, jwt.TimePrecision, time.Truncate, time.Second.
  pose proof (Z.mod_pos_bound t 1000000000 ltac:(lia)) as Hb.
  split; [lia|].
  rewrite Zminus_mod, Zmod_mod, Z.sub_diag. reflexivity.
Qed.





(** A positive lifetime below one second can also leave the expiry equal
    to the issue time. *)
Lemma GenerateToken_subsecond_lifetime :
  let s := auth.mkJWTService "test-secret-key" 1000000 "go-backend-template" in
  auth.NewJWTService (auth.mkJWTConfig "test-secret-key" 1000000 "go-backend-template")
    = (Some s, None) /\
  jwt.IssuedAt (auth.Registered (auth.newClaims s scenario.noon 1 "user"))
  = jwt.ExpiresAt (auth.Registered (auth.newClaims s scenario.noon 1 "user")).
Proof.
  split; reflexivity.
Qed.


(** ** Token verification *)

Lemma append_cons (x : ascii) (a b : string) :
  String x a +:+ b = String x (a +:+ b).
Proof. reflexivity. Qed.

Lemma append_nil (b : string) : "" +:+ b = b.
Proof. reflexivity. Qed.

Lemma append_assoc (a b c : string) : (a +:+ b) +:+ c = a +:+ (b +:+ c).
Proof.
  induction a as [|x a IH]; [reflexivity|].
  rewrite !append_cons. f_equal. exact IH.
Qed.

(** Splitting on a separator that a segment does not contain. *)
Lemma Split_segment (a : string) (sep : ascii) :
  Go.Contains a (String sep "") = false -> Go.Split a sep = [a].
Proof.
  induction a as [|x a IH]; simpl; [reflexivity|].
  destruct (ascii_dec sep x) as [->|Hne].
  - destruct a; discriminate.
  - simpl. intros Hc. rewrite (proj2 (Ascii.eqb_neq x sep)) by congruence.
    rewrite IH by assumption. reflexivity.
Qed.

Lemma Split_first (a b : string) (sep : ascii) :
  Go.Contains a (String sep "") = false ->
  Go.Split (a +:+ String sep b) sep = a :: Go.Split b sep.
Proof.
  induction a as [|x a IH].
  - intros _. rewrite append_nil. simpl. rewrite Ascii.eqb_refl. reflexivity.
  - rewrite append_cons. simpl.
    destruct (ascii_dec sep x) as [->|Hne].
    + destruct a; discriminate.
    + simpl. intros Hc. rewrite (proj2 (Ascii.eqb_neq x sep)) by congruence.
      rewrite IH by assumption. reflexivity.
Qed.

(** Every 6-bit value is encoded as a character of the alphabet, which
    decodes to it and is not a dot. *)
Lemma enc6_dec6 (b0 b1 b2 b3 b4 b5 : bool) :
  base64.dec6 (base64.enc6 (Ascii b0 b1 b2 b3 b4 b5 false false))
  = Some (Ascii b0 b1 b2 b3 b4 b5 false false) /\
  base64.enc6 (Ascii b0 b1 b2 b3 b4 b5 false false) <> "."%char.
Proof.
  destruct b0, b1, b2, b3, b4, b5; vm_compute; split; (reflexivity || discriminate).
Qed.

(** Induction over a byte string three bytes at a time. *)
Lemma string_ind3 (P : string -> Prop) :
  P "" -> (forall a, P (String a "")) -> (forall a b, P (String a (String b ""))) ->
  (forall a b c s, P s -> P (String a (String b (String c s)))) ->
  forall s, P s.
Proof.
  intros H0 H1 H2 H3 s.
  assert (H : P s /\ (forall a, P (String a s)) /\ (forall a b, P (String a (String b s)))).
  { induction s as [|c s (IHa & IHb & IHc)].
    - auto.
    - split; [apply IHb|]. split; [intros a; apply IHc|].
      intros a b. apply H3. exact IHa. }
  apply H.
Qed.

Lemma Contains_cons (c sep : ascii) (rest : string) :
  c <> sep ->
  Go.Contains (String c rest) (String sep "") = Go.Contains rest (String sep "").
Proof.
  intros Hne. cbn [Go.Contains String.prefix].
  destruct (ascii_dec sep c); [congruence|]. reflexivity.
Qed.

(** An encoded segment contains no dot. *)
Lemma EncodeToString_no_dot (s : string) :
  Go.Contains (base64.EncodeToString s) "." = false.
Proof.
  induction s as [| a | a b | a b c s IH] using string_ind3;
    try destruct a as [a0 a1 a2 a3 a4 a5 a6 a7];
    try destruct b as [b0 b1 b2 b3 b4 b5 b6 b7];
    try destruct c as [c0 c1 c2 c3 c4 c5 c6 c7];
    cbn [base64.EncodeToString];
    rewrite ?Contains_cons by apply enc6_dec6;
    solve [reflexivity | exact IH].
Qed.

Lemma sextets_cons (c v : ascii) (rest : string) :
  base64.dec6 c = Some v ->
  base64.sextets (String c rest) =
  match base64.sextets rest with
  | Some l => Some (v :: l)
  | None => None
  end.
Proof.
  intros H. cbn [base64.sextets]. rewrite H. reflexivity.
Qed.

(** Decoding an encoded segment gives the bytes back. *)
Lemma DecodeString_EncodeToString (s : string) :
  base64.DecodeString (base64.EncodeToString s) = Some s.
Proof.
  unfold base64.DecodeString.
  assert (H : exists l, base64.sextets (base64.EncodeToString s) = Some l /\
                        base64.quanta l = Some s).
  { induction s as [| a | a b | a b c s (l & Hs & Hq)] using string_ind3;
      try destruct a as [a0 a1 a2 a3 a4 a5 a6 a7];
      try destruct b as [b0 b1 b2 b3 b4 b5 b6 b7];
      try destruct c as [c0 c1 c2 c3 c4 c5 c6 c7];
      cbn [base64.EncodeToString].
    - exists []. split; reflexivity.
    - eexists. split.
      + rewrite !(sextets_cons _ _ _ (proj1 (enc6_dec6 _ _ _ _ _ _))).
        reflexivity.
      + reflexivity.
    - eexists. split.
      + rewrite !(sextets_cons _ _ _ (proj1 (enc6_dec6 _ _ _ _ _ _))).
        reflexivity.
      + reflexivity.
    - eexists. split.
      + rewrite !(sextets_cons _ _ _ (proj1 (enc6_dec6 _ _ _ _ _ _))).
        rewrite Hs. reflexivity.
      + cbn [base64.quanta]. rewrite Hq. reflexivity. }
  destruct H as (l & -> & Hq). exact Hq.
Qed.

Section Verification.
Context `{!jwt.Primitives auth.CustomClaims}.

(** The compact form of a signed token splits into its three segments. *)
Lemma Split_compact (header claims sig : string) :
  Go.Split ((base64.EncodeToString header +:+ "." +:+ base64.EncodeToString claims)
            +:+ "." +:+ base64.EncodeToString sig) "."
  = [base64.EncodeToString header; base64.EncodeToString claims;
     base64.EncodeToString sig].
Proof.
  rewrite append_assoc. repeat rewrite ?append_cons, ?append_nil.
  rewrite Split_first by apply EncodeToString_no_dot.
  rewrite Split_first by apply EncodeToString_no_dot.
  rewrite Split_segment by apply EncodeToString_no_dot.
  reflexivity.
Qed.


End Verification.


(** The three outcomes all occur: the issuing service accepts its own
    token before the expiry and reports it expired afterwards, and a
    service with another secret calls it invalid in both cases. *)
Lemma ValidateToken_scenarios :
  let token := fst (auth.GenerateToken (H := scenario.primitives)
                      scenario.service1 scenario.noon 123 "admin") in
  let before := scenario.noon + time.Second in
  let after := scenario.noon + 2 * time.Hour in
  auth.ValidateToken (H := scenario.primitives) scenario.service1 before token
    = (Some (authMiddleware.mkClaims 123 "admin"), None) /\
  auth.ValidateToken (H := scenario.primitives) scenario.service1 after token
    = (None, Some auth.ErrExpiredToken) /\
  auth.ValidateToken (H := scenario.primitives) scenario.service2 before token
    = (None, Some auth.ErrInvalidToken) /\
  auth.ValidateToken (H := scenario.primitives) scenario.service2 after token
    = (None, Some auth.ErrInvalidToken).
Proof.
  vm_compute. repeat split; reflexivity.
Qed.


(* ===================================================================== *)
(** * Further properties of the gates *)
(* ===================================================================== *)

Lemma role_listed (role : string) (l : list string) :
  existsb (fun r => String.eqb role r) l = true <-> In role l.
Proof.
  rewrite existsb_exists. split.
  - intros (r & Hin & Heq). apply String.eqb_eq in Heq. now subst.
  - intros Hin. exists role. split; [exact Hin | apply String.eqb_refl].
Qed.

(** X1.  The role gate lets a request through exactly when the role
    installed in the context is one of the allowed roles; any other
    request is answered 403 "insufficient permissions" and the rest of the
    chain does not run. *)
Theorem RequireRole_membership (m : middleware.Middleware)
    (allowedRoles : list string) (Next : gin.Context -> gin.Outcome)
    (c : gin.Context) :
  (In (handler_context.GetUserRole c) allowedRoles ->
   middleware.RequireRole m allowedRoles Next c = Next c) /\
  (~ In (handler_context.GetUserRole c) allowedRoles ->
   middleware.RequireRole m allowedRoles Next c =
   gin.Done (gin.AbortWithStatusJSON c http.StatusForbidden
               {[ "message" := gin.AnyString "insufficient permissions" ]})).
Proof.
  unfold middleware.RequireRole.
  destruct (existsb _ allowedRoles) eqn:He.
  - apply role_listed in He. split; [reflexivity | contradiction].
  - split; [|reflexivity].
    intros Hin. apply role_listed in Hin. congruence.
Qed.

Lemma RequireRole_membership_witness :
  let viewer := handler_context.SetUserRole
                  (handler_context.SetUserId (scenario.request [] "1") 9) "viewer" in
  middleware.RequireRole scenario.gate ["admin"; "viewer"] gin.Done viewer
    = gin.Done viewer /\
  middleware.RequireRole scenario.gate ["admin"; "user"] gin.Done viewer
    = gin.Done (gin.AbortWithStatusJSON viewer http.StatusForbidden
                  {[ "message" := gin.AnyString "insufficient permissions" ]}).
Proof.
  cbv zeta. split.
  - apply (proj1 (RequireRole_membership scenario.gate ["admin"; "viewer"] gin.Done _)).
    vm_compute. right; left; reflexivity.
  - apply (proj2 (RequireRole_membership scenario.gate ["admin"; "user"] gin.Done _)).
    vm_compute. intros [H|[H|[]]]; discriminate H.
Defined.

(** X2.  A request that did not pass the authentication gate carries no
    role, and the role gates read that as the empty role: the
    administrator gate always refuses it, and a role gate refuses it
    unless the empty string is among the allowed roles. *)
Theorem RequireRole_without_identity (m : middleware.Middleware)
    (allowedRoles : list string) (Next : gin.Context -> gin.Outcome)
    (c : gin.Context) :
  gin.Keys c !! handler_context.ContextKeyUserRole = None ->
  let refused :=
    gin.Done (gin.AbortWithStatusJSON c http.StatusForbidden
                {[ "message" := gin.AnyString "insufficient permissions" ]}) in
  middleware.RequireAdmin m Next c = refused /\
  (~ In "" allowedRoles -> middleware.RequireRole m allowedRoles Next c = refused) /\
  (In "" allowedRoles -> middleware.RequireRole m allowedRoles Next c = Next c).
Proof.
  intros Hkey refused.
  assert (Hrole : handler_context.GetUserRole c = "").
  { unfold handler_context.GetUserRole, gin.GetString. now rewrite Hkey. }
  unfold middleware.RequireAdmin, middleware.RequireRole. rewrite Hrole.
  split; [reflexivity|]. split; intros Hin.
  - destruct (existsb _ allowedRoles) eqn:He; [|reflexivity].
    apply role_listed in He. contradiction.
  - apply role_listed in Hin. now rewrite Hin.
Qed.

Lemma RequireRole_without_identity_witness :
  let c := scenario.request ["Bearer admin-token"] "1" in
  let refused :=
    gin.Done (gin.AbortWithStatusJSON c http.StatusForbidden
                {[ "message" := gin.AnyString "insufficient permissions" ]}) in
  middleware.RequireAdmin scenario.gate gin.Done c = refused /\
  middleware.RequireRole scenario.gate ["admin"; "user"; "viewer"] gin.Done c = refused /\
  middleware.RequireRole scenario.gate ["user"; ""] gin.Done c = gin.Done c.
Proof.
  cbv zeta.
  pose proof (RequireRole_without_identity scenario.gate ["admin"; "user"; "viewer"]
                gin.Done (scenario.request ["Bearer admin-token"] "1") eq_refl) as H1.
  pose proof (RequireRole_without_identity scenario.gate ["user"; ""]
                gin.Done (scenario.request ["Bearer admin-token"] "1") eq_refl) as H2.
  cbv zeta in H1, H2.
  destruct H1 as (Ha & Hb & _). destruct H2 as (_ & _ & Hc).
  split; [exact Ha|]. split.
  - apply Hb. intros [H|[H|[H|[]]]]; discriminate H.
  - apply Hc. right; left; reflexivity.
Defined.

(** The authentication gate on a bearer token the validator accepts. *)
Lemma RequireAuth_accepted (m : middleware.Middleware)
    (Next : gin.Context -> gin.Outcome) (c : gin.Context)
    (tok : string) (claims : authMiddleware.Claims) :
  tok <> "" ->
  gin.GetHeader c "Authorization" = "Bearer " +:+ tok ->
  middleware.jwtValidator m tok = (Some claims, None) ->
  middleware.RequireAuth m Next c =
  Next (handler_context.SetUserRole
          (handler_context.SetUserId (gin.Header c "Vary" "Authorization")
             (authMiddleware.UserId claims))
          (authMiddleware.Role claims)).
Proof.
  intros Hne Hh Hv.
  unfold middleware.RequireAuth, middleware.authorizationHeader.
  change (gin.GetHeader (gin.Header c "Vary" "Authorization") "Authorization")
    with (gin.GetHeader c "Authorization").
  rewrite Hh.
  destruct (bearer_token tok) as [Hp Ht].
  change middleware.bearerPrefix with "Bearer " in Hp, Ht.
  change middleware.bearerPrefix with "Bearer ".
  rewrite Hp, Ht.
  destruct (String.eqb_spec ("Bearer " +:+ tok) ""); [discriminate|].
  destruct (String.eqb_spec tok ""); [contradiction|].
  rewrite Hv. reflexivity.
Qed.

(** X3.  The chain of an administrator route: the authentication gate
    followed by the administrator gate.  For a bearer token the validator
    accepts, the rest of the chain runs exactly when the role in the
    token's claims is [admin], on a context carrying the claims' user id
    and role; otherwise the answer is 403. *)
Theorem RequireAuth_then_RequireAdmin (m : middleware.Middleware)
    (Next : gin.Context -> gin.Outcome) (c : gin.Context)
    (tok : string) (claims : authMiddleware.Claims) :
  tok <> "" ->
  gin.GetHeader c "Authorization" = "Bearer " +:+ tok ->
  middleware.jwtValidator m tok = (Some claims, None) ->
  let c' := handler_context.SetUserRole
              (handler_context.SetUserId (gin.Header c "Vary" "Authorization")
                 (authMiddleware.UserId claims))
              (authMiddleware.Role claims) in
  handler_context.GetUserId c' = authMiddleware.UserId claims /\
  handler_context.GetUserRole c' = authMiddleware.Role claims /\
  (authMiddleware.Role claims = entity.RoleAdmin ->
   middleware.RequireAuth m (middleware.RequireAdmin m Next) c = Next c') /\
  (authMiddleware.Role claims <> entity.RoleAdmin ->
   middleware.RequireAuth m (middleware.RequireAdmin m Next) c =
   gin.Done (gin.AbortWithStatusJSON c' http.StatusForbidden
               {[ "message" := gin.AnyString "insufficient permissions" ]})).
Proof.
  intros Hne Hh Hv c'.
  destruct (installed_identity (gin.Header c "Vary" "Authorization")
              (authMiddleware.UserId claims) (authMiddleware.Role claims))
    as (Hid & Hrole & _).
  fold c' in Hid, Hrole.
  split; [exact Hid|]. split; [exact Hrole|].
  rewrite (RequireAuth_accepted m _ c tok claims Hne Hh Hv). fold c'.
  unfold middleware.RequireAdmin, middleware.RequireRole. rewrite Hrole.
  cbn [existsb]. rewrite orb_false_r.
  split; intros Hr.
  - rewrite Hr. reflexivity.
  - rewrite (proj2 (String.eqb_neq _ _) Hr). reflexivity.
Qed.

Lemma RequireAuth_then_RequireAdmin_witness :
  let chain := middleware.RequireAuth scenario.gate
                 (middleware.RequireAdmin scenario.gate gin.Done) in
  let installed (c : gin.Context) (id : Z) (role : string) :=
    handler_context.SetUserRole
      (handler_context.SetUserId (gin.Header c "Vary" "Authorization") id) role in
  chain (scenario.request ["Bearer admin-token"] "7")
    = gin.Done (installed (scenario.request ["Bearer admin-token"] "7") 1 "admin") /\
  chain (scenario.request ["Bearer user-token"] "7")
    = gin.Done (gin.AbortWithStatusJSON
                  (installed (scenario.request ["Bearer user-token"] "7") 7 "user")
                  http.StatusForbidden
                  {[ "message" := gin.AnyString "insufficient permissions" ]}).
Proof.
  cbv zeta. split.
  - pose proof (RequireAuth_then_RequireAdmin scenario.gate gin.Done
                  (scenario.request ["Bearer admin-token"] "7")
                  "admin-token" (authMiddleware.mkClaims 1 "admin")
                  ltac:(discriminate) eq_refl eq_refl) as H.
    cbv zeta in H. destruct H as (_ & _ & H & _). apply H. reflexivity.
  - pose proof (RequireAuth_then_RequireAdmin scenario.gate gin.Done
                  (scenario.request ["Bearer user-token"] "7")
                  "user-token" (authMiddleware.mkClaims 7 "user")
                  ltac:(discriminate) eq_refl eq_refl) as H.
    cbv zeta in H. destruct H as (_ & _ & _ & H). apply H. discriminate.
Defined.

(** X4.  A bearer token the validator answers with an error is refused
    with 401 "invalid token", the text of the validator's error as data;
    the rest of the chain does not run and no identity is installed. *)
Theorem RequireAuth_rejected_token (m : middleware.Middleware)
    (Next : gin.Context -> gin.Outcome) (c : gin.Context)
    (tok : string) (claims : option authMiddleware.Claims) (err : error) :
  tok <> "" ->
  gin.GetHeader c "Authorization" = "Bearer " +:+ tok ->
  middleware.jwtValidator m tok = (claims, Some err) ->
  exists c' : gin.Context,
    middleware.RequireAuth m Next c = gin.Done c' /\
    c' = gin.AbortWithStatusJSON (gin.Header c "Vary" "Authorization")
           http.StatusUnauthorized
           (<[ "message" := gin.AnyString "invalid token" ]>
              {[ "data" := gin.AnyString (domain.Error err) ]}) /\
    gin.Aborted c' = true /\
    gin.Keys c' = gin.Keys c /\
    (gin.WriterBody c = [] -> gin.WriterStatus c' = http.StatusUnauthorized).
Proof.
  intros Hne Hh Hv. eexists. split; [|split; [reflexivity|]].
  - unfold middleware.RequireAuth, middleware.authorizationHeader.
    change (gin.GetHeader (gin.Header c "Vary" "Authorization") "Authorization")
      with (gin.GetHeader c "Authorization").
    rewrite Hh.
    destruct (bearer_token tok) as [Hp Ht].
    change middleware.bearerPrefix with "Bearer " in Hp, Ht.
    change middleware.bearerPrefix with "Bearer ".
    rewrite Hp, Ht.
    destruct (String.eqb_spec ("Bearer " +:+ tok) ""); [discriminate|].
    destruct (String.eqb_spec tok ""); [contradiction|].
    rewrite Hv. destruct claims; reflexivity.
  - split; [reflexivity|]. split; [reflexivity|].
    intros Hb.
    unfold gin.AbortWithStatusJSON, gin.JSON, gin.Status, gin.Abort, gin.Header.
    simpl. rewrite Hb. reflexivity.
Qed.

Lemma RequireAuth_rejected_token_witness :
  exists c' : gin.Context,
    middleware.RequireAuth scenario.gate gin.Done
      (scenario.request ["Bearer forged-token"] "1") = gin.Done c' /\
    gin.WriterBody c' =
      [ <[ "message" := gin.AnyString "invalid token" ]>
          {[ "data" := gin.AnyString "invalid token" ]} ] /\
    gin.Aborted c' = true /\
    gin.Keys c' = ∅ /\
    gin.WriterStatus c' = http.StatusUnauthorized.
Proof.
  destruct (RequireAuth_rejected_token scenario.gate gin.Done
              (scenario.request ["Bearer forged-token"] "1")
              "forged-token" None auth.ErrInvalidToken
              ltac:(discriminate) eq_refl eq_refl)
    as (c' & Hrun & Hc' & Hab & Hkeys & Hst).
  exists c'. split; [exact Hrun|]. split; [rewrite Hc'; reflexivity|].
  split; [exact Hab|]. split; [exact Hkeys|]. apply Hst. reflexivity.
Defined.

(** X5.  The chain of a self-or-admin route: for a bearer token the
    validator accepts whose role is not [admin], a request for the path
    that spells the token's own user id in decimal is answered 403,
    whatever the id. *)
Theorem RequireAuth_then_RequireAdminOrSelf_own_id (m : middleware.Middleware)
    (Next : gin.Context -> gin.Outcome) (c : gin.Context) (paramName : string)
    (tok : string) (claims : authMiddleware.Claims) :
  tok <> "" ->
  gin.GetHeader c "Authorization" = "Bearer " +:+ tok ->
  middleware.jwtValidator m tok = (Some claims, None) ->
  authMiddleware.Role claims <> entity.RoleAdmin ->
  gin.Param c paramName = Go.Itoa (authMiddleware.UserId claims) ->
  exists c' : gin.Context,
    middleware.RequireAuth m (middleware.RequireAdminOrSelf m paramName Next) c
      = gin.Done c' /\
    gin.Aborted c' = true /\
    (gin.WriterBody c = [] ->
     gin.WriterStatus c' = http.StatusForbidden /\
     gin.WriterBody c' = [ {[ "message" := gin.AnyString "insufficient permissions" ]} ]).
Proof.
  intros Hne Hh Hv Hrole Hparam.
  rewrite (RequireAuth_accepted m _ c tok claims Hne Hh Hv).
  destruct (installed_identity (gin.Header c "Vary" "Authorization")
              (authMiddleware.UserId claims) (authMiddleware.Role claims))
    as (Hid & Hr & Hp).
  unfold middleware.RequireAdminOrSelf.
  rewrite Hr, Hid. unfold gin.Param. rewrite Hp.
  change (gin.ByName (gin.Params (gin.Header c "Vary" "Authorization")) paramName)
    with (gin.Param c paramName).
  rewrite Hparam.
  rewrite (proj2 (String.eqb_neq _ _) Hrole).
  rewrite (proj2 (String.eqb_neq (Go.Itoa _) (Go.string_of_rune _)))
    by apply Itoa_is_not_string_of_rune.
  rewrite andb_false_r.
  eexists. split; [reflexivity|]. split; [reflexivity|].
  intros Hb.
  unfold gin.AbortWithStatusJSON, gin.JSON, gin.Status, gin.Abort,
    handler_context.SetUserRole, handler_context.SetUserId, gin.Set_, gin.Header.
  simpl. rewrite Hb. split; reflexivity.
Qed.

Lemma RequireAuth_then_RequireAdminOrSelf_own_id_witness :
  exists c' : gin.Context,
    middleware.RequireAuth scenario.gate
      (middleware.RequireAdminOrSelf scenario.gate "id" gin.Done)
      (scenario.request ["Bearer user-token"] "7") = gin.Done c' /\
    gin.Aborted c' = true /\
    gin.WriterStatus c' = http.StatusForbidden /\
    gin.WriterBody c' = [ {[ "message" := gin.AnyString "insufficient permissions" ]} ].
Proof.
  destruct (RequireAuth_then_RequireAdminOrSelf_own_id scenario.gate gin.Done
              (scenario.request ["Bearer user-token"] "7") "id"
              "user-token" (authMiddleware.mkClaims 7 "user")
              ltac:(discriminate) eq_refl eq_refl ltac:(discriminate) eq_refl)
    as (c' & Hrun & Hab & Hrest).
  exists c'. split; [exact Hrun|]. split; [exact Hab|]. apply Hrest. reflexivity.
Defined.


(* ===================================================================== *)
(** * Further properties of the account service *)
(* ===================================================================== *)

(** A result of [int] arithmetic that is in range is not changed. *)
Lemma int_small (z : Z) : - 2 ^ 63 <= z < 2 ^ 63 -> Go.int z = z.
Proof.
  intros Hz. unfold Go.int.
  change (2 ^ 63) with 9223372036854775808 in *.
  change (2 ^ 64) with 18446744073709551616.
  rewrite Z.mod_small by lia. lia.
Qed.

Section Calls.
Import deps.

Context {S : Type}.
Variable impl : Impl S.

(** One step of a case analysis over a run: the answer of the next call,
    or the next test the program makes on what it has. *)
Ltac answer :=
  match goal with
  | |- context [impl ?X ?c ?s] => destruct (impl X c s) as [? ?]
  | |- context [match ?x with _ => _ end] => destruct x
  end.

(** A membership in a list of calls that is written out. *)
Ltac among H :=
  simpl in H;
  repeat (destruct H as [H | H]);
  try contradiction; try discriminate H.

(** X6.  Whenever creating a user reaches the insert, the existence check
    has answered that the email is free, the role is one of the three
    valid ones, the hasher has been asked for the hash of the supplied
    password and has answered without error, and the record inserted
    carries that hash as its password, the supplied fields, and is
    active. *)
Theorem CreateUser_inserts_hashed (s : S) (input : service.CreateUserInput)
    (user : entity.User) (resp : Z * option error) :
  let r := run impl (service.CreateUser input) s in
  In (VInsertUser user resp) (calls r) ->
  entity.IsValidRole (service.create_Role input) = true /\
  In (VExistsUserByEmail (service.create_Email input) (false, None)) (calls r) /\
  exists hashed : string,
    In (VHash (service.create_Password input) (hashed, None)) (calls r) /\
    user = entity.mkUser 0 (service.create_Email input) (service.create_Username input)
             hashed (service.create_Name input) (service.create_Role input) true 0 0.
Proof.
  cbv zeta. unfold calls, service.CreateUser.
  destruct (entity.IsValidRole (service.create_Role input)); simpl; [|intros []].
  destruct (impl _ (ExistsUserByEmail (service.create_Email input)) s)
    as [[ex [e|]] s1]; simpl; [intros H; among H|].
  destruct ex; simpl; [intros H; among H|].
  destruct (impl _ (Hash (service.create_Password input)) s1)
    as [[hashed [e|]] s2]; simpl; [intros H; among H|].
  destruct (impl _ (InsertUser _) s2) as [[id [e|]] s3]; simpl;
    [destruct (errors.Is e repository.ErrDuplicateEmail); simpl|];
    intros H; among H; injection H as <- <-;
    (split; [reflexivity|]); (split; [auto|]);
    exists hashed; auto.
Qed.

(** The end of a case analysis on the result of a run. *)
Ltac settle :=
  let H := fresh in
  intros H; inversion H; subst; clear H; simpl; auto 10.

(** The next test of [UpdateUser] on a supplied field, with what it
    establishes. *)
Ltac supplied :=
  match goal with
  | |- context [String.eqb ?a ?b] => destruct (String.eqb_spec a b)
  | |- context [Bool.eqb ?a ?b] => destruct (Bool.eqb_spec a b)
  | |- context [impl ?X ?c ?s] => destruct (impl X c s) as [? ?]
  | |- context [match ?x with _ => _ end] => destruct x eqn:?
  end.

(** X7.  The statuses each operation of the service can fail with.  An
    operation that returns an error returns no value beside it (id 0, a
    nil user or result), and the error is a domain error whose status is:
    for creating 400, 409 or 500; for reading by id or by email 404 or
    500; for listing 500; for updating 404, 409, 400 or 500; for changing
    the password 404, 401 or 500; for deleting 404 or 500; for logging in
    401 or 500, never 404. *)
Theorem service_error_statuses (s : S) :
  (forall input id e,
     result (run impl (service.CreateUser input) s) = Some (id, Some e) ->
     id = 0 /\
     In (domain.HTTPStatus e)
        [Some http.StatusBadRequest; Some http.StatusConflict;
         Some http.StatusInternalServerError]) /\
  (forall id user e,
     result (run impl (service.GetUserById id) s) = Some (user, Some e) ->
     user = None /\
     In (domain.HTTPStatus e)
        [Some http.StatusNotFound; Some http.StatusInternalServerError]) /\
  (forall email user e,
     result (run impl (service.GetUserByEmail email) s) = Some (user, Some e) ->
     user = None /\
     In (domain.HTTPStatus e)
        [Some http.StatusNotFound; Some http.StatusInternalServerError]) /\
  (forall input res e,
     result (run impl (service.GetUsers input) s) = Some (res, Some e) ->
     res = None /\ domain.HTTPStatus e = Some http.StatusInternalServerError) /\
  (forall input e,
     result (run impl (service.UpdateUser input) s) = Some (Some e) ->
     In (domain.HTTPStatus e)
        [Some http.StatusNotFound; Some http.StatusConflict;
         Some http.StatusBadRequest; Some http.StatusInternalServerError]) /\
  (forall input e,
     result (run impl (service.ChangePassword input) s) = Some (Some e) ->
     In (domain.HTTPStatus e)
        [Some http.StatusNotFound; Some http.StatusUnauthorized;
         Some http.StatusInternalServerError]) /\
  (forall id e,
     result (run impl (service.DeleteUser id) s) = Some (Some e) ->
     In (domain.HTTPStatus e)
        [Some http.StatusNotFound; Some http.StatusInternalServerError]) /\
  (forall input user e,
     result (run impl (service.Login input) s) = Some (user, Some e) ->
     user = None /\
     In (domain.HTTPStatus e)
        [Some http.StatusUnauthorized; Some http.StatusInternalServerError]).
Proof.
  repeat apply conj; intros until e.
  - unfold service.CreateUser. repeat (simpl; answer); simpl; settle.
  - unfold service.GetUserById. repeat (simpl; answer); simpl; settle.
  - unfold service.GetUserByEmail. repeat (simpl; answer); simpl; settle.
  - unfold service.GetUsers. repeat (simpl; answer); simpl; settle.
  - unfold service.UpdateUser. repeat (simpl; answer); simpl; settle.
  - unfold service.ChangePassword. repeat (simpl; answer); simpl; settle.
  - unfold service.DeleteUser. repeat (simpl; answer); simpl; settle.
  - unfold service.Login. repeat (simpl; answer); simpl; settle.
Qed.

(** X8.  Changing a password writes only after verification: whenever
    the password update is called, it is for the user id of the input and
    with the hash the hasher returned, without error, for the new
    password, after the user was read by that id and the hasher accepted
    the current password against the stored hash.  When the hasher refuses
    the current password, the result is the invalid-credentials error and
    nothing is hashed or written: the read and the comparison are the only
    calls. *)
Theorem ChangePassword_update_is_verified (s : S)
    (input : service.ChangePasswordInput) :
  let r := run impl (service.ChangePassword input) s in
  (forall id hashed resp,
     In (VUpdateUserPassword id hashed resp) (calls r) ->
     id = service.UserId input /\
     In (VHash (service.NewPassword input) (hashed, None)) (calls r) /\
     exists user : entity.User,
       In (VGetUserById (service.UserId input) (Some user, None)) (calls r) /\
       In (VCompare (entity.Password user) (service.CurrentPassword input) None)
          (calls r)) /\
  (forall hashed password err,
     In (VCompare hashed password (Some err)) (calls r) ->
     result r = Some (Some InvalidCredentialsError) /\
     (forall v, In v (calls r) ->
        (exists resp, v = VGetUserById (service.UserId input) resp) \/
        v = VCompare hashed password (Some err))).
Proof.
  cbv zeta. unfold calls, service.ChangePassword. simpl.
  destruct (impl _ (GetUserById (service.UserId input)) s) as [[user [e|]] s1]; simpl.
  { destruct (errors.Is e repository.ErrUserNotFound); simpl;
      split; intros; among H. }
  destruct user as [user|]; simpl; [|split; intros; among H].
  destruct (impl _ (Compare (entity.Password user) (service.CurrentPassword input)) s1)
    as [[e|] s2]; simpl.
  { split; intros; among H. injection H as <- <- <-.
    split; [reflexivity|]. intros v Hv. among Hv; subst v; eauto. }
  destruct (impl _ (Hash (service.NewPassword input)) s2)
    as [[hashed [e|]] s3]; simpl; [split; intros; among H|].
  destruct (impl _ (UpdateUserPassword (service.UserId input) hashed) s3)
    as [[e|] s4]; simpl;
    (split; intros; among H; injection H as <- <- <-;
     split; [reflexivity|]; split; [auto|]; exists user; auto).
Qed.

(** X9.  Login is sound and reads only.  A login that returns a user
    returns no error with it; the user is the one the repository answered
    for the email of the input, is active, and the hasher accepted the
    supplied password against that user's stored hash.  Whatever the
    outcome, the only calls are the lookup by the supplied email and
    comparisons with the supplied password. *)
Theorem Login_sound (s : S) (input : service.LoginInput) :
  let r := run impl (service.Login input) s in
  (forall user : entity.User,
     result r = Some (Some user, None) ->
     entity.IsActive user = true /\
     calls r =
       [VGetUserByEmail (service.login_Email input) (Some user, None);
        VCompare (entity.Password user) (service.login_Password input) None]) /\
  (forall v, In v (calls r) ->
     (exists resp, v = VGetUserByEmail (service.login_Email input) resp) \/
     (exists hashed resp, v = VCompare hashed (service.login_Password input) resp)) /\
  (forall user e, result r = Some (Some user, e) -> e = None).
Proof.
  cbv zeta. unfold calls, service.Login. simpl.
  destruct (impl _ (GetUserByEmail (service.login_Email input)) s)
    as [[user [e|]] s1]; simpl.
  { destruct (errors.Is e repository.ErrUserNotFound); simpl;
      (split; [intros ? H; discriminate H|]);
      (split; [|intros ? ? H; discriminate H]);
      intros v Hv; among Hv; subst v; eauto. }
  destruct user as [user|]; simpl.
  2:{ split; [intros ? H; discriminate H|].
      split; [|intros ? ? H; discriminate H].
      intros v Hv; among Hv; subst v; eauto. }
  destruct (entity.IsActive user) eqn:Hact; simpl.
  2:{ split; [intros ? H; discriminate H|].
      split; [|intros ? ? H; discriminate H].
      intros v Hv; among Hv; subst v; eauto. }
  destruct (impl _ (Compare (entity.Password user) (service.login_Password input)) s1)
    as [[e|] s2]; simpl.
  - split; [intros ? H; discriminate H|].
    split; [|intros ? ? H; discriminate H].
    intros v Hv; among Hv; subst v; eauto.
  - split; [intros u H; injection H as <-; auto|].
    split; [|intros ? ? H; injection H as <- <-; reflexivity].
    intros v Hv; among Hv; subst v; eauto.
Qed.

(** X10.  The not-found signal of the repository interface.  When the
    repository answers with an error that is, or wraps,
    [repository.ErrUserNotFound]: reading by id, updating and changing the
    password give the not-found error carrying the id; reading by email
    gives the not-found error carrying the email; deleting gives the
    not-found error carrying the id; and logging in gives the
    invalid-credentials error instead. *)
Theorem not_found_translation (s s1 : S) (err : error) :
  errors.Is err repository.ErrUserNotFound = true ->
  (forall (id : Z) (user : option entity.User),
     impl _ (GetUserById id) s = ((user, Some err), s1) ->
     result (run impl (service.GetUserById id) s)
       = Some (None, Some (UserNotFoundError id "")) /\
     (forall input, service.update_Id input = id ->
        result (run impl (service.UpdateUser input) s)
          = Some (Some (UserNotFoundError id ""))) /\
     (forall input, service.UserId input = id ->
        result (run impl (service.ChangePassword input) s)
          = Some (Some (UserNotFoundError id "")))) /\
  (forall (email : string) (user : option entity.User),
     impl _ (GetUserByEmail email) s = ((user, Some err), s1) ->
     result (run impl (service.GetUserByEmail email) s)
       = Some (None, Some (UserNotFoundError 0 email)) /\
     (forall input, service.login_Email input = email ->
        result (run impl (service.Login input) s)
          = Some (None, Some InvalidCredentialsError))) /\
  (forall id : Z,
     impl _ (DeleteUserById id) s = (Some err, s1) ->
     result (run impl (service.DeleteUser id) s)
       = Some (Some (UserNotFoundError id ""))).
Proof.
  intros His. split; [|split].
  - intros id user Hget. split; [|split].
    + unfold service.GetUserById. simpl. rewrite Hget. simpl. now rewrite His.
    + intros input <-. unfold service.UpdateUser. simpl. rewrite Hget. simpl.
      now rewrite His.
    + intros input <-. unfold service.ChangePassword. simpl. rewrite Hget. simpl.
      now rewrite His.
  - intros email user Hget. split.
    + unfold service.GetUserByEmail. simpl. rewrite Hget. simpl. now rewrite His.
    + intros input <-. unfold service.Login. simpl. rewrite Hget. simpl.
      now rewrite His.
  - intros id Hdel. unfold service.DeleteUser. simpl. rewrite Hdel. simpl.
    now rewrite His.
Qed.

(** X11.  What an update writes.  Whenever updating a user reaches the
    repository's update, the record passed is the stored record with each
    supplied field put in place of the stored one; the id, the password
    hash and the two times are the stored ones; the record differs from the
    stored one; and the result of the operation is decided by the answer
    of that call: nil for nil, the already-exists error for an error that
    is [repository.ErrDuplicateEmail], the internal error wrapping it
    otherwise. *)
Theorem UpdateUser_persists_merge (s : S) (input : service.UpdateUserInput)
    (user' : entity.User) (resp : option error) :
  let r := run impl (service.UpdateUser input) s in
  In (VUpdateUser user' resp) (calls r) ->
  exists stored : entity.User,
    In (VGetUserById (service.update_Id input) (Some stored, None)) (calls r) /\
    user' =
      entity.mkUser (entity.Id stored)
        (default (entity.Email stored) (service.update_Email input))
        (default (entity.Username stored) (service.update_Username input))
        (entity.Password stored)
        (default (entity.Name stored) (service.update_Name input))
        (default (entity.Role stored) (service.update_Role input))
        (default (entity.IsActive stored) (service.update_IsActive input))
        (entity.CreatedAt stored) (entity.UpdatedAt stored) /\
    user' <> stored /\
    result r =
      Some match resp with
           | None => None
           | Some err =>
               if errors.Is err repository.ErrDuplicateEmail
               then Some (UserAlreadyExistsError (entity.Email user'))
               else Some (InternalServerError "failed to update user" (Some err))
           end.
Proof.
  cbv zeta. unfold calls, service.UpdateUser. simpl.
  destruct (impl _ (GetUserById (service.update_Id input)) s)
    as [[stored [e|]] s1]; simpl.
  { destruct (errors.Is e repository.ErrUserNotFound); simpl; intros H; among H. }
  destruct stored as [stored|]; simpl; [|intros H; among H].
  destruct stored as [id email username password name role isActive created updated].
  unfold service.differs, service.setEmail, service.setUsername, service.setName,
    service.setRole, service.setIsActive.
  cbn [entity.Id entity.Email entity.Username entity.Password entity.Name
       entity.Role entity.IsActive entity.CreatedAt entity.UpdatedAt].
  destruct (service.update_Email input) as [e1|];
  destruct (service.update_Username input) as [e2|];
  destruct (service.update_Name input) as [e3|];
  destruct (service.update_Role input) as [e4|];
  destruct (service.update_IsActive input) as [e5|];
  repeat (cbn -[entity.IsValidRole errors.Is]; supplied);
  cbn -[entity.IsValidRole errors.Is];
  intros H; among H;
  inversion H; subst; clear H;
  (eexists; split; [left; reflexivity|]);
  (split; [reflexivity|]);
  (split; [intros Heq; injection Heq; congruence|]);
  solve [reflexivity | congruence].
Qed.

(** X12.  Changing the email to an address the existence check reports
    as taken is refused with the already-exists error for that address;
    the read and the check are the only calls, so nothing is assigned or
    written. *)
Theorem UpdateUser_email_conflict (s s1 s2 : S) (input : service.UpdateUserInput)
    (stored : entity.User) (email : string) :
  impl _ (GetUserById (service.update_Id input)) s = ((Some stored, None), s1) ->
  service.update_Email input = Some email ->
  email <> entity.Email stored ->
  impl _ (ExistsUserByEmail email) s1 = ((true, None), s2) ->
  run impl (service.UpdateUser input) s =
  mkRun (Some (Some (UserAlreadyExistsError email))) s2
        [Ev (GetUserById (service.update_Id input)) (Some stored, None);
         Ev (ExistsUserByEmail email) (true, None)].
Proof.
  intros Hget Hemail Hne Hex. unfold service.UpdateUser. simpl.
  rewrite Hget. simpl. rewrite Hemail. unfold service.differs.
  rewrite (proj2 (String.eqb_neq _ _) Hne). simpl. rewrite Hex. reflexivity.
Qed.

(** X13.  Paging of the user list, for the input the handler builds from
    a query.  The page and the size are at least 1, by default 1 and 20.
    When page times size fits in an [int], the first call asks the
    repository for [size] rows from offset [size * (page - 1)], which is
    not negative.  A result is returned only when both the list and the
    count were answered without error, and carries exactly what they
    answered. *)
Theorem GetUsers_paging (s : S) (q : handler.GetUsersQuery) :
  let page := handler.GetPage q in
  let size := handler.GetSize q in
  let onlyActive := handler.GetOnlyActive q in
  let r := run impl (service.GetUsers (service.mkGetUsersInput page size onlyActive)) s in
  1 <= page /\ 1 <= size /\
  (handler.query_Page q = None -> page = 1) /\
  (handler.query_Size q = None -> size = 20) /\
  (page * size < 2 ^ 63 ->
   0 <= size * (page - 1) /\
   exists resp rest,
     calls r = VGetUsers (size * (page - 1)) size onlyActive resp :: rest) /\
  (forall res,
     result r = Some (Some res, None) ->
     exists offset,
       calls r = [VGetUsers offset size onlyActive (service.Users res, None);
                  VGetUserCount onlyActive (service.TotalCount res, None)]).
Proof.
  cbv zeta.
  assert (Hp : 1 <= handler.GetPage q).
  { unfold handler.GetPage. destruct (handler.query_Page q) as [p|]; [|lia].
    destruct (Z.ltb_spec p 1); lia. }
  assert (Hs : 1 <= handler.GetSize q).
  { unfold handler.GetSize. destruct (handler.query_Size q) as [p|]; [|lia].
    destruct (Z.ltb_spec p 1); lia. }
  split; [exact Hp|]. split; [exact Hs|].
  split; [unfold handler.GetPage; now intros ->|].
  split; [unfold handler.GetSize; now intros ->|].
  unfold calls, service.GetUsers.
  cbn [service.Page service.Size service.OnlyActive].
  set (page := handler.GetPage q) in *. set (size := handler.GetSize q) in *.
  set (offset := Go.int (size * Go.int (page - 1))).
  simpl.
  destruct (impl _ (GetUsers offset size (handler.GetOnlyActive q)) s)
    as [[users [e|]] s1]; simpl.
  - split.
    + intros Hb. assert (Hoff : offset = size * (page - 1)).
      { unfold offset. rewrite (int_small (page - 1)) by nia.
        apply int_small. nia. }
      rewrite Hoff. split; [nia|]. eauto.
    + intros res H. discriminate H.
  - destruct (impl _ (GetUserCount (handler.GetOnlyActive q)) s1)
      as [[total [e|]] s2]; simpl.
    + split.
      * intros Hb. assert (Hoff : offset = size * (page - 1)).
        { unfold offset. rewrite (int_small (page - 1)) by nia.
          apply int_small. nia. }
        rewrite Hoff. split; [nia|]. eauto.
      * intros res H. discriminate H.
    + split.
      * intros Hb. assert (Hoff : offset = size * (page - 1)).
        { unfold offset. rewrite (int_small (page - 1)) by nia.
          apply int_small. nia. }
        rewrite Hoff. split; [nia|]. eauto.
      * intros res H. injection H as <-. simpl. eauto.
Qed.

End Calls.

Lemma CreateUser_inserts_hashed_witness :
  let input := service.mkCreateUserInput "carol@example.com" "carol"
                 "password123" "Carol" "user" in
  let r := deps.run scenario.wired (service.CreateUser input) scenario.quiet in
  entity.IsValidRole "user" = true /\
  In (deps.VExistsUserByEmail "carol@example.com" (false, None)) (deps.calls r) /\
  exists hashed : string,
    In (deps.VHash "password123" (hashed, None)) (deps.calls r) /\
    entity.mkUser 0 "carol@example.com" "carol" "hashed_password123" "Carol" "user"
                  true 0 0
    = entity.mkUser 0 "carol@example.com" "carol" hashed "Carol" "user" true 0 0.
Proof.
  cbv zeta.
  apply (CreateUser_inserts_hashed scenario.wired scenario.quiet
           (service.mkCreateUserInput "carol@example.com" "carol"
              "password123" "Carol" "user")
           (entity.mkUser 0 "carol@example.com" "carol" "hashed_password123" "Carol"
              "user" true 0 0)
           (3, None)).
  vm_compute. right; right; left. reflexivity.
Defined.

Lemma service_error_statuses_witness :
  ((None : option entity.User) = None /\
   In (domain.HTTPStatus InvalidCredentialsError)
      [Some http.StatusUnauthorized; Some http.StatusInternalServerError]) /\
  ((0 : Z) = 0 /\
   In (domain.HTTPStatus (UserAlreadyExistsError "alice@example.com"))
      [Some http.StatusBadRequest; Some http.StatusConflict;
       Some http.StatusInternalServerError]) /\
  In (domain.HTTPStatus
        (InternalServerError "failed to delete user" (Some scenario.unreachable)))
     [Some http.StatusNotFound; Some http.StatusInternalServerError].
Proof.
  pose proof (service_error_statuses scenario.wired scenario.quiet)
    as (Hcreate & _ & _ & _ & _ & _ & _ & Hlogin).
  pose proof (service_error_statuses scenario.wired scenario.down)
    as (_ & _ & _ & _ & _ & _ & Hdelete & _).
  split; [|split].
  - apply (Hlogin (service.mkLoginInput "bob@example.com" "password456")).
    vm_compute. reflexivity.
  - apply (Hcreate (service.mkCreateUserInput "alice@example.com" "alice2"
                      "password123" "Alice" "user")).
    vm_compute. reflexivity.
  - apply (Hdelete 1). vm_compute. reflexivity.
Defined.

Lemma ChangePassword_update_is_verified_witness :
  let input := service.mkChangePasswordInput 1 "password123" "password456" in
  let wrong := service.mkChangePasswordInput 1 "guess" "password456" in
  let r := deps.run scenario.wired (service.ChangePassword input) scenario.quiet in
  let r' := deps.run scenario.wired (service.ChangePassword wrong) scenario.quiet in
  ((1 : Z) = 1 /\
   In (deps.VHash "password456" ("hashed_password456", None)) (deps.calls r) /\
   exists user : entity.User,
     In (deps.VGetUserById 1 (Some user, None)) (deps.calls r) /\
     In (deps.VCompare (entity.Password user) "password123" None) (deps.calls r)) /\
  deps.result r' = Some (Some InvalidCredentialsError).
Proof.
  cbv zeta. split.
  - apply (proj1 (ChangePassword_update_is_verified scenario.wired scenario.quiet
                    (service.mkChangePasswordInput 1 "password123" "password456"))
             1 "hashed_password456" None).
    vm_compute. do 3 right. left. reflexivity.
  - apply (proj2 (ChangePassword_update_is_verified scenario.wired scenario.quiet
                    (service.mkChangePasswordInput 1 "guess" "password456"))
             "hashed_password123" "guess" bcrypt.ErrMismatchedHashAndPassword).
    vm_compute. right. left. reflexivity.
Defined.

Lemma Login_sound_witness :
  let r := deps.run scenario.wired
             (service.Login (service.mkLoginInput "alice@example.com" "password123"))
             scenario.quiet in
  entity.IsActive scenario.alice = true /\
  deps.calls r =
    [deps.VGetUserByEmail "alice@example.com" (Some scenario.alice, None);
     deps.VCompare "hashed_password123" "password123" None].
Proof.
  cbv zeta.
  apply (proj1 (Login_sound scenario.wired scenario.quiet
                  (service.mkLoginInput "alice@example.com" "password123"))
           scenario.alice).
  vm_compute. reflexivity.
Defined.

Lemma not_found_translation_witness :
  deps.result (deps.run scenario.missing (service.GetUserById 5) tt)
    = Some (None, Some (UserNotFoundError 5 "")) /\
  deps.result (deps.run scenario.missing
                 (service.ChangePassword (service.mkChangePasswordInput 5 "a" "b")) tt)
    = Some (Some (UserNotFoundError 5 "")) /\
  deps.result (deps.run scenario.missing
                 (service.Login (service.mkLoginInput "dave@example.com" "pw")) tt)
    = Some (None, Some InvalidCredentialsError) /\
  deps.result (deps.run scenario.missing (service.DeleteUser 5) tt)
    = Some (Some (UserNotFoundError 5 "")).
Proof.
  pose proof (not_found_translation scenario.missing tt tt scenario.notFound eq_refl)
    as (Hid & Hemail & Hdel).
  destruct (Hid 5 None eq_refl) as (Hget & _ & Hchange).
  destruct (Hemail "dave@example.com" None eq_refl) as (_ & Hlogin).
  split; [exact Hget|]. split; [|split].
  - apply (Hchange (service.mkChangePasswordInput 5 "a" "b")). reflexivity.
  - apply (Hlogin (service.mkLoginInput "dave@example.com" "pw")). reflexivity.
  - apply Hdel. reflexivity.
Defined.

Lemma UpdateUser_persists_merge_witness :
  let input := service.mkUpdateUserInput 1 None None (Some "Alice B.") (Some "admin") None in
  let r := deps.run scenario.wired (service.UpdateUser input) scenario.quiet in
  exists stored : entity.User,
    In (deps.VGetUserById 1 (Some stored, None)) (deps.calls r) /\
    entity.mkUser 1 "alice@example.com" "alice" "hashed_password123" "Alice B."
                  "admin" true 100 100
    = entity.mkUser (entity.Id stored) (entity.Email stored) (entity.Username stored)
        (entity.Password stored) "Alice B." "admin" (entity.IsActive stored)
        (entity.CreatedAt stored) (entity.UpdatedAt stored) /\
    entity.mkUser 1 "alice@example.com" "alice" "hashed_password123" "Alice B."
                  "admin" true 100 100 <> stored /\
    deps.result r = Some None.
Proof.
  cbv zeta.
  apply (UpdateUser_persists_merge scenario.wired scenario.quiet
           (service.mkUpdateUserInput 1 None None (Some "Alice B.") (Some "admin") None)
           (entity.mkUser 1 "alice@example.com" "alice" "hashed_password123" "Alice B."
                          "admin" true 100 100)
           None).
  vm_compute. do 3 right. left. reflexivity.
Defined.

Lemma UpdateUser_email_conflict_witness :
  let input := service.mkUpdateUserInput 1 (Some "bob@example.com") None None None None in
  deps.run scenario.wired (service.UpdateUser input) scenario.quiet =
  deps.mkRun (Some (Some (UserAlreadyExistsError "bob@example.com"))) scenario.quiet
    [deps.Ev (deps.GetUserById 1) (Some scenario.alice, None);
     deps.Ev (deps.ExistsUserByEmail "bob@example.com") (true, None)].
Proof.
  cbv zeta.
  apply (UpdateUser_email_conflict scenario.wired scenario.quiet scenario.quiet
           scenario.quiet
           (service.mkUpdateUserInput 1 (Some "bob@example.com") None None None None)
           scenario.alice "bob@example.com");
    [reflexivity | reflexivity | discriminate | reflexivity].
Defined.

Lemma GetUsers_paging_witness :
  let q := handler.mkGetUsersQuery (Some 3) (Some 10) None in
  let r := deps.run scenario.wired
             (service.GetUsers (service.mkGetUsersInput 3 10 false)) scenario.quiet in
  0 <= 10 * (3 - 1) /\
  exists resp rest, deps.calls r = deps.VGetUsers (10 * (3 - 1)) 10 false resp :: rest.
Proof.
  cbv zeta.
  pose proof (GetUsers_paging scenario.wired scenario.quiet
                (handler.mkGetUsersQuery (Some 3) (Some 10) None)) as H.
  cbv zeta in H. destruct H as (_ & _ & _ & _ & H & _).
  apply H. vm_compute. reflexivity.
Defined.


(* ===================================================================== *)
(** * Further properties of the route table *)
(* ===================================================================== *)

(** X14.  No protected route runs its handler without a token.  In the
    table [SetupRoutes] registers on a group with no handlers of its own,
    every route other than [POST /auth/login] starts with the
    authentication gate: a request the gate refuses gets the gate's answer
    from the route, whatever the handlers behind it. *)
Theorem routes_require_token (m : middleware.Middleware) (r : routes.RouterGroup)
    (h : routes.Handlers_) (route : routes.Route) (c c' : gin.Context) :
  In route (routes.SetupRoutes r h (routes.ofMiddleware m) []) ->
  routes.Handlers r = [] ->
  (forall Next, middleware.RequireAuth m Next c = gin.Done c') ->
  (routes.method route = "POST" /\
   routes.path route = (routes.basePath r ++ ["/auth"; "/login"])%list /\
   routes.serve route c = routes.Login (routes.User h) gin.Done c) \/
  routes.serve route c = gin.Done c'.
Proof.
  intros Hin Hnil Hrefused.
  unfold routes.SetupRoutes, routes.SetupAuthRoutes, routes.SetupUserRoutes,
    routes.GET, routes.POST, routes.PATCH, routes.DELETE, routes.handle,
    routes.Use, routes.Group in Hin.
  cbn [routes.Handlers routes.basePath app] in Hin. rewrite Hnil in Hin.
  cbn [app] in Hin.
  repeat (destruct Hin as [<- | Hin]); try contradiction;
    unfold routes.serve; cbn [routes.handlers fold_right routes.ofMiddleware
      routes.RequireAuth routes.method routes.path].
  - left. rewrite <- app_assoc. auto.
  - right. apply Hrefused.
  - right. apply Hrefused.
  - right. apply Hrefused.
  - right. apply Hrefused.
  - right. apply Hrefused.
  - right. apply Hrefused.
  - right. apply Hrefused.
Qed.

(** X15.  Who reaches which handler.  For a request with a bearer token
    the validator accepts, every route of the table is one of these: the
    login route, which does not look at the token; [GET /me],
    [GET /users/:id] and [POST /users/:id/change-password], whose handler
    runs with the identity of the claims whatever the role and whatever
    the path id; and the list, create, update and delete routes, whose
    handler runs exactly when the role of the claims is [admin], and which
    are answered 403 otherwise. *)
Theorem routes_by_role (m : middleware.Middleware) (r : routes.RouterGroup)
    (h : routes.Handlers_) (route : routes.Route) (c : gin.Context)
    (tok : string) (claims : authMiddleware.Claims) :
  In route (routes.SetupRoutes r h (routes.ofMiddleware m) []) ->
  routes.Handlers r = [] ->
  tok <> "" ->
  gin.GetHeader c "Authorization" = "Bearer " +:+ tok ->
  middleware.jwtValidator m tok = (Some claims, None) ->
  let c' := handler_context.SetUserRole
              (handler_context.SetUserId (gin.Header c "Vary" "Authorization")
                 (authMiddleware.UserId claims))
              (authMiddleware.Role claims) in
  let users := (routes.basePath r ++ [""; "/users"])%list in
  let reached (route' : string * list string) (endpoint : gin.HandlerFunc) :=
    (routes.method route, routes.path route) = route' /\
    routes.serve route c = endpoint gin.Done c' in
  let adminOnly (route' : string * list string) (endpoint : gin.HandlerFunc) :=
    (routes.method route, routes.path route) = route' /\
    routes.serve route c =
      if String.eqb (authMiddleware.Role claims) entity.RoleAdmin
      then endpoint gin.Done c'
      else gin.Done (gin.AbortWithStatusJSON c' http.StatusForbidden
                       {[ "message" := gin.AnyString "insufficient permissions" ]}) in
  (routes.method route = "POST" /\
   routes.path route = (routes.basePath r ++ ["/auth"; "/login"])%list /\
   routes.serve route c = routes.Login (routes.User h) gin.Done c) \/
  reached ("GET", (routes.basePath r ++ [""; "/me"])%list) (routes.GetMe (routes.User h)) \/
  adminOnly ("GET", (users ++ [""])%list) (routes.GetUsers (routes.User h)) \/
  adminOnly ("POST", (users ++ [""])%list) (routes.CreateUser (routes.User h)) \/
  reached ("GET", (users ++ ["/:id"])%list) (routes.GetUser (routes.User h)) \/
  adminOnly ("PATCH", (users ++ ["/:id"])%list) (routes.UpdateUser (routes.User h)) \/
  adminOnly ("DELETE", (users ++ ["/:id"])%list) (routes.DeleteUser (routes.User h)) \/
  reached ("POST", (users ++ ["/:id/change-password"])%list)
          (routes.ChangePassword (routes.User h)).
Proof.
  intros Hin Hnil Hne Hh Hv c' users reached adminOnly.
  assert (Hrole : handler_context.GetUserRole c' = authMiddleware.Role claims).
  { apply (installed_identity (gin.Header c "Vary" "Authorization")). }
  assert (Hadmin : forall endpoint : gin.HandlerFunc,
            middleware.RequireAuth m (middleware.RequireAdmin m (endpoint gin.Done)) c =
            if String.eqb (authMiddleware.Role claims) entity.RoleAdmin
            then endpoint gin.Done c'
            else gin.Done (gin.AbortWithStatusJSON c' http.StatusForbidden
                             {[ "message" := gin.AnyString "insufficient permissions" ]})).
  { intros endpoint.
    rewrite (RequireAuth_accepted m _ c tok claims Hne Hh Hv). fold c'.
    unfold middleware.RequireAdmin, middleware.RequireRole. rewrite Hrole.
    cbn [existsb]. rewrite orb_false_r. reflexivity. }
  assert (Hany : forall endpoint : gin.HandlerFunc,
            middleware.RequireAuth m (endpoint gin.Done) c = endpoint gin.Done c').
  { intros endpoint. apply (RequireAuth_accepted m _ c tok claims Hne Hh Hv). }
  unfold routes.SetupRoutes, routes.SetupAuthRoutes, routes.SetupUserRoutes,
    routes.GET, routes.POST, routes.PATCH, routes.DELETE, routes.handle,
    routes.Use, routes.Group in Hin.
  cbn [routes.Handlers routes.basePath app] in Hin. rewrite Hnil in Hin.
  cbn [app] in Hin.
  unfold reached, adminOnly, users, routes.serve.
  repeat (destruct Hin as [<- | Hin]); try contradiction;
    cbn [routes.handlers fold_right routes.ofMiddleware routes.RequireAuth
         routes.RequireAdmin routes.method routes.path];
    rewrite <- ?app_assoc; cbn [app].
  - left. auto.
  - right; left. auto.
  - do 2 right; left. auto.
  - do 3 right; left. auto.
  - do 4 right; left. auto.
  - do 5 right; left. auto.
  - do 6 right; left. auto.
  - do 7 right. auto.
Qed.

Section Endpoints.
Import deps.

Context {S : Type}.
Variable impl : Impl S.
Variable ShouldBindJSON : string -> handler.ChangePasswordRequest * option handler.BindingError.
Variable BindCreate : string -> handler.CreateUserRequest * option handler.BindingError.
Variable BindUpdate : string -> handler.UpdateUserRequest * option handler.BindingError.

(* ===================================================================== *)
(** * Further properties of the HTTP boundary *)
(* ===================================================================== *)

(** X16.  A path id that is not the decimal text of an [int] is refused
    by the four handlers that read one, with 400 and "invalid user id",
    before the body is bound and without any call to the repository or the
    hasher. *)
Theorem invalid_path_id (c : gin.Context) (s : S) :
  Go.Atoi (gin.Param c "id") = None ->
  let refused :=
    mkRun (Some (handler.HandleValidationError c "invalid user id")) s [] in
  run impl (handler.GetUser c) s = refused /\
  run impl (handler.UpdateUser BindUpdate c) s = refused /\
  run impl (handler.DeleteUser c) s = refused /\
  run impl (handler.ChangePassword ShouldBindJSON c) s = refused /\
  gin.Aborted (handler.HandleValidationError c "invalid user id") = true /\
  (gin.WriterBody c = [] ->
   gin.WriterStatus (handler.HandleValidationError c "invalid user id")
     = http.StatusBadRequest /\
   gin.WriterBody (handler.HandleValidationError c "invalid user id")
     = [ {[ "message" := gin.AnyString "invalid user id" ]} ]).
Proof.
  intros Hid. cbv zeta.
  unfold handler.GetUser, handler.UpdateUser, handler.DeleteUser,
    handler.ChangePassword. rewrite Hid.
  repeat (split; [reflexivity|]).
  intros Hb.
  unfold handler.HandleValidationError, handler.responseError,
    gin.AbortWithStatusJSON, gin.JSON, gin.Status, gin.Abort. simpl.
  rewrite Hb. split; reflexivity.
Qed.

(** X17.  [GET /me] reads the user of the token.  Behind the
    authentication gate, for a bearer token the validator accepts, the
    handler makes one call, the lookup of the user id of the claims, and
    when that answers a user the response is 200 with that user's public
    fields.  On a context in which no user id was installed the handler
    looks up the id 0. *)
Theorem GetMe_reads_installed_identity (m : middleware.Middleware)
    (c : gin.Context) (s : S) :
  (forall (tok : string) (claims : authMiddleware.Claims),
     tok <> "" ->
     gin.GetHeader c "Authorization" = "Bearer " +:+ tok ->
     middleware.jwtValidator m tok = (Some claims, None) ->
     exists c' : gin.Context,
       middleware.RequireAuth m gin.Done c = gin.Done c' /\
       let r := run impl (handler.GetMe c') s in
       calls r = [VGetUserById (authMiddleware.UserId claims)
                    (fst (impl _ (GetUserById (authMiddleware.UserId claims)) s))] /\
       (forall user s1,
          impl _ (GetUserById (authMiddleware.UserId claims)) s
            = ((Some user, None), s1) ->
          result r = Some (handler.HandleSuccess c' http.StatusOK
                             (handler.ToUserResponse user)))) /\
  (gin.Keys c !! handler_context.ContextKeyUserId = None ->
   calls (run impl (handler.GetMe c) s)
     = [VGetUserById 0 (fst (impl _ (GetUserById 0) s))]).
Proof.
  assert (Hcalls : forall (c0 : gin.Context),
            calls (run impl (handler.GetMe c0) s)
            = [VGetUserById (handler_context.GetUserId c0)
                 (fst (impl _ (GetUserById (handler_context.GetUserId c0)) s))]).
  { intros c0. unfold calls, handler.GetMe, service.GetUserById. simpl.
    destruct (impl _ (GetUserById (handler_context.GetUserId c0)) s)
      as [[user [e|]] s1]; simpl.
    - destruct (errors.Is e repository.ErrUserNotFound); reflexivity.
    - destruct user; reflexivity. }
  split.
  - intros tok claims Hne Hh Hv.
    rewrite (RequireAuth_accepted m _ c tok claims Hne Hh Hv).
    eexists. split; [reflexivity|]. cbv zeta.
    destruct (installed_identity (gin.Header c "Vary" "Authorization")
                (authMiddleware.UserId claims) (authMiddleware.Role claims))
      as (Hid & _ & _).
    split.
    + rewrite Hcalls, Hid. reflexivity.
    + intros user s1 Hget.
      unfold handler.GetMe, service.GetUserById. rewrite Hid. simpl.
      rewrite Hget. reflexivity.
  - intros Hkey. rewrite Hcalls.
    assert (H0 : handler_context.GetUserId c = 0).
    { unfold handler_context.GetUserId, gin.GetInt. now rewrite Hkey. }
    rewrite H0. reflexivity.
Qed.

(** X18.  Role names are checked before the service is called.  A create
    request with a role outside the three valid ones, and an update
    request that supplies such a role, are refused with 400 and the message
    naming the role, with no call to the repository or the hasher; and a
    create request that passed [Validate] never gets the invalid-role error
    from the service. *)
Theorem invalid_role_refused_at_boundary (c : gin.Context) (s : S) :
  let refused (role : string) :=
    mkRun (Some (handler.HandleValidationError c
                   ("invalid role: " +:+ role +:+
                    ", must be one of: admin, user, viewer"))) s [] in
  (forall req : handler.CreateUserRequest,
     BindCreate (gin.RequestBody c) = (req, None) ->
     entity.IsValidRole (handler.req_Role req) = false ->
     run impl (handler.CreateUser BindCreate c) s = refused (handler.req_Role req)) /\
  (forall (req : handler.UpdateUserRequest) (id : Z) (role : string),
     Go.Atoi (gin.Param c "id") = Some id ->
     BindUpdate (gin.RequestBody c) = (req, None) ->
     handler.upd_Role req = Some role ->
     entity.IsValidRole role = false ->
     run impl (handler.UpdateUser BindUpdate c) s = refused role) /\
  (forall (req : handler.CreateUserRequest) (id : Z) (e : error),
     handler.CreateUserRequest_Validate req = None ->
     result (run impl (service.CreateUser
                         (service.mkCreateUserInput
                            (handler.req_Email req) (handler.req_Username req)
                            (handler.req_Password req) (handler.req_Name req)
                            (handler.req_Role req))) s)
       = Some (id, Some e) ->
     forall role, e <> InvalidRoleError role).
Proof.
  cbv zeta. split; [|split].
  - intros req Hbind Hrole. unfold handler.CreateUser. rewrite Hbind.
    unfold handler.CreateUserRequest_Validate. rewrite Hrole. reflexivity.
  - intros req id role Hid Hbind Hsup Hrole. unfold handler.UpdateUser.
    rewrite Hid, Hbind. unfold handler.UpdateUserRequest_Validate.
    rewrite Hsup, Hrole. reflexivity.
  - intros req id e Hval Hres role ->.
    unfold handler.CreateUserRequest_Validate in Hval.
    destruct (entity.IsValidRole (handler.req_Role req)) eqn:Hrole;
      [|discriminate Hval].
    revert Hres. unfold service.CreateUser. cbn [service.create_Role].
    rewrite Hrole. simpl.
    repeat (match goal with
            | |- context [impl ?X ?c ?s] => destruct (impl X c s) as [? ?]
            | |- context [match ?x with _ => _ end] => destruct x
            end; simpl); intros H; discriminate H.
Qed.

End Endpoints.

(** X19.  The response to an error.  Whatever the error, handling it
    aborts the chain and writes its text as the message, with a status
    between 400 and 500; an error that is not a domain error gets 500; and
    the message of an internal error is its own text followed by the text
    of its cause. *)
Theorem HandleDomainError_response (c : gin.Context) (err : error) :
  gin.WriterBody c = [] ->
  let c' := handler.HandleDomainError c err in
  gin.Aborted c' = true /\
  http.StatusBadRequest <= gin.WriterStatus c' <= http.StatusInternalServerError /\
  gin.WriterBody c' = [ {[ "message" := gin.AnyString (domain.Error err) ]} ] /\
  (domain.IsDomainError err = false ->
   gin.WriterStatus c' = http.StatusInternalServerError) /\
  (forall text cause, err = InternalServerError text (Some cause) ->
   gin.WriterBody c' =
     [ {[ "message" := gin.AnyString (text +:+ ": " +:+ domain.Error cause) ]} ]).
Proof.
  intros Hb. cbv zeta.
  unfold handler.HandleDomainError, handler.responseError,
    gin.AbortWithStatusJSON, gin.JSON, gin.Status, gin.Abort.
  destruct err; simpl; rewrite Hb; simpl;
    (split; [reflexivity|]);
    (split; [unfold http.StatusBadRequest, http.StatusInternalServerError,
               http.StatusUnauthorized, http.StatusForbidden, http.StatusNotFound,
               http.StatusConflict; lia|]);
    (split; [reflexivity|]);
    (split; [try reflexivity; intros H; discriminate H|]);
    intros ? ? H; try discriminate H; injection H as -> ->; reflexivity.
Qed.

(* ===================================================================== *)
(** * Further properties of the token service *)
(* ===================================================================== *)

Lemma append_not_empty (a b : string) (x : ascii) : a +:+ String x b <> "".
Proof. destruct a; discriminate. Qed.

Section Tokens.
Context `{!jwt.Primitives auth.CustomClaims}.

(** The verdict of a service on a token it issued itself, for a codec that
    reads back the header and the claims it wrote. *)
Lemma ValidateToken_own (s : auth.JWTService) (issued now userId : Z) (role : string) :
  (exists h, jwt.json_Unmarshal_Header
               (jwt.json_Marshal_Header (jwt.mkHeader (Some "JWT") (Some "HS256")))
             = Some h /\ jwt.alg h = Some "HS256") ->
  jwt.json_Unmarshal_Claims (jwt.json_Marshal_Claims (auth.newClaims s issued userId role))
    = Some (auth.newClaims s issued userId role) ->
  snd (auth.GenerateToken s issued userId role) = None /\
  fst (auth.GenerateToken s issued userId role) <> "" /\
  auth.ValidateToken s now (fst (auth.GenerateToken s issued userId role)) =
    if now <? jwt.NewNumericDate (issued + auth.tokenDuration s)
    then (Some (authMiddleware.mkClaims userId role), None)
    else (None, Some auth.ErrExpiredToken).
Proof.
  intros (h & Hh & Halg) Hc.
  split; [reflexivity|].
  unfold auth.GenerateToken, jwt.SignedString.
  cbn [jwt.NewWithClaims jwt.Method jwt.Sign jwt.SigningMethodHS256 fst].
  split; [apply append_not_empty|].
  unfold jwt.SigningString, jwt.SigningMethodHS256.
  cbn [jwt.NewWithClaims jwt.TokenHeader jwt.TokenClaims jwt.Alg].
  unfold auth.ValidateToken, jwt.ParseWithClaims, jwt.ParseUnverified.
  rewrite Split_compact.
  rewrite !DecodeString_EncodeToString.
  rewrite Hh, Hc, Halg.
  change (jwt.GetSigningMethod "HS256") with (Some (jwt.SigningMethodHMAC jwt.SHA256)).
  cbn [nth]. rewrite DecodeString_EncodeToString.
  cbn [jwt.Method auth.keyFunc jwt.Verify jwt.Raw jwt.TokenHeader jwt.TokenClaims].
  rewrite String.eqb_refl.
  unfold jwt.Validate.
  cbn [auth.newClaims auth.Registered jwt.ExpiresAt jwt.NotBefore].
  destruct (now <? jwt.NewNumericDate (issued + auth.tokenDuration s)); reflexivity.
Qed.

(** X20.  Issue and verify.  For a codec that reads back the header and
    the claims it wrote: issuing does not fail; the issuing service, asked
    before the expiry, returns exactly the user id and the role the token
    was issued for; asked at or after the expiry it returns the expired
    error; and the expiry is the issue time plus the lifetime rounded down
    to a whole second. *)
Theorem ValidateToken_round_trip (s : auth.JWTService)
    (issued now userId : Z) (role : string) :
  (exists h, jwt.json_Unmarshal_Header
               (jwt.json_Marshal_Header (jwt.mkHeader (Some "JWT") (Some "HS256")))
             = Some h /\ jwt.alg h = Some "HS256") ->
  jwt.json_Unmarshal_Claims (jwt.json_Marshal_Claims (auth.newClaims s issued userId role))
    = Some (auth.newClaims s issued userId role) ->
  let token := fst (auth.GenerateToken s issued userId role) in
  let expiry := jwt.NewNumericDate (issued + auth.tokenDuration s) in
  snd (auth.GenerateToken s issued userId role) = None /\
  (now < expiry ->
   auth.ValidateToken s now token = (Some (authMiddleware.mkClaims userId role), None)) /\
  (expiry <= now ->
   auth.ValidateToken s now token = (None, Some auth.ErrExpiredToken)) /\
  issued + auth.tokenDuration s - time.Second < expiry <= issued + auth.tokenDuration s.
Proof.
  intros Hh Hc token expiry.
  destruct (ValidateToken_own s issued now userId role Hh Hc) as (Hgen & _ & Hval).
  split; [exact Hgen|].
  fold token expiry in Hval. rewrite Hval.
  split; [|split].
  - intros Hlt. now rewrite (proj2 (Z.ltb_lt _ _) Hlt).
  - intros Hge. now rewrite (proj2 (Z.ltb_ge _ _) Hge).
  - pose proof (NewNumericDate_bounds (issued + auth.tokenDuration s)) as [Hb _].
    fold expiry in Hb. lia.
Qed.

(** X21.  What acceptance implies.  A token string for which verification
    returns claims has three dot-separated segments; its third segment
    decodes to the keyed hash, under the secret of the service and one of
    the HMAC methods, of the first two segments joined by a dot; the
    claims returned are the user id and role of the decoded second
    segment; and at the time of verification the expiry, if any, lies
    ahead and the not-before time, if any, does not. *)
Theorem ValidateToken_accepted (s : auth.JWTService) (now : Z)
    (tokenString : string) (claims : authMiddleware.Claims) :
  auth.ValidateToken s now tokenString = (Some claims, None) ->
  exists (p0 p1 p2 payload sig : string) (custom : auth.CustomClaims) (h : jwt.Hash),
    Go.Split tokenString "." = [p0; p1; p2] /\
    base64.DecodeString p1 = Some payload /\
    jwt.json_Unmarshal_Claims payload = Some custom /\
    claims = authMiddleware.mkClaims (auth.UserId custom) (auth.Role custom) /\
    base64.DecodeString p2 = Some sig /\
    sig = jwt.hmac_Sum h (auth.secretKey s) (p0 +:+ "." +:+ p1) /\
    (forall exp, jwt.ExpiresAt (auth.Registered custom) = Some exp -> now < exp) /\
    (forall nbf, jwt.NotBefore (auth.Registered custom) = Some nbf -> nbf <= now).
Proof.
  unfold auth.ValidateToken, jwt.ParseWithClaims, jwt.ParseUnverified.
  destruct (Go.Split tokenString ".") as [|p0 [|p1 [|p2 [|p3 rest]]]] eqn:Hsplit;
    try (intros Hv; destruct (errors.Is _ _); discriminate Hv).
  destruct (base64.DecodeString p0) as [headerBytes|];
    [|intros Hv; destruct (errors.Is _ _); discriminate Hv].
  destruct (jwt.json_Unmarshal_Header headerBytes) as [header|];
    [|intros Hv; destruct (errors.Is _ _); discriminate Hv].
  destruct (base64.DecodeString p1) as [payload|] eqn:Hpayload;
    [|intros Hv; destruct (errors.Is _ _); discriminate Hv].
  destruct (jwt.json_Unmarshal_Claims payload) as [custom|] eqn:Hcustom;
    [|intros Hv; destruct (errors.Is _ _); discriminate Hv].
  destruct (jwt.alg header) as [headerAlg|];
    [|intros Hv; destruct (errors.Is _ _); discriminate Hv].
  destruct (jwt.GetSigningMethod headerAlg) as [method|];
    [|intros Hv; destruct (errors.Is _ _); discriminate Hv].
  cbn [nth jwt.Raw jwt.Method jwt.TokenHeader jwt.TokenClaims].
  destruct (base64.DecodeString p2) as [sig|] eqn:Hdecoded;
    [|intros Hv; destruct (errors.Is _ _); discriminate Hv].
  destruct method as [h|other];
    cbn [auth.keyFunc jwt.Method jwt.Verify];
    [|intros Hv; destruct (errors.Is _ _); discriminate Hv].
  destruct (String.eqb_spec sig (jwt.hmac_Sum h (auth.secretKey s) (p0 +:+ "." +:+ p1)))
    as [Hsig|_]; [|intros Hv; destruct (errors.Is _ _); discriminate Hv].
  unfold jwt.Validate.
  destruct (jwt.ExpiresAt (auth.Registered custom)) as [exp|] eqn:Hexp;
  destruct (jwt.NotBefore (auth.Registered custom)) as [nbf|] eqn:Hnbf;
    try destruct (Z.ltb_spec now exp);
    try destruct (Z.ltb_spec now nbf);
    cbn -[errors.Is]; intros Hv;
    try (destruct (errors.Is _ _); discriminate Hv);
    injection Hv as <-;
    exists p0, p1, p2, payload, sig, custom, h;
    rewrite Hexp, Hnbf;
    (split; [reflexivity|]); (split; [exact Hpayload|]);
    (split; [exact Hcustom|]); (split; [reflexivity|]);
    (split; [exact Hdecoded|]); (split; [exact Hsig|]);
    split; intros ? Heq; try discriminate Heq; injection Heq as <-; lia.
Qed.

(** X22.  From issuing to the gate.  With the token service as the
    validator of the authentication gate, a request carrying a token the
    service issued passes, before the expiry, with the user id and role
    the token was issued for installed; at or after the expiry it is
    answered 401 "invalid token" with "token has expired" as data. *)
Theorem issued_token_at_the_gate (s : auth.JWTService)
    (issued now userId : Z) (role : string)
    (Next : gin.Context -> gin.Outcome) (c : gin.Context) :
  (exists h, jwt.json_Unmarshal_Header
               (jwt.json_Marshal_Header (jwt.mkHeader (Some "JWT") (Some "HS256")))
             = Some h /\ jwt.alg h = Some "HS256") ->
  jwt.json_Unmarshal_Claims (jwt.json_Marshal_Claims (auth.newClaims s issued userId role))
    = Some (auth.newClaims s issued userId role) ->
  let token := fst (auth.GenerateToken s issued userId role) in
  let m := middleware.mkMiddleware (auth.ValidateToken s now) in
  let c1 := gin.Header c "Vary" "Authorization" in
  gin.GetHeader c "Authorization" = "Bearer " +:+ token ->
  (now < jwt.NewNumericDate (issued + auth.tokenDuration s) ->
   middleware.RequireAuth m Next c =
   Next (handler_context.SetUserRole (handler_context.SetUserId c1 userId) role)) /\
  (jwt.NewNumericDate (issued + auth.tokenDuration s) <= now ->
   middleware.RequireAuth m Next c =
   gin.Done (gin.AbortWithStatusJSON c1 http.StatusUnauthorized
               (<[ "message" := gin.AnyString "invalid token" ]>
                  {[ "data" := gin.AnyString "token has expired" ]}))).
Proof.
  intros Hh Hc token m c1 Hhead.
  destruct (ValidateToken_own s issued now userId role Hh Hc) as (_ & Hne & Hval).
  fold token in Hne, Hval.
  split.
  - intros Hlt. rewrite (proj2 (Z.ltb_lt _ _) Hlt) in Hval.
    apply (RequireAuth_accepted m Next c token
             (authMiddleware.mkClaims userId role) Hne Hhead Hval).
  - intros Hge. rewrite (proj2 (Z.ltb_ge _ _) Hge) in Hval.
    unfold middleware.RequireAuth, middleware.authorizationHeader.
    change (gin.GetHeader (gin.Header c "Vary" "Authorization") "Authorization")
      with (gin.GetHeader c "Authorization").
    rewrite Hhead.
    destruct (bearer_token token) as [Hp Ht].
    change middleware.bearerPrefix with "Bearer " in Hp, Ht.
    change middleware.bearerPrefix with "Bearer ".
    rewrite Hp, Ht.
    destruct (String.eqb_spec ("Bearer " +:+ token) ""); [discriminate|].
    destruct (String.eqb_spec token ""); [contradiction|].
    cbn [middleware.jwtValidator m]. rewrite Hval. reflexivity.
Qed.

End Tokens.

(** X23.  Constructing the token service.  An empty secret is refused;
    otherwise the service is constructed, keeps the secret, and has a
    non-empty issuer, the configured one or the default, and a lifetime
    that is not zero. *)
Theorem NewJWTService_cases (config : auth.JWTConfig) :
  (auth.SecretKey config = "" ->
   auth.NewJWTService config =
     (None, Some (New "auth.NewJWTService" "secret key is required"))) /\
  (auth.SecretKey config <> "" ->
   exists s : auth.JWTService,
     auth.NewJWTService config = (Some s, None) /\
     auth.secretKey s = auth.SecretKey config /\
     auth.secretKey s <> "" /\
     auth.issuer s <> "" /\
     auth.tokenDuration s <> 0 /\
     (auth.ConfigIssuer config <> "" -> auth.issuer s = auth.ConfigIssuer config) /\
     (auth.ConfigIssuer config = "" -> auth.issuer s = "go-backend-template")).
Proof.
  unfold auth.NewJWTService. split.
  - intros ->. reflexivity.
  - intros Hne. rewrite (proj2 (String.eqb_neq _ _) Hne).
    eexists. split; [reflexivity|]. cbn [auth.secretKey auth.issuer auth.tokenDuration].
    split; [reflexivity|]. split; [exact Hne|].
    split; [|split; [|split]].
    + destruct (String.eqb_spec (auth.ConfigIssuer config) ""); [discriminate|assumption].
    + destruct (Z.eqb_spec (auth.TokenDuration config) 0);
        [unfold time.Hour, time.Second; lia | assumption].
    + intros Hi. now rewrite (proj2 (String.eqb_neq _ _) Hi).
    + intros ->. reflexivity.
Qed.


(** ** The properties above on the scenarios *)

Lemma routes_require_token_witness :
  let c := scenario.request [] "5" in
  let c' := gin.AbortWithStatusJSON (gin.Header c "Vary" "Authorization")
              http.StatusUnauthorized
              {[ "message" := gin.AnyString "authorization header is required" ]} in
  let route := routes.mkRoute "DELETE" ["/api"; ""; "/users"; "/:id"]
                 [middleware.RequireAuth scenario.gate;
                  middleware.RequireAdmin scenario.gate;
                  scenario.named "DeleteUser"] in
  (routes.method route = "POST" /\
   routes.path route = ["/api"; "/auth"; "/login"] /\
   routes.serve route c = scenario.named "Login" gin.Done c) \/
  routes.serve route c = gin.Done c'.
Proof.
  cbv zeta.
  apply (routes_require_token scenario.gate scenario.api
           (routes.mkHandlers scenario.userHandler)
           (routes.mkRoute "DELETE" ["/api"; ""; "/users"; "/:id"]
              [middleware.RequireAuth scenario.gate;
               middleware.RequireAdmin scenario.gate;
               scenario.named "DeleteUser"])
           (scenario.request [] "5")).
  - do 6 right. left. reflexivity.
  - reflexivity.
  - intros Next. reflexivity.
Defined.

Lemma routes_by_role_witness :
  let c := scenario.request ["Bearer user-token"] "1" in
  let c' := handler_context.SetUserRole
              (handler_context.SetUserId (gin.Header c "Vary" "Authorization") 7)
              "user" in
  let changePassword :=
    routes.mkRoute "POST" ["/api"; ""; "/users"; "/:id/change-password"]
      [middleware.RequireAuth scenario.gate; scenario.named "ChangePassword"] in
  let deleteUser :=
    routes.mkRoute "DELETE" ["/api"; ""; "/users"; "/:id"]
      [middleware.RequireAuth scenario.gate; middleware.RequireAdmin scenario.gate;
       scenario.named "DeleteUser"] in
  routes.serve changePassword c = scenario.named "ChangePassword" gin.Done c' /\
  routes.serve deleteUser c =
    gin.Done (gin.AbortWithStatusJSON c' http.StatusForbidden
                {[ "message" := gin.AnyString "insufficient permissions" ]}).
Proof.
  cbv zeta. split.
  - pose proof (routes_by_role scenario.gate scenario.api
                  (routes.mkHandlers scenario.userHandler)
                  (routes.mkRoute "POST" ["/api"; ""; "/users"; "/:id/change-password"]
                     [middleware.RequireAuth scenario.gate;
                      scenario.named "ChangePassword"])
                  (scenario.request ["Bearer user-token"] "1")
                  "user-token" (authMiddleware.mkClaims 7 "user")
                  ltac:(do 7 right; left; reflexivity) eq_refl
                  ltac:(discriminate) eq_refl eq_refl) as H.
    cbv zeta in H.
    destruct H as [(_ & H & _) | [(H & _) | [(H & _) | [(H & _) | [(H & _) |
                  [(H & _) | [(H & _) | (_ & H)]]]]]]];
      try (vm_compute in H; discriminate H). exact H.
  - pose proof (routes_by_role scenario.gate scenario.api
                  (routes.mkHandlers scenario.userHandler)
                  (routes.mkRoute "DELETE" ["/api"; ""; "/users"; "/:id"]
                     [middleware.RequireAuth scenario.gate;
                      middleware.RequireAdmin scenario.gate;
                      scenario.named "DeleteUser"])
                  (scenario.request ["Bearer user-token"] "1")
                  "user-token" (authMiddleware.mkClaims 7 "user")
                  ltac:(do 6 right; left; reflexivity) eq_refl
                  ltac:(discriminate) eq_refl eq_refl) as H.
    cbv zeta in H.
    destruct H as [(_ & H & _) | [(H & _) | [(H & _) | [(H & _) | [(H & _) |
                  [(H & _) | [(_ & H) | (H & _)]]]]]]];
      try (vm_compute in H; discriminate H). exact H.
Defined.

Lemma invalid_path_id_witness :
  let c := scenario.changePasswordRequest "12a" "password123,password456" in
  let refused :=
    deps.mkRun (Some (handler.HandleValidationError c "invalid user id"))
               scenario.quiet [] in
  deps.run scenario.wired (handler.GetUser c) scenario.quiet = refused /\
  deps.run scenario.wired (handler.UpdateUser scenario.bindUpdate c) scenario.quiet
    = refused /\
  deps.run scenario.wired (handler.DeleteUser c) scenario.quiet = refused /\
  deps.run scenario.wired (handler.ChangePassword scenario.bind c) scenario.quiet
    = refused /\
  gin.Aborted (handler.HandleValidationError c "invalid user id") = true /\
  gin.WriterStatus (handler.HandleValidationError c "invalid user id")
    = http.StatusBadRequest /\
  gin.WriterBody (handler.HandleValidationError c "invalid user id")
    = [ {[ "message" := gin.AnyString "invalid user id" ]} ].
Proof.
  cbv zeta.
  pose proof (invalid_path_id scenario.wired scenario.bind scenario.bindUpdate
                (scenario.changePasswordRequest "12a" "password123,password456")
                scenario.quiet eq_refl) as H.
  cbv zeta in H. destruct H as (H1 & H2 & H3 & H4 & H5 & H6).
  repeat (split; [assumption|]). apply H6. reflexivity.
Defined.

Lemma GetMe_reads_installed_identity_witness :
  exists c' : gin.Context,
    middleware.RequireAuth scenario.gate gin.Done
      (scenario.request ["Bearer admin-token"] "") = gin.Done c' /\
    deps.calls (deps.run scenario.wired (handler.GetMe c') scenario.quiet)
      = [deps.VGetUserById 1 (Some scenario.alice, None)] /\
    deps.result (deps.run scenario.wired (handler.GetMe c') scenario.quiet)
      = Some (handler.HandleSuccess c' http.StatusOK
                (handler.ToUserResponse scenario.alice)).
Proof.
  destruct (proj1 (GetMe_reads_installed_identity scenario.wired scenario.gate
                     (scenario.request ["Bearer admin-token"] "") scenario.quiet)
              "admin-token" (authMiddleware.mkClaims 1 "admin")
              ltac:(discriminate) eq_refl eq_refl)
    as (c' & Hgate & Hcalls & Hresult).
  exists c'. split; [exact Hgate|]. split; [exact Hcalls|].
  apply (Hresult scenario.alice scenario.quiet). reflexivity.
Defined.

Lemma invalid_role_refused_at_boundary_witness :
  let create := gin.NewContext ∅ "dave@example.com,dave,password123,Dave,owner" [] in
  let update := gin.NewContext ∅ "Alice B.,root" [("id", "1")] in
  deps.run scenario.wired (handler.CreateUser scenario.bindCreate create) scenario.quiet
    = deps.mkRun
        (Some (handler.HandleValidationError create
                 "invalid role: owner, must be one of: admin, user, viewer"))
        scenario.quiet [] /\
  deps.run scenario.wired (handler.UpdateUser scenario.bindUpdate update) scenario.quiet
    = deps.mkRun
        (Some (handler.HandleValidationError update
                 "invalid role: root, must be one of: admin, user, viewer"))
        scenario.quiet [].
Proof.
  cbv zeta. split.
  - pose proof (invalid_role_refused_at_boundary scenario.wired scenario.bindCreate
                  scenario.bindUpdate
                  (gin.NewContext ∅ "dave@example.com,dave,password123,Dave,owner" [])
                  scenario.quiet) as H.
    cbv zeta in H. destruct H as (H & _ & _).
    apply (H (handler.mkCreateUserRequest "dave@example.com" "dave" "password123"
                "Dave" "owner")); reflexivity.
  - pose proof (invalid_role_refused_at_boundary scenario.wired scenario.bindCreate
                  scenario.bindUpdate
                  (gin.NewContext ∅ "Alice B.,root" [("id", "1")])
                  scenario.quiet) as H.
    cbv zeta in H. destruct H as (_ & H & _).
    apply (H (handler.mkUpdateUserRequest None None (Some "Alice B.") (Some "root") None)
             1 "root"); reflexivity.
Defined.

Lemma HandleDomainError_response_witness :
  let c := scenario.request [] "1" in
  let err := InternalServerError "failed to get user" (Some postgres.ErrNoUser) in
  let c' := handler.HandleDomainError c err in
  gin.Aborted c' = true /\
  gin.WriterStatus c' = http.StatusInternalServerError /\
  gin.WriterBody c' =
    [ {[ "message" := gin.AnyString "failed to get user: user not found" ]} ].
Proof.
  cbv zeta.
  pose proof (HandleDomainError_response (scenario.request [] "1")
                (InternalServerError "failed to get user" (Some postgres.ErrNoUser))
                eq_refl) as H.
  cbv zeta in H. destruct H as (Hab & _ & _ & _ & Hbody).
  split; [exact Hab|]. split; [reflexivity|].
  apply (Hbody "failed to get user" postgres.ErrNoUser). reflexivity.
Defined.

Lemma ValidateToken_round_trip_witness :
  let token := fst (auth.GenerateToken (H := scenario.primitives)
                      scenario.service1 scenario.noon 123 "admin") in
  let expiry := jwt.NewNumericDate (scenario.noon + time.Hour) in
  auth.ValidateToken (H := scenario.primitives) scenario.service1
      (expiry - 1) token
    = (Some (authMiddleware.mkClaims 123 "admin"), None) /\
  auth.ValidateToken (H := scenario.primitives) scenario.service1 expiry token
    = (None, Some auth.ErrExpiredToken).
Proof.
  cbv zeta. split.
  - pose proof (ValidateToken_round_trip (H := scenario.primitives)
                  scenario.service1 scenario.noon
                  (jwt.NewNumericDate (scenario.noon + time.Hour) - 1) 123 "admin"
                  ltac:(eexists; split; reflexivity) eq_refl) as H.
    cbv zeta in H. destruct H as (_ & H & _). apply H. vm_compute. reflexivity.
  - pose proof (ValidateToken_round_trip (H := scenario.primitives)
                  scenario.service1 scenario.noon
                  (jwt.NewNumericDate (scenario.noon + time.Hour)) 123 "admin"
                  ltac:(eexists; split; reflexivity) eq_refl) as H.
    cbv zeta in H. destruct H as (_ & _ & H & _). apply H. vm_compute. discriminate.
Defined.

Lemma ValidateToken_accepted_witness :
  let token := fst (auth.GenerateToken (H := scenario.primitives)
                      scenario.service1 scenario.noon 123 "admin") in
  exists (p0 p1 p2 payload sig : string) (custom : auth.CustomClaims) (h : jwt.Hash),
    Go.Split token "." = [p0; p1; p2] /\
    base64.DecodeString p1 = Some payload /\
    jwt.json_Unmarshal_Claims (Primitives := scenario.primitives) payload = Some custom /\
    authMiddleware.mkClaims 123 "admin"
      = authMiddleware.mkClaims (auth.UserId custom) (auth.Role custom) /\
    base64.DecodeString p2 = Some sig /\
    sig = jwt.hmac_Sum (Primitives := scenario.primitives) h "secret-key-1"
            (p0 +:+ "." +:+ p1) /\
    (forall exp, jwt.ExpiresAt (auth.Registered custom) = Some exp ->
                 scenario.noon + time.Second < exp) /\
    (forall nbf, jwt.NotBefore (auth.Registered custom) = Some nbf ->
                 nbf <= scenario.noon + time.Second).
Proof.
  cbv zeta.
  apply (ValidateToken_accepted (H := scenario.primitives) scenario.service1
           (scenario.noon + time.Second)
           (fst (auth.GenerateToken (H := scenario.primitives)
                   scenario.service1 scenario.noon 123 "admin"))
           (authMiddleware.mkClaims 123 "admin")).
  vm_compute. reflexivity.
Defined.

Lemma issued_token_at_the_gate_witness :
  let token := fst (auth.GenerateToken (H := scenario.primitives)
                      scenario.service1 scenario.noon 7 "user") in
  let c := scenario.request ["Bearer " +:+ token] "7" in
  let m := middleware.mkMiddleware
             (auth.ValidateToken (H := scenario.primitives) scenario.service1
                (scenario.noon + time.Second)) in
  middleware.RequireAuth m gin.Done c =
  gin.Done (handler_context.SetUserRole
              (handler_context.SetUserId (gin.Header c "Vary" "Authorization") 7)
              "user").
Proof.
  cbv zeta.
  pose proof (issued_token_at_the_gate (H := scenario.primitives)
                scenario.service1 scenario.noon (scenario.noon + time.Second)
                7 "user" gin.Done
                (scenario.request
                   ["Bearer " +:+ fst (auth.GenerateToken (H := scenario.primitives)
                                         scenario.service1 scenario.noon 7 "user")] "7")
                ltac:(eexists; split; reflexivity) eq_refl) as H.
  cbv zeta in H. apply H; [reflexivity | vm_compute; reflexivity].
Defined.

Lemma NewJWTService_cases_witness :
  auth.NewJWTService (auth.mkJWTConfig "" time.Hour "issuer")
    = (None, Some (New "auth.NewJWTService" "secret key is required")) /\
  exists s : auth.JWTService,
    auth.NewJWTService (auth.mkJWTConfig "test-secret-key" 0 "") = (Some s, None) /\
    auth.secretKey s = "test-secret-key" /\
    auth.issuer s = "go-backend-template" /\
    auth.tokenDuration s <> 0.
Proof.
  split.
  - apply (proj1 (NewJWTService_cases (auth.mkJWTConfig "" time.Hour "issuer"))).
    reflexivity.
  - destruct (proj2 (NewJWTService_cases (auth.mkJWTConfig "test-secret-key" 0 ""))
                ltac:(discriminate))
      as (s & Hnew & Hkey & _ & _ & Hdur & _ & Hissuer).
    exists s. split; [exact Hnew|]. split; [exact Hkey|].
    split; [apply Hissuer; reflexivity | exact Hdur].
Defined.

(* ===================================================================== *)
(** * Further properties of the PostgreSQL repository *)
(* ===================================================================== *)











Lemma insertDesc_In (u x : entity.User) (l : list entity.User) :
  In x (postgres.insertDesc u l) <-> x = u \/ In x l.
Proof.
  induction l as [|v l IH]; simpl.
  - intuition.
  - destruct (entity.CreatedAt v <? entity.CreatedAt u); simpl; [intuition|].
    rewrite IH. intuition.
Qed.

Lemma insertDesc_length (u : entity.User) (l : list entity.User) :
  length (postgres.insertDesc u l) = Datatypes.S (length l).
Proof.
  induction l as [|v l IH]; simpl; [reflexivity|].
  destruct (entity.CreatedAt v <? entity.CreatedAt u); simpl; [reflexivity|].
  now rewrite IH.
Qed.

Lemma insertDesc_sorted (u : entity.User) (l : list entity.User) :
  ForallOrdPairs (fun a b => entity.CreatedAt b <= entity.CreatedAt a) l ->
  ForallOrdPairs (fun a b => entity.CreatedAt b <= entity.CreatedAt a)
                 (postgres.insertDesc u l).
Proof.
  induction l as [|v l IH]; simpl; intros Hs.
  - constructor; [constructor | constructor].
  - inversion Hs as [|? ? Hv Hl]; subst.
    destruct (Z.ltb_spec (entity.CreatedAt v) (entity.CreatedAt u)).
    + constructor; [|exact Hs].
      constructor; [lia|].
      eapply List.Forall_impl; [|exact Hv]. cbn beta. intros w Hw. lia.
    + constructor; [|apply IH; exact Hl].
      apply List.Forall_forall. intros w Hw. apply insertDesc_In in Hw.
      destruct Hw as [-> | Hw]; [lia|].
      rewrite List.Forall_forall in Hv. apply Hv. exact Hw.
Qed.

Lemma sorted_skipn {A : Type} (R : A -> A -> Prop) (n : nat) (l : list A) :
  ForallOrdPairs R l -> ForallOrdPairs R (skipn n l).
Proof.
  revert l. induction n as [|n IH]; intros l Hs; [exact Hs|].
  destruct l as [|a l]; [exact Hs|].
  simpl. apply IH. now inversion Hs.
Qed.

Lemma In_firstn {A : Type} (n : nat) (l : list A) (x : A) :
  In x (firstn n l) -> In x l.
Proof.
  revert l. induction n as [|n IH]; intros l; [intros []|].
  destruct l as [|a l]; [intros []|].
  simpl. intros [->|H]; [now left | right; now apply IH].
Qed.

Lemma In_skipn {A : Type} (n : nat) (l : list A) (x : A) :
  In x (skipn n l) -> In x l.
Proof.
  revert l. induction n as [|n IH]; intros l; [exact (fun H => H)|].
  destruct l as [|a l]; [intros []|].
  simpl. intros H. right. now apply IH.
Qed.

Lemma sorted_firstn {A : Type} (R : A -> A -> Prop) (n : nat) (l : list A) :
  ForallOrdPairs R l -> ForallOrdPairs R (firstn n l).
Proof.
  revert l. induction n as [|n IH]; intros l Hs; [constructor|].
  destruct l as [|a l]; [constructor|].
  inversion Hs as [|? ? Ha Hl]; subst. simpl. constructor; [|apply IH; exact Hl].
  apply List.Forall_forall. intros x Hx. apply In_firstn in Hx.
  rewrite List.Forall_forall in Ha. now apply Ha.
Qed.

Lemma sorted_listing (l : list entity.User) :
  ForallOrdPairs (fun a b => entity.CreatedAt b <= entity.CreatedAt a)
                 (fold_right postgres.insertDesc [] l) /\
  length (fold_right postgres.insertDesc [] l) = length l /\
  (forall x, In x (fold_right postgres.insertDesc [] l) <-> In x l).
Proof.
  induction l as [|u l (Hs & Hl & Hin)]; simpl.
  - split; [constructor|]. split; [reflexivity|]. tauto.
  - split; [apply insertDesc_sorted; exact Hs|].
    split; [rewrite insertDesc_length; now rewrite Hl|].
    intros x. rewrite insertDesc_In, Hin. intuition.
Qed.

(** X28.  The listing query, on a reachable database and for an offset
    that is not negative: it does not fail; every user listed is a stored
    row, and an active one when only active users are asked for; the list
    is in descending order of creation time; with a positive limit it has
    at most that many users; and with a limit of zero or less there is no
    limit at all: the list has every user the count query counts, less the
    offset. *)
Theorem postgres_GetUsers_listing (db : postgres.DB) (offset limit : Z)
    (onlyActive : bool) :
  postgres.failure db = None ->
  0 <= offset ->
  let r := postgres.GetUsers db offset limit onlyActive in
  snd r = None /\
  (forall u, In u (fst r) ->
     In u (postgres.rows db) /\ (onlyActive = true -> entity.IsActive u = true)) /\
  ForallOrdPairs (fun a b => entity.CreatedAt b <= entity.CreatedAt a) (fst r) /\
  (0 < limit -> Z.of_nat (length (fst r)) <= limit) /\
  (limit <= 0 ->
   Z.of_nat (length (fst r))
   = Z.max 0 (fst (postgres.GetUserCount db onlyActive) - offset)).
Proof.
  intros Hf Hoff. cbv zeta. unfold postgres.GetUsers, postgres.GetUserCount.
  rewrite Hf. rewrite (proj2 (Z.ltb_ge _ _) Hoff).
  set (visible := filter (postgres.visible onlyActive) (postgres.rows db)).
  destruct (sorted_listing visible) as (Hs & Hl & Hin).
  set (sorted := fold_right postgres.insertDesc [] visible) in *.
  assert (Hvis : forall u, In u sorted ->
            In u (postgres.rows db) /\ (onlyActive = true -> entity.IsActive u = true)).
  { intros u Hu. apply Hin in Hu. unfold visible in Hu.
    apply list_elem_of_In, list_elem_of_filter in Hu. destruct Hu as [Hv Hu].
    split; [now apply list_elem_of_In|].
    intros ->. unfold postgres.visible in Hv. simpl in Hv.
    destruct (entity.IsActive u); [reflexivity | destruct Hv]. }
  cbn [fst snd]. split; [reflexivity|].
  destruct (Z.ltb_spec 0 limit) as [Hpos|Hnon].
  - split; [|split; [|split]].
    + intros u Hu. apply In_firstn, In_skipn in Hu. now apply Hvis.
    + apply sorted_firstn, sorted_skipn. exact Hs.
    + intros _. rewrite length_firstn. lia.
    + intros Hle. lia.
  - split; [|split; [|split]].
    + intros u Hu. apply In_skipn in Hu. now apply Hvis.
    + apply sorted_skipn. exact Hs.
    + intros Hlt. lia.
    + intros _. rewrite length_skipn, Hl. lia.
Qed.


(* ===================================================================== *)
(** * The service over the PostgreSQL repository, end to end *)
(* ===================================================================== *)



Section Wired.
Import deps.
Variable h : server.Hasher.
Hypothesis hash_compare :
  forall password hashed : string,
    server.hash h password = (hashed, None) ->
    server.compare h hashed password = None.



End Wired.


(** ** The properties above on the scenarios *)





Lemma postgres_GetUsers_listing_witness :
  let r := postgres.GetUsers scenario.users 0 1 false in
  snd r = None /\
  (forall u, In u (fst r) -> In u (postgres.rows scenario.users)) /\
  ForallOrdPairs (fun a b => entity.CreatedAt b <= entity.CreatedAt a) (fst r) /\
  Z.of_nat (length (fst r)) <= 1 /\
  Z.of_nat (length (fst (postgres.GetUsers scenario.users 1 0 false)))
    = Z.max 0 (fst (postgres.GetUserCount scenario.users false) - 1).
Proof.
  cbv zeta.
  pose proof (postgres_GetUsers_listing scenario.users 0 1 false eq_refl
                ltac:(lia)) as H.
  pose proof (postgres_GetUsers_listing scenario.users 1 0 false eq_refl
                ltac:(lia)) as H0.
  cbv zeta in H, H0.
  destruct H as (Herr & Hin & Hsorted & Hlimit & _).
  destruct H0 as (_ & _ & _ & _ & Hall).
  split; [exact Herr|]. split; [intros u Hu; apply (Hin u Hu)|].
  split; [exact Hsorted|]. split; [apply Hlimit; lia | apply Hall; lia].
Defined.



